(** * Liquid-handling protocols of the BardLab Opentrons repository

    A shallow embedding of the bookkeeping code of the protocol scripts
    under [protocols/]: tip-rack rotation, waste-volume accounting,
    supernatant removal, the binding-buffer distribution loop and the tip
    handling of the UltraExpress scripts.

    Conventions.
    - A protocol script is a Python function [run(protocol)] that mutates
      closure variables and calls the robot API.  It is embedded in a
      state-and-exception monad [run V]: the state pairs the part of the
      robot runtime the scripts can observe ([protocol_context]: the
      labware loaded so far, where each labware sits, and the commands
      issued, oldest first) with the script's own variables [V].
    - Python dictionaries are [gmap]s, a missing key raises [KeyError];
      Python lists are lists, indexing out of range raises [IndexError].
    - Python [int]s are [Z].  Volumes, heights and rates are Python numbers
      (int or float); they are embedded as exact rationals [Q], so
      floating-point rounding is outside the model.
    - Formatted strings that only name wells ([f"A{n}"]) are built with
      [pretty]; formatted log messages keep their numeric arguments
      unformatted (see [fragment]). *)

From Stdlib Require Import ZArith QArith Qround Qminmax Lia ZifyBool Lqa.
From stdpp Require Import base gmap strings list pretty.

Open Scope string_scope.
Open Scope Z_scope.
Open Scope list_scope.

(** ** Python helpers *)

Module Py.

Inductive exn :=
| KeyError (key : string)
| IndexError
| TypeError (what : string)
| AttributeError (what : string)
| ValueError (msg : string)
| OutOfTipsError.

Inductive result (A : Type) :=
| Ok (a : A)
| Raise (e : exn).
Arguments Ok {A} a.
Arguments Raise {A} e.

(** [x < y], [x > y], [x <= y] on numbers. *)
Definition ltb (x y : Q) : bool := negb (Qle_bool y x).
Definition gtb (x y : Q) : bool := ltb y x.
Definition leb (x y : Q) : bool := Qle_bool x y.

(** Truth value of a string ([if s:]): the empty string is false. *)
Definition truthy (s : string) : bool :=
  match s with
  | EmptyString => false
  | _ => true
  end.

(** Truth value of an optional string ([None] or a string). *)
Definition truthy_opt (s : option string) : bool :=
  match s with
  | None => false
  | Some s => truthy s
  end.

(** [l[a:b]] for non-negative [a], [b]. *)
Definition slice {A} (a b : nat) (l : list A) : list A :=
  take (b - a)%nat (drop a l).

(** [l.pop()]: the last element and the list without it. *)
Definition pop {A} (l : list A) : option (A * list A) :=
  match last l with
  | Some x => Some (x, removelast l)
  | None => None
  end.

(** [l[:n]] and [l[n:]] for any integer [n]: a negative [n] counts from
    the end. *)
Definition slice_to {A} (n : Z) (l : list A) : list A :=
  if n <? 0 then take (Z.to_nat (Z.of_nat (length l) + n)) l
  else take (Z.to_nat n) l.

Definition slice_from {A} (n : Z) (l : list A) : list A :=
  if n <? 0 then drop (Z.to_nat (Z.of_nat (length l) + n)) l
  else drop (Z.to_nat n) l.

(** [math.ceil(a / b)] for integers [a] and positive [b]. *)
Definition ceil_div (a b : Z) : Z := - ((- a) / b).

(** Truth value of a number or [None] ([if x:]): [None] and zero are
    false. *)
Definition truthy_num (x : option Q) : bool :=
  match x with
  | None => false
  | Some q => negb (Qeq_bool q 0)
  end.

Definition truthy_int (x : option Z) : bool :=
  match x with
  | None => false
  | Some n => negb (n =? 0)
  end.

(** [x if x else dflt] for a height [x] that is a number or [False]. *)
Definition height_or (x : option Q) (dflt : Q) : Q :=
  match x with
  | Some z => if truthy_num x then z else dflt
  | None => dflt
  end.

(** [sorted([a, b, c])[1]] *)
Definition sorted3_1 (a b c : Q) : Q :=
  if leb a b then
    if leb b c then b else if leb a c then c else a
  else
    if leb a c then a else if leb b c then c else b.

(** [np.arange(start, 0, -step)] for positive [step]: [start],
    [start - step], ... while positive. *)
Definition arange_down (start step : Q) : list Q :=
  (fun k => (start - inject_Z (Z.of_nat k) * step)%Q)
    <$> seq 0 (Z.to_nat (Qceiling (start / step))).

(** The newline character. *)
Definition nl : string := String (Ascii.ascii_of_nat 10) EmptyString.

(** [s.title()] for a string of ASCII characters: a letter that follows
    a letter is put in lower case, any other letter in upper case. *)
Definition is_lower (c : Ascii.ascii) : bool :=
  let n := Ascii.nat_of_ascii c in (97 <=? n)%nat && (n <=? 122)%nat.
Definition is_upper (c : Ascii.ascii) : bool :=
  let n := Ascii.nat_of_ascii c in (65 <=? n)%nat && (n <=? 90)%nat.
Definition to_upper (c : Ascii.ascii) : Ascii.ascii :=
  if is_lower c then Ascii.ascii_of_nat (Ascii.nat_of_ascii c - 32) else c.
Definition to_lower (c : Ascii.ascii) : Ascii.ascii :=
  if is_upper c then Ascii.ascii_of_nat (Ascii.nat_of_ascii c + 32) else c.

Fixpoint title_from (after_letter : bool) (s : string) : string :=
  match s with
  | EmptyString => EmptyString
  | String c s' =>
      if is_lower c || is_upper c
      then String (if after_letter then to_lower c else to_upper c) (title_from true s')
      else String c (title_from false s')
  end.

Definition title (s : string) : string := title_from false s.

End Py.

(** ** The robot API as the scripts see it *)

Module Flex.
Export Py.

(** The two eight-channel pipettes every script loads. *)
Inductive pipette := flex_8channel_50 | flex_8channel_1000.

#[export] Instance pipette_eq_dec : EqDecision pipette.
Proof. solve_decision. Defined.

(** A labware object: the identity it got when it was loaded, and its
    load name. *)
Record labware := { lw_id : nat; lw_load_name : string }.

(** Where a labware can be: a deck slot, off deck, a module or adapter,
    or the waste chute. *)
Inductive location :=
| Slot (name : string)
| OFF_DECK
| OnModule (name : string)
| WasteChute.

#[export] Instance labware_eq_dec : EqDecision labware.
Proof. solve_decision. Defined.

(** [labware[name]] *)
Record well := { w_labware : labware; w_name : string }.

#[export] Instance well_eq_dec : EqDecision well.
Proof. solve_decision. Defined.

(** [well.bottom(z)], [well.top(z)], [well.top().move(Point(x, 0, z))],
    [well.bottom().move(Point(0, 0, z))] and the well itself. *)
Inductive position :=
| bottom (z : Q)
| top (z : Q)
| top_move (x z : Q)
| bottom_move (z : Q)
| in_well.

Record point := { pt_well : well; pt_pos : position }.

Inductive rate_kind := rate_aspirate | rate_dispense | rate_blow_out.

(** A piece of a formatted log message. *)
Inductive fragment :=
| Str (s : string)
| Num (q : Q)
| Int (n : Z)
| Obj (w : well)
| Lw (l : labware)
| Loc (l : location).

(** The API calls the scripts issue. *)
Inductive command :=
| LoadInstrument (pip : pipette) (mount : string)
| LoadModule (name : string) (slot : option string)
| LoadAdapter (module name : string)
| LoadWasteChute
| ModuleCall (module method : string) (args : list Q)
| LoadLabware (lw : labware) (loc : location)
| MoveLabware (lw : labware) (new_location : option location) (use_gripper : bool)
| DelDeck (slot : string)
| Comment (msg : list fragment)
| Pause (msg : string)
| DelayMinutes (minutes : Q)
| DelaySeconds (seconds : Q)
| DelayMsg (minutes seconds : Q) (msg : list fragment)
| SetRailLights (on : bool)
| PickUpTip (pip : pipette) (loc : option well)
| DropTip (pip : pipette) (loc : option well)
| DropTipChute (pip : pipette)
| ReturnTip (pip : pipette)
| ResetTipracks (pip : pipette)
| ConfigureForVolume (pip : pipette) (volume : Q)
| ConfigureNozzleLayout (pip : pipette) (single : bool)
| Aspirate (pip : pipette) (volume : Q) (loc : option point) (rate : Q)
| Dispense (pip : pipette) (volume : Q) (loc : option point) (rate : Q) (push_out : option Q)
| AirGap (pip : pipette) (volume : Q)
| BlowOut (pip : pipette) (loc : option point)
| TouchTip (pip : pipette) (radius v_offset speed : Q)
| MoveTo (pip : pipette) (loc : point)
| SetFlowRate (pip : pipette) (kind : rate_kind) (rate : Q)
| ScaleFlowRate (pip : pipette) (kind : rate_kind) (factor : Q)
| SetDefaultSpeed (pip : pipette) (speed : Q)
| ScaleDefaultSpeed (pip : pipette) (factor : Q).

(** What the scripts can observe of the runtime. *)
Record protocol_context := {
  next_labware : nat;
  parent : gmap nat location;
  commands : list command;
}.

Definition fresh_context : protocol_context :=
  {| next_labware := 0%nat; parent := ∅; commands := [] |}.

(** A running script: the runtime and the script's variables. *)
Record world (V : Type) := { ctx : protocol_context; vars : V }.
Arguments ctx {V} w.
Arguments vars {V} w.

(** A computation returns a value or raises; either way the world keeps
    the effects that happened up to that point. *)
Definition run (V A : Type) : Type := world V -> result A * world V.

#[export] Instance run_ret {V} : MRet (run V) :=
  fun A a w => (Ok a, w).

#[export] Instance run_bind {V} : MBind (run V) :=
  fun A B f m w =>
    match m w with
    | (Ok a, w') => f a w'
    | (Raise e, w') => (Raise e, w')
    end.

Definition raise {V A} (e : exn) : run V A := fun w => (Raise e, w).

Definition get {V} : run V V := fun w => (Ok (vars w), w).

Definition put {V} (s : V) : run V unit :=
  fun w => (Ok tt, {| ctx := ctx w; vars := s |}).

Definition modify {V} (f : V -> V) : run V unit :=
  fun w => (Ok tt, {| ctx := ctx w; vars := f (vars w) |}).

(** The runtime state, for the questions a script asks the runtime. *)
Definition context {V} : run V protocol_context := fun w => (Ok (ctx w), w).

Definition from_option {V A} (e : exn) (o : option A) : run V A :=
  match o with
  | Some a => mret a
  | None => raise e
  end.

Definition from_result {V A} (r : result A) : run V A := fun w => (r, w).

(** The world after the commands [L] were issued. *)
Definition log {V} (L : list command) (w : world V) : world V :=
  {| ctx := {| next_labware := next_labware (ctx w);
               parent := parent (ctx w);
               commands := commands (ctx w) ++ L |};
     vars := vars w |}.

(** Issue one API call. *)
Definition emit {V} (c : command) : run V unit :=
  fun w => (Ok tt, log [c] w).

(** [protocol.load_labware(load_name, location)] *)
Definition load_labware {V} (load_name : string) (loc : location) : run V labware :=
  fun w =>
    let lw := {| lw_id := next_labware (ctx w); lw_load_name := load_name |} in
    (Ok lw, {| ctx := {| next_labware := S (next_labware (ctx w));
                         parent := <[lw_id lw := loc]> (parent (ctx w));
                         commands := commands (ctx w) ++ [LoadLabware lw loc] |};
               vars := vars w |}).

(** [protocol.move_labware(labware, new_location, use_gripper)] *)
Definition move_labware {V} (lw : labware) (new_location : option location)
    (use_gripper : bool) : run V unit :=
  fun w =>
    (Ok tt, {| ctx := {| next_labware := next_labware (ctx w);
                         parent := match new_location with
                                   | Some loc => <[lw_id lw := loc]> (parent (ctx w))
                                   | None => parent (ctx w)
                                   end;
                         commands := commands (ctx w)
                                       ++ [MoveLabware lw new_location use_gripper] |};
               vars := vars w |}).

(** [labware.parent] *)
Definition parent_of {V} (lw : labware) : run V (option location) :=
  fun w => (Ok (parent (ctx w) !! lw_id lw), w).

(** [for x in l: body(x)] *)
Fixpoint for_each {V A} (l : list A) (body : A -> run V unit) : run V unit :=
  match l with
  | [] => mret tt
  | x :: l' => _ ← body x; for_each l' body
  end.

(** [for i, x in enumerate(l): body(i, x)], counting from [i]. *)
Fixpoint for_enumerate {V A} (i : nat) (l : list A)
    (body : nat -> A -> run V unit) : run V unit :=
  match l with
  | [] => mret tt
  | x :: l' => _ ← body i x; for_enumerate (S i) l' body
  end.

(** [[f(x) for x in l]] *)
Fixpoint list_comp {V A B} (l : list A) (f : A -> run V B) : run V (list B) :=
  match l with
  | [] => mret []
  | x :: l' => y ← f x; ys ← list_comp l' f; mret (y :: ys)
  end.

(** The commands issued between world [w] and a later world [w']. *)
Definition since {V} (w w' : world V) : list command :=
  drop (length (commands (ctx w))) (commands (ctx w')).

(** The commands a computation issued, from a given world. *)
Definition issued {V A} (m : run V A) (w : world V) : list command :=
  since w (m w).2.

(** Wells of a 96-well labware: [labware.rows()[0]] is A1..A12,
    [labware.columns()[j]] is A(j+1)..H(j+1). *)
Definition row_names : list string := ["A"; "B"; "C"; "D"; "E"; "F"; "G"; "H"].

Definition rows_0 (lw : labware) : list well :=
  (fun n => {| w_labware := lw; w_name := "A" +:+ pretty n |}) <$> seq 1 12.

Definition column (lw : labware) (j : nat) : list well :=
  (fun r => {| w_labware := lw; w_name := r +:+ pretty (S j) |}) <$> row_names.

(** *** Observations on the commands of a run *)

(** The property [Q] of the outcome of running [m] from [w]. *)
Definition wp {V A} (m : run V A) (Q : result A -> world V -> Prop)
    (w : world V) : Prop :=
  Q (m w).1 (m w).2.

(** [m] returns from [w], and [Q] holds of the value and the world. *)
Definition returns {V A} (m : run V A) (Q : A -> world V -> Prop)
    (w : world V) : Prop :=
  wp m (fun r w' => match r with Ok a => Q a w' | Raise _ => False end) w.

(** Liquid taken up or let go by a pipette, and where its tip was. *)
Inductive transfer :=
| Drawn (volume : Q) (at_point : option point)
| Released (volume : Q) (at_point : option point).

(** The liquid movements of pipette [pip] in a list of commands.  An
    aspirate or dispense without a location happens where the pipette
    is ([here]): where the last [move_to], or the last command with a
    location, left it. *)
Fixpoint transfers (pip : pipette) (here : option point) (l : list command)
    : list transfer :=
  match l with
  | [] => []
  | MoveTo pip' loc :: l' =>
      transfers pip (if bool_decide (pip' = pip) then Some loc else here) l'
  | Aspirate pip' v loc _ :: l' =>
      if bool_decide (pip' = pip) then
        let here' := match loc with Some x => Some x | None => here end in
        Drawn v here' :: transfers pip here' l'
      else transfers pip here l'
  | Dispense pip' v loc _ _ :: l' =>
      if bool_decide (pip' = pip) then
        let here' := match loc with Some x => Some x | None => here end in
        Released v here' :: transfers pip here' l'
      else transfers pip here l'
  | BlowOut pip' (Some loc) :: l' =>
      transfers pip (if bool_decide (pip' = pip) then Some loc else here) l'
  | _ :: l' => transfers pip here l'
  end.

(** Commands that move liquid or the tip of a pipette. *)
Definition handles_liquid (c : command) : bool :=
  match c with
  | Aspirate _ _ _ _ | Dispense _ _ _ _ _ | MoveTo _ _ | BlowOut _ (Some _) => true
  | _ => false
  end.

(** A list of commands none of which moves liquid or a tip. *)
Definition dry (L : list command) : Prop :=
  Forall (fun c => handles_liquid c = false) L.

(** Where pipette [pip] is after a list of commands. *)
Fixpoint position_after (pip : pipette) (here : option point) (l : list command)
    : option point :=
  match l with
  | [] => here
  | MoveTo pip' loc :: l'
  | Aspirate pip' _ (Some loc) _ :: l'
  | Dispense pip' _ (Some loc) _ _ :: l'
  | BlowOut pip' (Some loc) :: l' =>
      position_after pip (if bool_decide (pip' = pip) then Some loc else here) l'
  | _ :: l' => position_after pip here l'
  end.

Definition drawn_volume (l : list transfer) : Q :=
  foldr (fun t acc => match t with Drawn v _ => v + acc | Released _ _ => acc end)%Q 0%Q l.

Definition released_volume (l : list transfer) : Q :=
  foldr (fun t acc => match t with Released v _ => v + acc | Drawn _ _ => acc end)%Q 0%Q l.

(** The wells a list of liquid movements releases liquid into. *)
Definition released_into (l : list transfer) : list well :=
  omap (fun t => match t with
                 | Released _ (Some pt) => Some (pt_well pt)
                 | _ => None
                 end) l.

(** What a list of liquid movements takes out of well [x], net of what
    it puts back. *)
Definition net_drawn (x : well) (l : list transfer) : Q :=
  foldr (fun t acc =>
           match t with
           | Drawn v (Some pt) => if bool_decide (pt_well pt = x) then v + acc else acc
           | Released v (Some pt) => if bool_decide (pt_well pt = x) then - v + acc else acc
           | _ => acc
           end)%Q 0%Q l.

(** The volumes a list of liquid movements draws from well [x], one
    entry for each time the pipette drew from it. *)
Definition draws_from (x : well) (l : list transfer) : list Q :=
  omap (fun t => match t with
                 | Drawn v (Some pt) =>
                     if bool_decide (pt_well pt = x) then Some v else None
                 | _ => None
                 end) l.

(** Between the worlds [w] and [w'] pipette [pip] made the liquid
    movements [T], wherever it stood at [w]. *)
Definition moves {V} (pip : pipette) (w w' : world V) (T : list transfer) : Prop :=
  exists L, commands (ctx w') = commands (ctx w) ++ L /\
            forall here, transfers pip here L = T.

(** The number of labware with load name [load_name] loaded by a list of
    commands. *)
Definition racks_loaded (load_name : string) (l : list command) : nat :=
  length (omap (fun c => match c with
                         | LoadLabware lw _ =>
                             if bool_decide (lw_load_name lw = load_name)
                             then Some lw else None
                         | _ => None
                         end) l).

(** The tips picked up by a list of commands. *)
Definition pick_ups (l : list command) : list (pipette * option well) :=
  omap (fun c => match c with PickUpTip pip loc => Some (pip, loc) | _ => None end) l.

(** The messages of the pauses in a list of commands. *)
Definition pauses (l : list command) : list string :=
  omap (fun c => match c with Pause msg => Some msg | _ => None end) l.

(** The delays in a list of commands, each as minutes and seconds. *)
Definition delays (l : list command) : list (Q * Q) :=
  omap (fun c => match c with
                 | DelayMinutes m => Some (m, 0%Q)
                 | DelaySeconds s => Some (0%Q, s)
                 | DelayMsg m s _ => Some (m, s)
                 | _ => None
                 end) l.

(** The methods called on a module, in order. *)
Definition module_calls (module : string) (l : list command) : list string :=
  omap (fun c => match c with
                 | ModuleCall m method _ =>
                     if bool_decide (m = module) then Some method else None
                 | _ => None
                 end) l.

(** Whatever the world and whether it returns or raises, [m] issues
    only commands that [P] accepts. *)
Definition issues_only {V A} (P : command -> bool) (m : run V A) : Prop :=
  forall w, exists L,
    commands (ctx (m w).2) = commands (ctx w) ++ L /\
    Forall (fun c => P c = true) L.



(** The rack a backup swap brings in: the backup rack added last, or a
    rack loaded for the occasion when there is no backup. *)
Definition swapped_in (tip_apiname : string) (backups : list labware)
    (c : protocol_context) : labware :=
  match pop backups with
  | Some (b, _) => b
  | None => {| lw_id := next_labware c; lw_load_name := tip_apiname |}
  end.


End Flex.

(** ** BombBio_Trizol_RNA_reuse_noShake_v3.py *)

Module NoShakeV3.
Import Flex.

Definition p50 : pipette := flex_8channel_50.
Definition p1000 : pipette := flex_8channel_1000.
Definition p1000_flow_rate_aspirate_default : Q := 200.
Definition p1000_flow_rate_dispense_default : Q := 200.
Definition p1000_flow_rate_blow_out_default : Q := 400.

Definition TIP50_apiname : string := "opentrons_flex_96_filtertiprack_50ul".
Definition TIP1000_APINAME : string := "opentrons_flex_96_filtertiprack_1000ul".
Definition TIP1000_DECKSLOT : string := "B3".
Definition EMPTYDECKSLOT : string := "C2".
Definition RES96_TYPE : string := "nest_96_wellplate_2ml_deep".
Definition RES1_TYPE : string := "nest_1_reservoir_290ml".
Definition REAGENT_PLATE_TYPE : string := "nest_96_wellplate_2ml_deep".

Definition COLUMN_1_LIST : list string :=
  ["A1"; "A2"; "A3"; "A4"; "A5"; "A6"; "A7"; "A8"; "A9"; "A10"; "A11"; "A12"].

(** An entry of [ACTIVE_TIPRACKS]: [{'deckslot': ..., 'rack': ...}]. *)
Record rack_entry := { deckslot : option string; rack : option labware }.

(** The dictionaries of [run] that the helper functions mutate.  Every
    call site passes these same objects as [active_tipracks],
    [backup_tipracks], [tips_used] and [counter_dict]. *)
Record script := {
  ACTIVE_TIPRACKS : gmap string rack_entry;
  BACKUP_TIPRACKS : gmap string (list labware);
  TIPS_USED : gmap string Z;
  COUNTERS : gmap string Q;
}.

Definition set_active (k : string) (e : rack_entry) (s : script) : script :=
  {| ACTIVE_TIPRACKS := <[k := e]> (ACTIVE_TIPRACKS s);
     BACKUP_TIPRACKS := BACKUP_TIPRACKS s;
     TIPS_USED := TIPS_USED s;
     COUNTERS := COUNTERS s |}.

Definition set_backup (k : string) (l : list labware) (s : script) : script :=
  {| ACTIVE_TIPRACKS := ACTIVE_TIPRACKS s;
     BACKUP_TIPRACKS := <[k := l]> (BACKUP_TIPRACKS s);
     TIPS_USED := TIPS_USED s;
     COUNTERS := COUNTERS s |}.

Definition set_used (k : string) (n : Z) (s : script) : script :=
  {| ACTIVE_TIPRACKS := ACTIVE_TIPRACKS s;
     BACKUP_TIPRACKS := BACKUP_TIPRACKS s;
     TIPS_USED := <[k := n]> (TIPS_USED s);
     COUNTERS := COUNTERS s |}.

Definition set_counter (k : string) (q : Q) (s : script) : script :=
  {| ACTIVE_TIPRACKS := ACTIVE_TIPRACKS s;
     BACKUP_TIPRACKS := BACKUP_TIPRACKS s;
     TIPS_USED := TIPS_USED s;
     COUNTERS := <[k := q]> (COUNTERS s) |}.

Definition active (k : string) : run script rack_entry :=
  s ← get; from_option (KeyError k) (ACTIVE_TIPRACKS s !! k).
Definition backup (k : string) : run script (list labware) :=
  s ← get; from_option (KeyError k) (BACKUP_TIPRACKS s !! k).
Definition used (k : string) : run script Z :=
  s ← get; from_option (KeyError k) (TIPS_USED s !! k).
Definition counter (k : string) : run script Q :=
  s ← get; from_option (KeyError k) (COUNTERS s !! k).

(** The labware [run] loads on the deck besides the tip racks it tracks. *)
Record deck := {
  tip1000_reuse : labware;
  SamplePlate : labware;
  Wash1Res : labware;
  Wash2Res : labware;
  WasteRes : labware;
  ReagentPlate : labware;
  ElutionPlate : labware;
}.

(** Deck setup of [run], lines 133-171 and 233: instruments, modules, the
    dictionaries and the labware loads, in source order.  Modules and
    adapters are referred to by the name of the variable that holds
    them. *)
Definition deck_setup : run script deck :=
  _ ← emit (LoadInstrument p50 "left");
  _ ← emit (LoadInstrument p1000 "right");
  _ ← emit (LoadModule "temperature module gen2" (Some "C1"));
  _ ← emit (LoadAdapter "temp_block" "opentrons_96_well_aluminum_block");
  _ ← emit (LoadModule "magneticBlockV1" (Some "D1"));
  _ ← emit LoadWasteChute;
  _ ← put {| ACTIVE_TIPRACKS :=
               <["tip1000" := {| deckslot := Some TIP1000_DECKSLOT; rack := None |}]>
                 (<["tip50" := {| deckslot := None; rack := None |}]> ∅);
             BACKUP_TIPRACKS := <["tip1000" := []]> (<["tip50" := []]> ∅);
             TIPS_USED := <["tip1000" := 0]> (<["tip50" := 0]> ∅);
             COUNTERS := <["WASTEVOL" := 0%Q]> ∅ |};
  r ← load_labware TIP1000_APINAME (Slot TIP1000_DECKSLOT);
  e ← active "tip1000";
  _ ← modify (set_active "tip1000" {| deckslot := deckslot e; rack := Some r |});
  b ← load_labware TIP1000_APINAME (Slot "D4");
  l ← backup "tip1000";
  _ ← modify (set_backup "tip1000" (l ++ [b]));
  reuse ← load_labware TIP1000_APINAME (Slot "A3");
  sample ← load_labware RES96_TYPE OFF_DECK;
  wash1 ← load_labware RES96_TYPE (Slot "A2");
  wash2 ← load_labware RES96_TYPE (Slot "B2");
  waste ← load_labware RES1_TYPE (Slot "C3");
  reagent ← load_labware REAGENT_PLATE_TYPE (Slot "D2");
  elution ← load_labware "opentrons_96_wellplate_200ul_pcr_full_skirt" OFF_DECK;
  mret {| tip1000_reuse := reuse; SamplePlate := sample; Wash1Res := wash1;
          Wash2Res := wash2; WasteRes := waste; ReagentPlate := reagent;
          ElutionPlate := elution |}.

Definition empty_script : script :=
  {| ACTIVE_TIPRACKS := ∅; BACKUP_TIPRACKS := ∅; TIPS_USED := ∅; COUNTERS := ∅ |}.

Definition power_on : world script :=
  {| ctx := fresh_context; vars := empty_script |}.

(** The world and the labware of a run after deck setup. *)
Definition after_setup : world script := (deck_setup power_on).2.

Definition the_deck : deck :=
  {| tip1000_reuse := {| lw_id := 2; lw_load_name := TIP1000_APINAME |};
     SamplePlate := {| lw_id := 3; lw_load_name := RES96_TYPE |};
     Wash1Res := {| lw_id := 4; lw_load_name := RES96_TYPE |};
     Wash2Res := {| lw_id := 5; lw_load_name := RES96_TYPE |};
     WasteRes := {| lw_id := 6; lw_load_name := RES1_TYPE |};
     ReagentPlate := {| lw_id := 7; lw_load_name := REAGENT_PLATE_TYPE |};
     ElutionPlate := {| lw_id := 8;
                        lw_load_name := "opentrons_96_wellplate_200ul_pcr_full_skirt" |} |}.

(** [binding_buffer_column], lines 204-211. *)
Definition binding_buffer_column (N_SAMPLECOLS : Z) : result (list Z) :=
  if N_SAMPLECOLS <=? 4 then Ok [3]
  else if (4 <? N_SAMPLECOLS) && (N_SAMPLECOLS <=? 8) then Ok [3; 4]
  else if (8 <? N_SAMPLECOLS) && (N_SAMPLECOLS <=? 12) then Ok [3; 4; 5]
  else Raise (ValueError "Unsupported number of samples").

(** The keys of [BindingBuffer_cols], in insertion order (line 213). *)
Definition BindingBuffer_cols_keys (N_SAMPLECOLS : Z) : result (list string) :=
  match binding_buffer_column N_SAMPLECOLS with
  | Ok l => Ok (pretty <$> l)
  | Raise e => Raise e
  end.

(** [SAMPLECOLS = [COLUMN_1_LIST[i] for i in range(N_SAMPLECOLS)]], line 232. *)
Definition SAMPLECOLS (N_SAMPLECOLS : Z) : result (list string) :=
  match mapM (fun i => COLUMN_1_LIST !! i) (seq 0 (Z.to_nat N_SAMPLECOLS)) with
  | Some l => Ok l
  | None => Raise IndexError
  end.

(** [swap_tips], lines 236-264. *)
Definition swap_tips (tip_type tip_apiname : string) (new_slot : option string)
    : run script unit :=
  e ← active tip_type;
  let old_box := rack e in
  _ ← (if truthy_opt new_slot
       then modify (set_active tip_type {| deckslot := new_slot; rack := rack e |})
       else mret tt);
  new_box ←
    match old_box with
    | None =>
        new_box ← load_labware tip_apiname OFF_DECK;
        e ← active tip_type;
        _ ← move_labware new_box (Slot <$> deckslot e) false;
        mret new_box
    | Some old_box =>
        l ← backup tip_type;
        match l with
        | _ :: _ =>
            _ ← emit (Comment [Str "---> Remove old tips"]);
            _ ← move_labware old_box (Some (Slot "A4")) true;
            _ ← emit (Comment [Str "---> Grabbing backup tips from on-deck"]);
            l ← backup tip_type;
            '(new_box, l') ← from_option IndexError (pop l);
            _ ← modify (set_backup tip_type l');
            e ← active tip_type;
            _ ← move_labware new_box (Slot <$> deckslot e) true;
            mret new_box
        | [] =>
            _ ← emit (Comment [Str "---> Remove old tips"]);
            new_box ← load_labware tip_apiname OFF_DECK;
            _ ← move_labware old_box (Some OFF_DECK) false;
            _ ← emit (Comment [Str "---> Swap backup tips from off-deck"]);
            e ← active tip_type;
            _ ← move_labware new_box (Slot <$> deckslot e) false;
            mret new_box
        end
    end;
  e ← active tip_type;
  modify (set_active tip_type {| deckslot := deckslot e; rack := Some new_box |}).

(** [get_next_tip], lines 266-276. *)
Definition get_next_tip (pip : pipette) (tip_type tip_apiname : string)
    : run script unit :=
  n ← used tip_type;
  _ ← (if n =? 12
       then _ ← swap_tips tip_type tip_apiname None;
            modify (set_used tip_type 0)
       else mret tt);
  n ← used tip_type;
  let tip_col := "A" +:+ pretty (n + 1) in
  e ← active tip_type;
  r ← from_option (TypeError "'NoneType' object is not subscriptable") (rack e);
  _ ← emit (PickUpTip pip (Some {| w_labware := r; w_name := tip_col |}));
  n ← used tip_type;
  modify (set_used tip_type (n + 1)).

Section Steps.
Variable d : deck.
Variable REBINDVOL : Q.
Variable N_SAMPLECOLS : Z.

(** [removeSup], lines 309-339. *)
Definition removeSup (PLATE : labware) (COL : string) (SUPVOL : Q)
    (Deepwell_Z_offset : Q) : run script unit :=
  let SUPVOL := if ltb SUPVOL 100 then 100%Q else SUPVOL in
  let A1 := {| w_labware := WasteRes d; w_name := "A1" |} in
  let col := {| w_labware := PLATE; w_name := COL |} in
  _ ← emit (SetFlowRate p1000 rate_aspirate (p1000_flow_rate_aspirate_default * 0.5));
  _ ← emit (SetFlowRate p1000 rate_dispense (p1000_flow_rate_dispense_default * 0.5));
  _ ← emit (SetFlowRate p1000 rate_blow_out (p1000_flow_rate_blow_out_default * 0.5));
  _ ← emit (MoveTo p1000 {| pt_well := col; pt_pos := bottom (Deepwell_Z_offset + 2) |});
  _ ← emit (Aspirate p1000 (SUPVOL - 100) None 1);
  _ ← emit (DelayMinutes 0.1);
  _ ← emit (MoveTo p1000 {| pt_well := col; pt_pos := bottom (Deepwell_Z_offset + 1) |});
  _ ← emit (Aspirate p1000 100 None 1);
  _ ← emit (SetDefaultSpeed p1000 200);
  _ ← emit (MoveTo p1000 {| pt_well := col; pt_pos := top 2 |});
  c ← counter "WASTEVOL";
  _ ← modify (set_counter "WASTEVOL" (c + SUPVOL * 8));
  c ← counter "WASTEVOL";
  _ ← emit (Comment [Str "--->Adding "; Num (SUPVOL * 8 / 1000);
                     Str "mL to waste (total is "; Num (c / 1000); Str "mL)"]);
  c ← counter "WASTEVOL";
  _ ← (if gtb c 150000 then emit (Pause "Please empty the waste") else mret tt);
  _ ← emit (Dispense p1000 SUPVOL (Some {| pt_well := A1; pt_pos := top 0 |}) 1 None);
  _ ← emit (DelayMinutes 0.1);
  _ ← emit (BlowOut p1000 None);
  _ ← emit (SetDefaultSpeed p1000 400);
  _ ← emit (MoveTo p1000 {| pt_well := A1; pt_pos := top (-5) |});
  _ ← emit (MoveTo p1000 {| pt_well := A1; pt_pos := top 0 |});
  _ ← emit (SetFlowRate p1000 rate_aspirate p1000_flow_rate_aspirate_default);
  _ ← emit (SetFlowRate p1000 rate_dispense p1000_flow_rate_dispense_default);
  emit (SetFlowRate p1000 rate_blow_out p1000_flow_rate_blow_out_default).

(** One transfer of the binding-buffer loop, lines 438-455. *)
Definition rebind_transfer (source_well : well) (Y : string) : run script unit :=
  let dest := {| w_labware := SamplePlate d; w_name := Y |} in
  _ ← emit (Aspirate p1000 REBINDVOL (Some {| pt_well := source_well; pt_pos := bottom 1 |}) 1);
  _ ← emit (AirGap p1000 20);
  _ ← emit (MoveTo p1000 {| pt_well := source_well; pt_pos := top 0 |});
  _ ← emit (MoveTo p1000 {| pt_well := source_well; pt_pos := top (-5) |});
  _ ← emit (MoveTo p1000 {| pt_well := source_well; pt_pos := top 0 |});
  _ ← emit (SetDefaultSpeed p1000 100);
  _ ← emit (MoveTo p1000 {| pt_well := source_well; pt_pos := top_move 4 (-3) |});
  _ ← emit (MoveTo p1000 {| pt_well := source_well; pt_pos := top_move (-4) (-3) |});
  _ ← emit (SetDefaultSpeed p1000 400);
  _ ← emit (MoveTo p1000 {| pt_well := dest; pt_pos := top 7 |});
  _ ← emit (Dispense p1000 (REBINDVOL + 20) None 1 None);
  _ ← emit (DelayMinutes 0.1);
  _ ← emit (MoveTo p1000 {| pt_well := dest; pt_pos := top 5 |});
  _ ← emit (MoveTo p1000 {| pt_well := dest; pt_pos := top 2 |});
  _ ← emit (MoveTo p1000 {| pt_well := dest; pt_pos := top 5 |});
  emit (AirGap p1000 20).

(** The Rebind step of [run], lines 427-459. *)
Definition rebind : run script unit :=
  keys ← from_result (BindingBuffer_cols_keys N_SAMPLECOLS);
  cols ← from_result (SAMPLECOLS N_SAMPLECOLS);
  _ ← emit (Comment [Str "--> Rebind"]);
  _ ← get_next_tip p1000 "tip1000" TIP1000_APINAME;
  _ ← emit (SetFlowRate p1000 rate_aspirate (p1000_flow_rate_aspirate_default * 0.5));
  _ ← emit (SetFlowRate p1000 rate_dispense (p1000_flow_rate_dispense_default * 0.5));
  _ ← emit (SetFlowRate p1000 rate_blow_out (p1000_flow_rate_blow_out_default * 0.5));
  _ ← for_enumerate 0 keys (fun i X =>
         let source_well := {| w_labware := ReagentPlate d; w_name := "A" +:+ X |} in
         for_each (slice (i * 4) (i * 4 + 3) cols) (rebind_transfer source_well));
  _ ← emit (DropTip p1000 None);
  _ ← emit (SetFlowRate p1000 rate_aspirate p1000_flow_rate_aspirate_default);
  _ ← emit (SetFlowRate p1000 rate_dispense p1000_flow_rate_dispense_default);
  emit (SetFlowRate p1000 rate_blow_out p1000_flow_rate_blow_out_default).

End Steps.

(** What a backup swap for [tip_type] leaves alone: the entries of the
    other tip types in [ACTIVE_TIPRACKS] and [BACKUP_TIPRACKS], and the
    two other dictionaries. *)
Definition swap_frame (tip_type : string) (s s' : script) : Prop :=
  (forall k, k <> tip_type -> ACTIVE_TIPRACKS s' !! k = ACTIVE_TIPRACKS s !! k) /\
  (forall k, k <> tip_type -> BACKUP_TIPRACKS s' !! k = BACKUP_TIPRACKS s !! k) /\
  TIPS_USED s' = TIPS_USED s /\
  COUNTERS s' = COUNTERS s.

(** The backup list of [tip_type] is as it was, or lost its last rack. *)
Definition backup_kept_or_popped (tip_type : string) (s s' : script) : Prop :=
  BACKUP_TIPRACKS s' !! tip_type = BACKUP_TIPRACKS s !! tip_type \/
  exists bl b, BACKUP_TIPRACKS s !! tip_type = Some (bl ++ [b]) /\
               BACKUP_TIPRACKS s' !! tip_type = Some bl.

(** The worlds a run passes through, as far as the tip counters go.
    [run] assigns to [TIPS_USED] only inside [get_next_tip]; every other
    step ([swap_tips], [removeSup], the transfers, moving labware) leaves
    the dictionary as it is. *)
Inductive reachable : world script -> Prop :=
| reach_setup d w :
    deck_setup power_on = (Ok d, w) -> reachable w
| reach_get_next_tip pip tip_type tip_apiname w :
    reachable w -> reachable (get_next_tip pip tip_type tip_apiname w).2
| reach_swap_tips tip_type tip_apiname new_slot w :
    reachable w -> reachable (swap_tips tip_type tip_apiname new_slot w).2
| reach_other w w' :
    reachable w -> TIPS_USED (vars w') = TIPS_USED (vars w) -> reachable w'.

End NoShakeV3.

(** ** BombBio_Trizol_RNA_reuse_shake_v1.py *)

Module ShakeV1.
Import Flex.

Definition p50 : pipette := flex_8channel_50.
Definition p1000 : pipette := flex_8channel_1000.
Definition p1000_flow_rate_aspirate_default : Q := 200.
Definition p1000_flow_rate_dispense_default : Q := 200.
Definition p1000_flow_rate_blow_out_default : Q := 400.

Definition TIP50_APINAME : string := "opentrons_flex_96_filtertiprack_50ul".
Definition TIP1000_APINAME : string := "opentrons_flex_96_filtertiprack_1000ul".
Definition EMPTYOFFDECKSLOT : string := "A4".
Definition TIP50_OFFDECKSLOT : string := "C4".
Definition TIP1000_DECKSLOT : string := "B3".
Definition TIP1000_OFFDECKSLOT : string := "B4".
Definition RES96_TYPE : string := "nest_96_wellplate_2ml_deep_custom".
Definition RES1_TYPE : string := "nest_1_reservoir_290ml".

Definition COLUMN_1_LIST : list string :=
  ["A1"; "A2"; "A3"; "A4"; "A5"; "A6"; "A7"; "A8"; "A9"; "A10"; "A11"; "A12"].

(** The dictionaries of [run]; [ACTIVE_TIPRACKS] maps a tip type to a rack
    or to [None]. *)
Record script := {
  ACTIVE_TIPRACKS : gmap string (option labware);
  BACKUP_TIPRACKS : gmap string (list labware);
  TIPS_USED : gmap string Z;
  COUNTERS : gmap string Q;
}.

Definition set_active (k : string) (r : option labware) (s : script) : script :=
  {| ACTIVE_TIPRACKS := <[k := r]> (ACTIVE_TIPRACKS s);
     BACKUP_TIPRACKS := BACKUP_TIPRACKS s;
     TIPS_USED := TIPS_USED s;
     COUNTERS := COUNTERS s |}.

Definition set_backup (k : string) (l : list labware) (s : script) : script :=
  {| ACTIVE_TIPRACKS := ACTIVE_TIPRACKS s;
     BACKUP_TIPRACKS := <[k := l]> (BACKUP_TIPRACKS s);
     TIPS_USED := TIPS_USED s;
     COUNTERS := COUNTERS s |}.

Definition set_used (k : string) (n : Z) (s : script) : script :=
  {| ACTIVE_TIPRACKS := ACTIVE_TIPRACKS s;
     BACKUP_TIPRACKS := BACKUP_TIPRACKS s;
     TIPS_USED := <[k := n]> (TIPS_USED s);
     COUNTERS := COUNTERS s |}.

Definition set_counter (k : string) (q : Q) (s : script) : script :=
  {| ACTIVE_TIPRACKS := ACTIVE_TIPRACKS s;
     BACKUP_TIPRACKS := BACKUP_TIPRACKS s;
     TIPS_USED := TIPS_USED s;
     COUNTERS := <[k := q]> (COUNTERS s) |}.

Definition active (k : string) : run script (option labware) :=
  s ← get; from_option (KeyError k) (ACTIVE_TIPRACKS s !! k).
Definition backup (k : string) : run script (list labware) :=
  s ← get; from_option (KeyError k) (BACKUP_TIPRACKS s !! k).
Definition used (k : string) : run script Z :=
  s ← get; from_option (KeyError k) (TIPS_USED s !! k).
Definition counter (k : string) : run script Q :=
  s ← get; from_option (KeyError k) (COUNTERS s !! k).

(** [swap_labware], lines 174-184. *)
Definition swap_labware (labware1 labware2 : labware) (EMPTYSLOT : string)
    (gripper : bool) : run script unit :=
  labware1_pos ← parent_of labware1;
  labware2_pos ← parent_of labware2;
  if truthy EMPTYSLOT then
    _ ← move_labware labware1 (Some (Slot EMPTYSLOT)) gripper;
    _ ← move_labware labware2 labware1_pos gripper;
    move_labware labware1 labware2_pos gripper
  else
    _ ← move_labware labware1 (Some OFF_DECK) false;
    _ ← move_labware labware2 labware1_pos false;
    move_labware labware1 labware2_pos false.

(** [load_active_tips], lines 191-193. *)
Definition load_active_tips (tip_type : string) (tip_rack : labware) : run script unit :=
  _ ← modify (set_active tip_type (Some tip_rack));
  modify (set_used tip_type 0).

(** [load_backup_tips], lines 194-195. *)
Definition load_backup_tips (tip_type : string) (tip_rack : labware) : run script unit :=
  l ← backup tip_type;
  modify (set_backup tip_type (l ++ [tip_rack])).

(** [load_new_tips], lines 202-219. *)
Definition load_new_tips (tip_type tip_apiname : string) (EMPTYOFFDECKSLOT : string)
    : run script unit :=
  _ ← emit (Comment [Str "---> Swapping empty tips"]);
  old_box ← active tip_type;
  old_box ← from_option (AttributeError "'NoneType' object has no attribute 'parent'") old_box;
  old_box_location ← parent_of old_box;
  l ← backup tip_type;
  new_box ←
    match l with
    | _ :: _ =>
        '(new_box, l') ← from_option IndexError (pop l);
        _ ← modify (set_backup tip_type l');
        _ ← (if truthy EMPTYOFFDECKSLOT
             then swap_labware old_box new_box EMPTYOFFDECKSLOT true
             else swap_labware old_box new_box "" false);
        mret new_box
    | [] =>
        new_box ← load_labware tip_apiname OFF_DECK;
        _ ← move_labware old_box (Some OFF_DECK) false;
        _ ← move_labware new_box old_box_location false;
        mret new_box
    end;
  load_active_tips tip_type new_box.

(** [get_next_tip], lines 221-230. *)
Definition get_next_tip (pip : pipette) (tip_type tip_apiname : string)
    : run script unit :=
  n ← used tip_type;
  _ ← (if n =? 12
       then load_new_tips tip_type tip_apiname EMPTYOFFDECKSLOT
       else mret tt);
  n ← used tip_type;
  let tip_col := "A" +:+ pretty (n + 1) in
  r ← active tip_type;
  r ← from_option (TypeError "'NoneType' object is not subscriptable") r;
  _ ← emit (PickUpTip pip (Some {| w_labware := r; w_name := tip_col |}));
  n ← used tip_type;
  modify (set_used tip_type (n + 1)).

(** The labware [run] loads on the deck besides the tip racks it tracks. *)
Record deck := {
  tip1000_reuse : labware;
  SamplePlate : labware;
  Wash1Res : labware;
  Wash2Res : labware;
  WasteRes : labware;
  ReagentPlate : labware;
  ElutionPlate : labware;
}.

(** Deck setup of [run], lines 142-200 and 241-246: instruments, modules,
    the dictionaries and the labware loads, in source order. *)
Definition deck_setup : run script deck :=
  _ ← emit (LoadInstrument p50 "left");
  _ ← emit (LoadInstrument p1000 "right");
  _ ← emit (LoadModule "temperature module gen2" (Some "D1"));
  _ ← emit (LoadAdapter "temp_block" "opentrons_96_well_aluminum_block");
  _ ← emit (LoadModule "heaterShakerModuleV1" (Some "C1"));
  _ ← emit (LoadAdapter "shaker" "opentrons_96_deep_well_adapter");
  _ ← emit (LoadModule "magneticBlockV1" (Some "D2"));
  _ ← emit LoadWasteChute;
  reuse ← load_labware TIP1000_APINAME (Slot "A3");
  _ ← put {| ACTIVE_TIPRACKS := <["tip1000" := None]> (<["tip50" := None]> ∅);
             BACKUP_TIPRACKS := <["tip1000" := []]> (<["tip50" := []]> ∅);
             TIPS_USED := <["tip1000" := 0]> (<["tip50" := 0]> ∅);
             COUNTERS := <["WASTEVOL" := 0%Q]> ∅ |};
  r ← load_labware TIP1000_APINAME (Slot TIP1000_DECKSLOT);
  _ ← load_active_tips "tip1000" r;
  r ← load_labware TIP50_APINAME (Slot TIP50_OFFDECKSLOT);
  _ ← load_active_tips "tip50" r;
  r ← load_labware TIP1000_APINAME (Slot TIP1000_OFFDECKSLOT);
  _ ← load_backup_tips "tip1000" r;
  sample ← load_labware RES96_TYPE (OnModule "shake_adapter");
  wash1 ← load_labware RES96_TYPE (Slot "A2");
  wash2 ← load_labware RES96_TYPE (Slot "B2");
  waste ← load_labware RES1_TYPE (Slot "C2");
  reagent ← load_labware RES96_TYPE (Slot "C3");
  elution ← load_labware "opentrons_96_wellplate_200ul_pcr_full_skirt" (Slot "D4");
  mret {| tip1000_reuse := reuse; SamplePlate := sample; Wash1Res := wash1;
          Wash2Res := wash2; WasteRes := waste; ReagentPlate := reagent;
          ElutionPlate := elution |}.

Definition empty_script : script :=
  {| ACTIVE_TIPRACKS := ∅; BACKUP_TIPRACKS := ∅; TIPS_USED := ∅; COUNTERS := ∅ |}.

Definition power_on : world script :=
  {| ctx := fresh_context; vars := empty_script |}.

(** The world of a run after deck setup. *)
Definition after_setup : world script := (deck_setup power_on).2.


Section Steps.
Variable d : deck.
Variable DRYRUN : bool.

(** [removeSup], lines 341-368. *)
Definition removeSup (PLATE : labware) (COL : string) (SUPVOL : Q)
    (Deepwell_Z_offset : Q) : run script unit :=
  let SUPVOL := if ltb SUPVOL 100 then 100%Q else SUPVOL in
  let A1 := {| w_labware := WasteRes d; w_name := "A1" |} in
  let col := {| w_labware := PLATE; w_name := COL |} in
  _ ← emit (SetFlowRate p1000 rate_aspirate (p1000_flow_rate_aspirate_default * 0.5));
  _ ← emit (SetFlowRate p1000 rate_dispense (p1000_flow_rate_dispense_default * 0.5));
  _ ← emit (SetFlowRate p1000 rate_blow_out (p1000_flow_rate_blow_out_default * 0.5));
  _ ← emit (MoveTo p1000 {| pt_well := col; pt_pos := bottom (Deepwell_Z_offset + 2) |});
  _ ← emit (Aspirate p1000 (SUPVOL - 100) None 1);
  _ ← emit (DelayMinutes (if negb DRYRUN then 0.1 else 0.01));
  _ ← emit (MoveTo p1000 {| pt_well := col; pt_pos := bottom (Deepwell_Z_offset + 1) |});
  _ ← emit (Aspirate p1000 100 None 1);
  _ ← emit (SetDefaultSpeed p1000 200);
  _ ← emit (MoveTo p1000 {| pt_well := col; pt_pos := top 2 |});
  c ← counter "WASTEVOL";
  _ ← modify (set_counter "WASTEVOL" (c + SUPVOL * 8));
  c ← counter "WASTEVOL";
  _ ← emit (Comment [Str "--->Adding "; Num (SUPVOL * 8 / 1000);
                     Str "mL to waste (total is "; Num (c / 1000); Str "mL)"]);
  c ← counter "WASTEVOL";
  _ ← (if gtb c 150000 then emit (Pause "Please empty the waste") else mret tt);
  _ ← emit (Dispense p1000 SUPVOL (Some {| pt_well := A1; pt_pos := top 0 |}) 1 None);
  _ ← emit (DelayMinutes (if negb DRYRUN then 0.05 else 0.01));
  _ ← emit (BlowOut p1000 None);
  _ ← emit (SetFlowRate p1000 rate_aspirate p1000_flow_rate_aspirate_default);
  _ ← emit (SetFlowRate p1000 rate_dispense p1000_flow_rate_dispense_default);
  emit (SetFlowRate p1000 rate_blow_out p1000_flow_rate_blow_out_default).

End Steps.

(** What a backup swap for [tip_type] leaves alone: the entries of the
    other tip types in the three tip dictionaries, and the waste
    counter.  ([load_new_tips] ends with [load_active_tips], which
    assigns 0 to the counter of [tip_type].) *)
Definition swap_frame (tip_type : string) (s s' : script) : Prop :=
  (forall k, k <> tip_type -> ACTIVE_TIPRACKS s' !! k = ACTIVE_TIPRACKS s !! k) /\
  (forall k, k <> tip_type -> BACKUP_TIPRACKS s' !! k = BACKUP_TIPRACKS s !! k) /\
  (forall k, k <> tip_type -> TIPS_USED s' !! k = TIPS_USED s !! k) /\
  COUNTERS s' = COUNTERS s.

(** The backup list of [tip_type] is as it was, or lost its last rack. *)
Definition backup_kept_or_popped (tip_type : string) (s s' : script) : Prop :=
  BACKUP_TIPRACKS s' !! tip_type = BACKUP_TIPRACKS s !! tip_type \/
  exists bl b, BACKUP_TIPRACKS s !! tip_type = Some (bl ++ [b]) /\
               BACKUP_TIPRACKS s' !! tip_type = Some bl.

(** The worlds a run passes through from [start], as far as the tip
    counters go.  [run] assigns to [TIPS_USED] only inside
    [get_next_tip] and [load_new_tips] (through [load_active_tips]);
    every other step leaves the dictionary as it is. *)
Inductive reachable_from (start : world script) : world script -> Prop :=
| reach_start : reachable_from start start
| reach_get_next_tip pip tip_type tip_apiname w :
    reachable_from start w ->
    reachable_from start (get_next_tip pip tip_type tip_apiname w).2
| reach_load_new_tips tip_type tip_apiname slot w :
    reachable_from start w ->
    reachable_from start (load_new_tips tip_type tip_apiname slot w).2
| reach_other w w' :
    reachable_from start w -> TIPS_USED (vars w') = TIPS_USED (vars w) ->
    reachable_from start w'.

Definition reachable : world script -> Prop :=
  reachable_from (deck_setup power_on).2.

End ShakeV1.

(** ** Yeast_OPP_v1.py *)

Module YeastOPP.
Import Flex.

Definition TIP1000_APINAME : string := "opentrons_flex_96_filtertiprack_1000ul".
Definition TIP1000_DECKSLOT : string := "C3".
Definition RES96_TYPE : string := "nest_96_wellplate_2ml_deep_custom".

Definition COLUMN_1_LIST : list string :=
  ["A1"; "A2"; "A3"; "A4"; "A5"; "A6"; "A7"; "A8"; "A9"; "A10"; "A11"; "A12"].

(** The tip management region, lines 80-136, is the same text as lines
    174-230 of the shake v1 script: same dictionaries, same
    [swap_labware], [load_active_tips], [load_backup_tips],
    [load_new_tips] and [get_next_tip], same [EMPTYOFFDECKSLOT]. *)
Definition script : Type := ShakeV1.script.
Definition load_active_tips := ShakeV1.load_active_tips.
Definition load_new_tips := ShakeV1.load_new_tips.
Definition get_next_tip := ShakeV1.get_next_tip.

Record deck := {
  SamplePlate : labware;
  ReagentPlate : labware;
  ElutionPlate : labware;
}.

(** Deck setup of [run], lines 51-145: only the 1000 uL rack is loaded,
    the 50 uL rack and the backup rack are commented out. *)
Definition deck_setup : run script deck :=
  _ ← emit (LoadInstrument flex_8channel_50 "left");
  _ ← emit (LoadInstrument flex_8channel_1000 "right");
  _ ← emit (LoadModule "temperature module gen2" (Some "D1"));
  _ ← emit (LoadAdapter "temp_block" "opentrons_96_deep_well_adapter");
  _ ← emit (LoadModule "heaterShakerModuleV1" (Some "C1"));
  _ ← emit (LoadAdapter "shaker" "opentrons_96_deep_well_adapter");
  _ ← emit (LoadModule "magneticBlockV1" (Some "D2"));
  _ ← emit LoadWasteChute;
  _ ← put {| ShakeV1.ACTIVE_TIPRACKS := <["tip1000" := None]> (<["tip50" := None]> ∅);
             ShakeV1.BACKUP_TIPRACKS := <["tip1000" := []]> (<["tip50" := []]> ∅);
             ShakeV1.TIPS_USED := <["tip1000" := 0]> (<["tip50" := 0]> ∅);
             ShakeV1.COUNTERS := <["WASTEVOL" := 0%Q]> ∅ |};
  r ← load_labware TIP1000_APINAME (Slot TIP1000_DECKSLOT);
  _ ← load_active_tips "tip1000" r;
  sample ← load_labware RES96_TYPE (OnModule "shake_adapter");
  reagent ← load_labware RES96_TYPE (Slot "C2");
  elution ← load_labware RES96_TYPE (OnModule "temp_adapter");
  mret {| SamplePlate := sample; ReagentPlate := reagent; ElutionPlate := elution |}.

Definition power_on : world script := ShakeV1.power_on.

Definition reachable : world script -> Prop :=
  ShakeV1.reachable_from (deck_setup power_on).2.

End YeastOPP.

(** ** UltraExpress/P1_V1.py *)

Module P1.
Import Flex.

Definition p50m : pipette := flex_8channel_50.
Definition p1000m : pipette := flex_8channel_1000.

(** A declaration of [parameters.add_int]. *)
Record int_parameter := {
  variable_name : string;
  default : Z;
  minimum : Z;
  maximum : Z;
}.

(** The values the runtime lets the operator choose for a parameter. *)
Definition admits (p : int_parameter) (v : Z) : Prop :=
  minimum p <= v <= maximum p.

(** [add_parameters], lines 23-31. *)
Definition num_samples_parameter : int_parameter :=
  {| variable_name := "num_samples"; default := 94; minimum := 1; maximum := 96 |}.

(** The run-time parameters, lines 118-128. *)
Record params := {
  DRY_WATER_RUN : bool;
  num_samples : Z;
  p50m_mount : string;
  p1000m_mount : string;
  flow_rate_aspirate : Q;
  flow_rate_dispense : Q;
  sample_rate : Q;
  beads_rate : Q;
  buffer_rate : Q;
  ethanol_rate : Q;
  elution_rate : Q;
}.

(** The defaults that [add_parameters] declares, lines 17-109. *)
Definition default_params : params :=
  {| DRY_WATER_RUN := true; num_samples := 94;
     p50m_mount := "left"; p1000m_mount := "right";
     flow_rate_aspirate := 700; flow_rate_dispense := 700;
     sample_rate := 0.6; beads_rate := 0.2; buffer_rate := 0.8;
     ethanol_rate := 0.8; elution_rate := 0.4 |}.

(** Volume parameters, lines 130-139. *)
Definition sample_vol : Q := 50.
Definition dT25_beads_vol : Q := 20.
Definition binding_buffer_vol : Q := 50.
Definition tris_and_binding_mm_vol : Q := 100.
Definition wash_buffer_vol : Q := 200.
Definition fragmentation_vol_in : Q := 6.5.
Definition fragmentation_vol_out : Q := 5.
Definition beads_binding_time : Q := 2.

(** Error handling, lines 145-157. *)
Definition error_handling (num_samples : Z) : result unit :=
  if (num_samples >? 96) || (num_samples <? 1)
  then Raise (ValueError "The number of samples should be between 1 and 96")
  else if gtb dT25_beads_vol 200 || gtb binding_buffer_vol 200
          || gtb tris_and_binding_mm_vol 200 || gtb wash_buffer_vol 200
          || gtb fragmentation_vol_in 200 || gtb fragmentation_vol_out 200
  then Raise (ValueError "The volume should be equal to or less than 200 µL")
  else Ok tt.

(** What the calculation section, lines 162-261, computes. *)
Record plan := {
  cols : Z;
  cols_m : Z;
  cols_s : option Z;
  required_cols_200 : Z;
  required_slots_num_50 : Z;
  slots_50 : list string;
  regular_slot_list : list string;
  required_slots_num_200 : Z;
  slots_200 : list string;
  slots_200_extra : list string;
  slots_empty_expansion : list string;
}.

Definition expansion_slots : list string := ["A4"; "B4"; "C4"].

(** Lines 162-261.  (The [elif num_samples % 8 != 0] of line 167 is the
    complement of the [if] before it.) *)
Definition calculation (num_samples : Z) : plan :=
  let cols := ceil_div num_samples 8 in
  let '(cols_m, cols_s) :=
    if num_samples `mod` 8 =? 0 then (cols, None)
    else if cols =? 1 then (0, Some num_samples)
    else (cols - 1, Some (num_samples `mod` 8)) in
  let required_cols_200_1 := 1 + 1 + 1 in
  let required_cols_200_2 := cols + 1 in
  let required_cols_200_3 := cols + cols in
  let required_cols_200_4 := 1 + cols in
  let required_cols_200_5 := cols + cols in
  let required_cols_200_6 := 1 + cols in
  let '(required_slots_num_50, slots_50, regular_slot_list) :=
    if cols * 2 >? 12 then (2, ["A2"; "A3"], ["B2"; "B3"; "C3"])
    else (1, ["A2"], ["B2"; "B3"; "C3"; "A3"]) in
  let required_cols_200 :=
    required_cols_200_1 + required_cols_200_2 + required_cols_200_3
    + required_cols_200_4 + required_cols_200_5 + required_cols_200_6 in
  let required_slots_num_200 := ceil_div required_cols_200 12 in
  let difference := required_slots_num_200 - Z.of_nat (length regular_slot_list) in
  let '(slots_200, slots_200_extra, slots_empty_expansion) :=
    if difference <=? 0
    then (slice_to required_slots_num_200 regular_slot_list, [], [])
    else (regular_slot_list, slice_to difference expansion_slots,
          slice_from difference expansion_slots) in
  {| cols := cols; cols_m := cols_m; cols_s := cols_s;
     required_cols_200 := required_cols_200;
     required_slots_num_50 := required_slots_num_50;
     slots_50 := slots_50; regular_slot_list := regular_slot_list;
     required_slots_num_200 := required_slots_num_200;
     slots_200 := slots_200; slots_200_extra := slots_200_extra;
     slots_empty_expansion := slots_empty_expansion |}.

(** The [nonlocal] variables of the helper functions, lines 521-524 and
    278-285.  [tip_count_200] is a counter that is only reset to 0 and
    incremented, so it is a natural number. *)
Record script := {
  pause_time : Z;
  tip_count_200 : nat;
  tiporder_200 : list well;
  tips200 : list labware;
  tips200_extra : list labware;
}.

Definition set_pause_time (n : Z) (s : script) : script :=
  {| pause_time := n; tip_count_200 := tip_count_200 s;
     tiporder_200 := tiporder_200 s; tips200 := tips200 s;
     tips200_extra := tips200_extra s |}.

Definition set_tip_count_200 (n : nat) (s : script) : script :=
  {| pause_time := pause_time s; tip_count_200 := n;
     tiporder_200 := tiporder_200 s; tips200 := tips200 s;
     tips200_extra := tips200_extra s |}.

Definition set_tiporder_200 (l : list well) (s : script) : script :=
  {| pause_time := pause_time s; tip_count_200 := tip_count_200 s;
     tiporder_200 := l; tips200 := tips200 s;
     tips200_extra := tips200_extra s |}.

Definition set_tips200 (l : list labware) (s : script) : script :=
  {| pause_time := pause_time s; tip_count_200 := tip_count_200 s;
     tiporder_200 := tiporder_200 s; tips200 := l;
     tips200_extra := tips200_extra s |}.

Definition set_tips200_extra (l : list labware) (s : script) : script :=
  {| pause_time := pause_time s; tip_count_200 := tip_count_200 s;
     tiporder_200 := tiporder_200 s; tips200 := tips200 s;
     tips200_extra := l |}.

Definition unset : script :=
  {| pause_time := 0; tip_count_200 := 0; tiporder_200 := [];
     tips200 := []; tips200_extra := [] |}.

Definition power_on : world script :=
  {| ctx := fresh_context; vars := unset |}.

(** The plates [run] loads, lines 316-330. *)
Record deck := {
  reagent_plate : labware;
  sample_plate : labware;
  mag_prep_plate : labware;
  final_plate_p1 : labware;
  waste_res : labware;
}.

Definition chute : location := WasteChute.
Definition mag : location := OnModule "mag".
Definition thermocycler : location := OnModule "thermocycler".
Definition transition_slot : string := "C2".

(** [run] up to the helper functions: error handling, calculation, tips,
    pipettes, modules, plates (lines 145-330) and the tip variables
    (lines 521-524).  The [print] calls and the liquid labelling of lines
    392-515 are left out. *)
Definition setup (p : params) : run script (plan * deck) :=
  _ ← from_result (error_handling (num_samples p));
  let pl := calculation (num_samples p) in
  tips50 ← list_comp (slots_50 pl) (fun slot =>
             load_labware "opentrons_flex_96_filtertiprack_50ul" (Slot slot));
  tips200 ← list_comp (slots_200 pl) (fun slot =>
             load_labware "opentrons_flex_96_filtertiprack_200ul" (Slot slot));
  tips200_extra ← list_comp (slots_200_extra pl) (fun slot =>
             load_labware "opentrons_flex_96_filtertiprack_200ul" (Slot slot));
  _ ← emit (LoadInstrument p50m (p50m_mount p));
  _ ← emit (LoadInstrument p1000m (p1000m_mount p));
  _ ← emit (SetFlowRate p1000m rate_aspirate (flow_rate_aspirate p));
  _ ← emit (SetFlowRate p1000m rate_dispense (flow_rate_dispense p));
  _ ← emit (LoadModule "thermocycler module gen2" None);
  _ ← emit (ModuleCall "thermocycler" "open_lid" []);
  _ ← emit (ModuleCall "thermocycler" "set_block_temperature" [4%Q]);
  _ ← emit (LoadModule "magneticBlockV1" (Some "D1"));
  _ ← emit (LoadModule "temperature module gen2" (Some "C1"));
  _ ← emit (LoadAdapter "temp_mod" "opentrons_96_deep_well_temp_mod_adapter");
  _ ← emit (ModuleCall "temp_mod" "set_temperature" [4%Q]);
  _ ← emit LoadWasteChute;
  reagent ← load_labware "nest_96_wellplate_2ml_deep" (OnModule "temp_adapter");
  sample ← load_labware "opentrons_96_wellplate_200ul_pcr_full_skirt" thermocycler;
  mag_prep ← load_labware "opentrons_96_wellplate_200ul_pcr_full_skirt" (Slot "C2");
  final ← load_labware "opentrons_96_wellplate_200ul_pcr_full_skirt" (Slot "D4");
  waste ← load_labware "nest_1_reservoir_195ml" (Slot "D2");
  _ ← put {| pause_time := 1;
             tip_count_200 := 0;
             tiporder_200 := tips200 ≫= rows_0;
             tips200 := tips200;
             tips200_extra := tips200_extra |};
  mret (pl, {| reagent_plate := reagent; sample_plate := sample;
               mag_prep_plate := mag_prep; final_plate_p1 := final;
               waste_res := waste |}).

Section Helpers.
(** The parameters and what [run] computed and loaded. *)
Variable p : params.
Variable pl : plan.
Variable d : deck.

(** Questions the script asks the runtime, whose answers it does not
    compute itself: whether a pipette has a tip ([pip.has_tip]),
    whether [p50m.pick_up_tip()] finds no tip left
    ([OutOfTipsError]), the capacity of the tips of a pipette
    ([pip.tip_racks[0].wells()[0].max_volume]) and the depth of a well
    ([well.depth]). *)
Variable has_tip : protocol_context -> pipette -> bool.
Variable out_of_tips : protocol_context -> bool.
Variable max_volume : pipette -> Q.
Variable depth : well -> Q.

(** [pause_attention], lines 526-543. *)
Definition pause_attention (msg : string) (flash : bool) : run script unit :=
  _ ← (if flash then
         _ ← emit (SetRailLights false);
         _ ← emit (DelaySeconds 0.25);
         _ ← emit (SetRailLights true);
         _ ← emit (DelaySeconds 0.25);
         _ ← emit (SetRailLights false);
         _ ← emit (DelaySeconds 0.25);
         _ ← emit (SetRailLights true);
         _ ← emit (DelaySeconds 0.25);
         _ ← emit (SetRailLights false);
         _ ← emit (DelaySeconds 0.25);
         emit (SetRailLights true)
       else mret tt);
  s ← get;
  _ ← emit (Comment [Str (nl +:+ nl +:+ nl +:+ "PAUSE X"); Int (pause_time s)]);
  _ ← emit (Pause msg);
  s ← get;
  modify (set_pause_time (pause_time s + 1)).

(** One round of the loop of lines 578-592. *)
Definition move_in (b : nat) : run script unit :=
  from ← from_option IndexError (slots_200_extra pl !! b);
  to ← from_option IndexError (slots_200 pl !! b);
  _ ← emit (Comment [Str (nl +:+ "---move in "); Int (Z.of_nat b + 1);
                     Str ": from "; Str from; Str " to "; Str to]);
  s ← get;
  rack ← from_option IndexError (tips200_extra s !! b);
  to ← from_option IndexError (slots_200 pl !! b);
  _ ← move_labware rack (Some (Slot to)) true;
  _ ← (if bool_decide (b + 1 < length (slots_200_extra pl))%nat then
         from ← from_option IndexError (slots_200 pl !! (b + 1)%nat);
         to ← from_option IndexError (slots_200_extra pl !! b);
         _ ← emit (Comment [Str "---move out "; Int (Z.of_nat b + 2);
                            Str ": from "; Str from; Str " to "; Str to]);
         s ← get;
         old ← from_option IndexError (tips200 s !! (b + 1)%nat);
         to ← from_option IndexError (slots_200_extra pl !! b);
         move_labware old (Some (Slot to)) true
       else mret tt);
  s ← get;
  rack ← from_option IndexError (tips200_extra s !! b);
  modify (set_tiporder_200 (tiporder_200 s ++ rows_0 rack)).

(** The refill branch of [pick_up_200], lines 549-594. *)
Definition refill_200 : run script unit :=
  s ← get;
  _ ← (if bool_decide (length (tips200_extra s) = 0%nat) then
         _ ← pause_attention "Replace empty 200ul filter tips" false;
         _ ← modify (set_tiporder_200 []);
         _ ← for_each (slots_200 pl) (fun a => emit (DelDeck a));
         _ ← for_each expansion_slots (fun c => emit (DelDeck c));
         racks ← list_comp (slots_200 pl) (fun slot =>
                   load_labware "opentrons_flex_96_filtertiprack_200ul" (Slot slot));
         _ ← modify (set_tips200 racks);
         _ ← for_each (seq 0 (length racks)) (fun a =>
               s ← get;
               rack ← from_option IndexError (tips200 s !! a);
               modify (set_tiporder_200 (tiporder_200 s ++ rows_0 rack)));
         extra ← list_comp (slots_200_extra pl) (fun slot =>
                   load_labware "opentrons_flex_96_filtertiprack_200ul" (Slot slot));
         modify (set_tips200_extra extra)
       else
         _ ← modify (set_tiporder_200 []);
         s ← get;
         _ ← (if bool_decide (length (tips200_extra s) = 3%nat) then
                from ← from_option IndexError (slots_200 pl !! 0%nat);
                _ ← emit (Comment [Str (nl +:+ "---move out 1: from "); Str from;
                                   Str " to "; Loc chute]);
                rack ← from_option IndexError (tips200 s !! 0%nat);
                move_labware rack (Some chute) true
              else
                from ← from_option IndexError (slots_200 pl !! 0%nat);
                to ← from_option IndexError (slots_empty_expansion pl !! 0%nat);
                _ ← emit (Comment [Str (nl +:+ "---move out 1: from "); Str from;
                                   Str " to "; Str to]);
                rack ← from_option IndexError (tips200 s !! 0%nat);
                to ← from_option IndexError (slots_empty_expansion pl !! 0%nat);
                move_labware rack (Some (Slot to)) true);
         _ ← for_each (seq 0 (length (slots_200_extra pl))) move_in;
         modify (set_tips200_extra []));
  modify (set_tip_count_200 0).

(** [pick_up_200], lines 546-596. *)
Definition pick_up_200 : run script unit :=
  s ← get;
  _ ← (if bool_decide (tip_count_200 s = length (tiporder_200 s))
       then refill_200
       else mret tt);
  s ← get;
  tip ← from_option IndexError (tiporder_200 s !! tip_count_200 s);
  _ ← emit (PickUpTip p1000m (Some tip));
  s ← get;
  modify (set_tip_count_200 (tip_count_200 s + 1)).

(** [pick_up_50], lines 598-604. *)
Definition pick_up_50 : run script unit :=
  c ← context;
  if out_of_tips c then
    _ ← pause_attention (nl +:+ nl +:+ "Replace empty tipracks before resuming.") false;
    _ ← emit (ResetTipracks p50m);
    c ← context;
    if out_of_tips c then raise OutOfTipsError
    else emit (PickUpTip p50m None)
  else emit (PickUpTip p50m None).

(** [tip_disposal], lines 606-610. *)
Definition tip_disposal (pip : pipette) : run script unit :=
  if DRY_WATER_RUN p then emit (ReturnTip pip)
  else
    c ← context;
    if has_tip c pip then emit (DropTipChute pip) else mret tt.

(** [slow_withdraw], lines 612-617. *)
Definition slow_withdraw (pip : pipette) (w : well) (z : Q) (delay_seconds : Q)
    : run script unit :=
  _ ← emit (ScaleDefaultSpeed pip (/ 40));
  _ ← (if gtb delay_seconds 0 then emit (DelaySeconds delay_seconds) else mret tt);
  _ ← emit (MoveTo pip {| pt_well := w; pt_pos := top z |});
  emit (ScaleDefaultSpeed pip 40).

(** [custom_mix], lines 624-654.  [low] and [high] are [False] ([None]
    here) or a height. *)
Definition custom_mix (pip : pipette) (mvol : Q) (mix_loc : well) (mix_rep : nat)
    (blowout : bool) (low high : option Q) : run script unit :=
  let asp := {| pt_well := mix_loc; pt_pos := bottom (height_or low 1.5) |} in
  let disp := {| pt_well := mix_loc; pt_pos := bottom (height_or high 2.5) |} in
  let a : Q := if bool_decide (pip = p50m) then 2%Q else 5%Q in
  let b := (0.8 * max_volume pip)%Q in
  let c := mvol in
  let vol := sorted3_1 a b c in
  _ ← for_each (seq 0 mix_rep) (fun _ =>
        _ ← emit (Aspirate pip vol (Some asp) (sample_rate p));
        emit (Dispense pip vol (Some disp) 1 (Some 0%Q)));
  if blowout then
    _ ← emit (ScaleFlowRate pip rate_blow_out (/ 5));
    _ ← slow_withdraw pip mix_loc (-3) 1;
    _ ← emit (BlowOut pip (Some {| pt_well := mix_loc; pt_pos := top (-3) |}));
    _ ← emit (TouchTip pip 0.75 (-3) 10);
    emit (ScaleFlowRate pip rate_blow_out 5)
  else mret tt.

(** [custom_delay], lines 657-677. *)
Definition custom_delay (name : string) (time : Q) : run script unit :=
  if DRY_WATER_RUN p then
    for_each (arange_down time time) (fun j =>
      emit (DelayMsg 0 time [Str "There are "; Num j; Str " seconds left in the ";
                             Str name; Str " step"]))
  else
    for_each (arange_down time 0.5) (fun j =>
      emit (DelayMsg 0.5 0 [Str "There are "; Num j; Str " minutes left in the ";
                            Str name; Str " step"])).

(** Whether [pip == p50m and 1 <= transfer_vol <= 5]. *)
Definition low_volume (pip : pipette) (transfer_vol : Q) : bool :=
  bool_decide (pip = p50m) && leb 1 transfer_vol && leb transfer_vol 5.

(** The body of the loop of [well_to_list], lines 696-727, for the
    [i]-th destination [dst]; it returns the value of the local
    variable [post_mix_vol], which line 713 may overwrite. *)
Definition well_to_list_body (pip : pipette) (src : well) (transfer_vol liquid_rate
    z_height : Q) (pre_mix post_mix : bool) (post_mix_rep : nat)
    (tip_withdrawal change_tip : bool) (index : Z)
    (i : nat) (dst : well) (post_mix_vol : Q) : run script Q :=
  _ ← emit (Comment [Str (nl +:+ "---Column x"); Int (Z.of_nat i + index + 1);
                     Str ": "; Num transfer_vol; Str " µL from "; Obj src;
                     Str " to "; Lw (w_labware dst)]);
  _ ← (if change_tip then
         if bool_decide (pip = p1000m) then pick_up_200 else pick_up_50
       else mret tt);
  _ ← (if pre_mix then custom_mix pip transfer_vol src 6 false None None
       else mret tt);
  _ ← (if low_volume pip transfer_vol
       then emit (ConfigureForVolume pip transfer_vol) else mret tt);
  _ ← emit (Aspirate pip transfer_vol
              (Some {| pt_well := src; pt_pos := in_well |}) liquid_rate);
  _ ← emit (Dispense pip transfer_vol
              (Some {| pt_well := dst; pt_pos := bottom z_height |}) liquid_rate None);
  post_mix_vol ←
    (if post_mix then
       let post_mix_vol :=
         if low_volume pip transfer_vol
         then (if gtb post_mix_vol 25 then 25%Q else post_mix_vol)
         else post_mix_vol in
       _ ← (if leb post_mix_vol 10
            then custom_mix pip post_mix_vol dst post_mix_rep false (Some 1%Q) (Some 1%Q)
            else custom_mix pip post_mix_vol dst post_mix_rep false None None);
       mret post_mix_vol
     else mret post_mix_vol);
  _ ← (if tip_withdrawal then slow_withdraw pip dst (-3) 0 else mret tt);
  _ ← (if low_volume pip transfer_vol
       then emit (ConfigureForVolume pip 50) else mret tt);
  _ ← (if ltb z_height (0.5 * depth dst)
       then emit (BlowOut pip (Some {| pt_well := dst; pt_pos := top (-3) |}))
       else mret tt);
  _ ← (if change_tip then tip_disposal pip else mret tt);
  mret post_mix_vol.

Fixpoint well_to_list_loop (pip : pipette) (src : well) (transfer_vol liquid_rate
    z_height : Q) (pre_mix post_mix : bool) (post_mix_rep : nat)
    (tip_withdrawal change_tip : bool) (index : Z)
    (i : nat) (dest_list : list well) (post_mix_vol : Q) : run script unit :=
  match dest_list with
  | [] => mret tt
  | dst :: rest =>
      post_mix_vol ← well_to_list_body pip src transfer_vol liquid_rate z_height
                       pre_mix post_mix post_mix_rep tip_withdrawal change_tip index
                       i dst post_mix_vol;
      well_to_list_loop pip src transfer_vol liquid_rate z_height
        pre_mix post_mix post_mix_rep tip_withdrawal change_tip index
        (S i) rest post_mix_vol
  end.

(** [well_to_list], lines 680-730. *)
Definition well_to_list (pip : pipette) (src : well) (dest_list : list well)
    (transfer_vol liquid_rate z_height : Q) (pre_mix post_mix : bool)
    (post_mix_rep : nat) (post_mix_vol : Q) (tip_withdrawal change_tip : bool)
    (index : Z) : run script unit :=
  well_to_list_loop pip src transfer_vol liquid_rate z_height pre_mix post_mix
    post_mix_rep tip_withdrawal change_tip index 0 dest_list post_mix_vol.

(** Plate mapping, lines 343-372. *)
Definition mag_prep_cols_full : list well :=
  slice_to (cols pl) (rows_0 (mag_prep_plate d)).
Definition mag_prep_cols_m : list well :=
  slice_to (cols_m pl) (rows_0 (mag_prep_plate d)).
Definition mag_prep_cols_s : option (list well) :=
  match cols_s pl with
  | Some n =>
      if truthy_int (cols_s pl)
      then Some (slice_to n (column (mag_prep_plate d) (Z.to_nat (cols_m pl))))
      else None
  | None => None
  end.
Definition sample_plate_cols : list well :=
  slice_to (cols pl) (rows_0 (sample_plate d)).
Definition dt25_beads : well := {| w_labware := reagent_plate d; w_name := "A1" |}.
Definition dt25_beads_list : list well := column (reagent_plate d) 0.
Definition binding_buffer : well := {| w_labware := reagent_plate d; w_name := "A2" |}.

(** The dispensing of the partial column in [dt25_beads_prep], lines
    756-777, for the [i]-th pair of the [zip]. *)
Definition partial_column_body (change_partial_tip : bool)
    (tips200_available : list well) (n_partial : nat)
    (i : nat) (sd : well * well) : run script unit :=
  let '(s, dst) := sd in
  _ ← emit (Comment [Str (nl +:+ "---Partial Column x"); Int (cols_m pl + 1);
                     Str ", well x"; Int (Z.of_nat i + 1); Str ": ";
                     Num dT25_beads_vol; Str " µL"]);
  c ← context;
  _ ← (if negb (has_tip c p1000m) then
         t ← from_option IndexError (tips200_available !! i);
         emit (PickUpTip p1000m (Some t))
       else mret tt);
  _ ← custom_mix p1000m dT25_beads_vol s 5 false None None;
  _ ← emit (Aspirate p1000m dT25_beads_vol
              (Some {| pt_well := s; pt_pos := in_well |}) (beads_rate p));
  _ ← emit (Dispense p1000m dT25_beads_vol
              (Some {| pt_well := dst; pt_pos := bottom 1.5 |}) (beads_rate p) None);
  _ ← slow_withdraw p1000m dst (-3) 0;
  _ ← emit (BlowOut p1000m (Some {| pt_well := dst; pt_pos := top (-3) |}));
  if change_partial_tip then
    if negb (DRY_WATER_RUN p) then tip_disposal p1000m
    else emit (DropTipChute p1000m)
  else
    if bool_decide (Z.of_nat i = Z.of_nat n_partial - 1) then
      if negb (DRY_WATER_RUN p) then tip_disposal p1000m
      else emit (DropTipChute p1000m)
    else mret tt.

(** [dt25_beads_prep], lines 733-781. *)
Definition dt25_beads_prep (change_partial_tip : bool) : run script unit :=
  _ ← emit (Comment [Str (nl +:+ "---DT25 Beads Preparation---")]);
  _ ← pick_up_200;
  _ ← well_to_list p1000m dt25_beads mag_prep_cols_m dT25_beads_vol (beads_rate p)
        1.5 true false 0 0 true false 0;
  _ ← tip_disposal p1000m;
  _ ← (if truthy_int (cols_s pl) then
         s ← get;
         rack ← from_option IndexError (tips200 s !! 0%nat);
         let tips200_available := rev (column rack 1) in
         _ ← emit (ConfigureNozzleLayout p1000m true);
         partial ← from_option (TypeError "'NoneType' object is not iterable")
                     mag_prep_cols_s;
         _ ← for_enumerate 0 (zip dt25_beads_list partial)
               (partial_column_body change_partial_tip tips200_available
                  (length partial));
         _ ← emit (ConfigureNozzleLayout p1000m false);
         s ← get;
         modify (set_tip_count_200 (tip_count_200 s + 1))
       else mret tt);
  _ ← move_labware (mag_prep_plate d) (Some mag) true;
  custom_delay "dT25 Beads incubation" beads_binding_time.

(** [tc_steps], lines 986-1026.  A temperature or time is a number or
    [None]. *)
Definition tc_steps (tc_vol lid_temp t1 time1 : Q) (t2 time2 t3 time3 : option Q)
    (h_temp : Q) (custom_message : bool) : run script unit :=
  _ ← emit (Comment [Str (nl +:+ "---Thermocycler incubation---")]);
  _ ← (if negb (DRY_WATER_RUN p)
       then emit (ModuleCall "thermocycler" "set_lid_temperature" [lid_temp])
       else mret tt);
  _ ← emit (ModuleCall "thermocycler" "close_lid" []);
  _ ← (if negb (DRY_WATER_RUN p) then
         _ ← emit (ModuleCall "thermocycler" "set_block_temperature" [t1; time1; tc_vol]);
         _ ← (match t2, time2 with
              | Some t, Some time =>
                  if truthy_num t2 && truthy_num time2
                  then emit (ModuleCall "thermocycler" "set_block_temperature"
                               [t; time; tc_vol])
                  else mret tt
              | _, _ => mret tt
              end);
         _ ← (match t3, time3 with
              | Some t, Some time =>
                  if truthy_num t3 && truthy_num time3
                  then emit (ModuleCall "thermocycler" "set_block_temperature"
                               [t; time; tc_vol])
                  else mret tt
              | _, _ => mret tt
              end);
         _ ← emit (ModuleCall "thermocycler" "set_block_temperature" [h_temp]);
         if custom_message && (required_slots_num_200 pl >=? 7) then
           _ ← pause_attention
                 "Please replace the empty and partial 200ul filter tips before resuming."
                 false;
           modify (set_tip_count_200 0)
         else mret tt
       else custom_delay "Dry run delay" 1);
  _ ← emit (ModuleCall "thermocycler" "open_lid" []);
  _ ← emit (ModuleCall "thermocycler" "deactivate_lid" []);
  _ ← move_labware (sample_plate d) (Some mag) true;
  custom_delay "after thermocycler incubation" beads_binding_time.

(** What [pick_up_200] relies on in the plan: there is a slot for the
    200 uL racks, no more extra racks than regular ones and than
    expansion slots, and a free expansion slot whenever fewer than
    three extra racks are planned. *)
Definition plan_ok : Prop :=
  slots_200 pl <> [] /\
  (length (slots_200_extra pl) <= length (slots_200 pl))%nat /\
  (length (slots_200_extra pl) <= 3)%nat /\
  (length (slots_200_extra pl) < 3 -> slots_200_extra pl <> [] ->
   slots_empty_expansion pl <> [])%nat.

(** What [pick_up_200] relies on in the tip variables. *)
Definition tips_inv (s : script) : Prop :=
  length (tips200 s) = length (slots_200 pl) /\
  (tips200_extra s = [] \/
   length (tips200_extra s) = length (slots_200_extra pl)) /\
  (tip_count_200 s <= length (tiporder_200 s))%nat.

(** Two states with the same tip variables. *)
Definition same_tips (s s' : script) : Prop :=
  tip_count_200 s' = tip_count_200 s /\
  tiporder_200 s' = tiporder_200 s /\
  tips200 s' = tips200 s /\
  tips200_extra s' = tips200_extra s.

(** The first step of the protocol, lines 1070-1074. *)
Definition protocol_start : run script unit :=
  _ ← emit (Comment [Str (nl +:+ "---Protocol starts---" +:+ nl)]);
  _ ← emit (Comment [Str (nl +:+ "---1A2.1 to 1A2.5: DT25 Beads Preparation + Remove supernatant---" +:+ nl)]);
  dt25_beads_prep true.

(** The worlds the protocol passes through after its first step, as
    far as the tip variables go.  [dt25_beads_prep] is called once,
    in [protocol_start]; after it, the tip variables are assigned
    only by [pick_up_200] and by [tc_steps]. *)
Inductive reachable : world script -> Prop :=
| reach_prep w0 w :
    setup p power_on = (Ok (pl, d), w0) ->
    protocol_start w0 = (Ok tt, w) ->
    reachable w
| reach_pick_up_200 w :
    reachable w -> reachable (pick_up_200 w).2
| reach_tc_steps tc_vol lid_temp t1 time1 t2 time2 t3 time3 h_temp custom_message w :
    reachable w ->
    reachable (tc_steps tc_vol lid_temp t1 time1 t2 time2 t3 time3 h_temp
                 custom_message w).2
| reach_other w w' :
    reachable w -> same_tips (vars w) (vars w') -> reachable w'.

(** The liquid movements of one mixing cycle of [custom_mix] repeated
    [mix_rep] times. *)
Definition mix_cycles (pip : pipette) (mvol : Q) (mix_loc : well) (mix_rep : nat)
    (low high : option Q) : list transfer :=
  let vol := sorted3_1 (if bool_decide (pip = p50m) then 2%Q else 5%Q)
               (0.8 * max_volume pip)%Q mvol in
  mjoin (replicate mix_rep
           [Drawn vol (Some {| pt_well := mix_loc;
                               pt_pos := bottom (height_or low 1.5) |});
            Released vol (Some {| pt_well := mix_loc;
                                  pt_pos := bottom (height_or high 2.5) |})]).

(** The value of [post_mix_vol] that [well_to_list] mixes with. *)
Definition post_mix_vol_used (pip : pipette) (transfer_vol post_mix_vol : Q) : Q :=
  if low_volume pip transfer_vol
  then (if gtb post_mix_vol 25 then 25%Q else post_mix_vol)
  else post_mix_vol.

(** The liquid movements [well_to_list] makes for one destination:
    the mixing in the source well when [pre_mix] is set, the transfer,
    the mixing in the destination when [post_mix] is set. *)
Definition moves_for (pip : pipette) (src : well) (transfer_vol z_height : Q)
    (pre_mix post_mix : bool) (post_mix_rep : nat) (post_mix_vol : Q)
    (dst : well) : list transfer :=
  (if pre_mix then mix_cycles pip transfer_vol src 6 None None else [])
  ++ [Drawn transfer_vol (Some {| pt_well := src; pt_pos := in_well |});
      Released transfer_vol (Some {| pt_well := dst; pt_pos := bottom z_height |})]
  ++ (if post_mix then
        let v := post_mix_vol_used pip transfer_vol post_mix_vol in
        if leb v 10
        then mix_cycles pip v dst post_mix_rep (Some 1%Q) (Some 1%Q)
        else mix_cycles pip v dst post_mix_rep None None
      else []).

(** After [p50m.reset_tipracks()] the runtime finds a tip. *)
Definition reset_refills : Prop :=
  forall c, last (commands c) = Some (ResetTipracks p50m) -> out_of_tips c = false.

(** More of the plate mapping, lines 357-386. *)
Definition washing_buffer_1 : list well := slice 2 4 (rows_0 (reagent_plate d)).
Definition tris_and_binding_mm : well :=
  {| w_labware := reagent_plate d; w_name := "A5" |}.
Definition washing_buffer_2 : list well := slice 5 7 (rows_0 (reagent_plate d)).
Definition fragmentation_mm : well :=
  {| w_labware := reagent_plate d; w_name := "A8" |}.
Definition waste_well : well := {| w_labware := waste_res d; w_name := "A1" |}.
Definition final_plate_cols : list well :=
  slice_to (cols pl) (rows_0 (final_plate_p1 d)).

(** The modes [remove] accepts, lines 787-794. *)
Definition remove_modes : list string :=
  ["beads_supernatant"; "binding_buffer"; "washing_buffer_1"; "tris_binding_mm";
   "washing_buffer_2"; "elution"].

(** The body of the loop of [remove], lines 801-879, for the [i]-th
    pair [(s, dst)] of the [zip]; [n_dest] is [len(dest_list)]. *)
Definition remove_body (re_vol : Q) (mode : string) (change_tip : bool)
    (n_dest : nat) (i : nat) (sd : well * well) : run script unit :=
  let '(s, dst) := sd in
  _ ← emit (Comment [Str (nl +:+ "~~~Column X"); Int (Z.of_nat i + 1); Str ": ";
                     Str (title mode); Str " Removal"]);
  _ ← emit (Comment [Str "---Source: "; Obj s]);
  _ ← emit (Comment [Str "---Destination: "; Obj dst]);
  let '(re_rate, loc) :=
    if bool_decide (mode = "elution")
    then (elution_rate p, {| pt_well := dst; pt_pos := bottom 1.5 |})
    else if bool_decide (mode = "ethanol")
    then (ethanol_rate p, {| pt_well := dst; pt_pos := top (-3) |})
    else if bool_decide (mode = "beads_supernatant")
    then (sample_rate p, {| pt_well := dst; pt_pos := top (-3) |})
    else (buffer_rate p, {| pt_well := dst; pt_pos := bottom 1.5 |}) in
  '(pip, asp_vol, extra_vol) ←
    (if gtb re_vol 200 then raise (ValueError "A wrong volume is used")
     else if ltb 150 re_vol && leb re_vol 200 then
       c ← context;
       _ ← (if negb (has_tip c p1000m) then pick_up_200 else mret tt);
       _ ← emit (Aspirate p1000m 50
                   (Some {| pt_well := s; pt_pos := bottom_move (0.5 * depth s) |})
                   0.1);
       _ ← slow_withdraw p1000m s 3 1;
       _ ← emit (Dispense p1000m 50 (Some loc) re_rate (Some 0%Q));
       mret (p1000m, (re_vol - 50)%Q, 20%Q)
     else if leb 20 re_vol && leb re_vol 150 then mret (p1000m, re_vol, 20%Q)
     else mret (p50m, re_vol, 5%Q));
  let extra_vol :=
    if gtb (asp_vol + extra_vol * 2) (max_volume pip)
    then ((max_volume pip - asp_vol) / 2)%Q else extra_vol in
  let disp_vol := (asp_vol + extra_vol)%Q in
  c ← context;
  _ ← (if negb (has_tip c pip) then
         if bool_decide (pip = p1000m) then pick_up_200 else pick_up_50
       else mret tt);
  _ ← (if bool_decide (mode = "elution") then
         _ ← emit (MoveTo pip {| pt_well := s; pt_pos := top 0 |});
         emit (AirGap pip extra_vol)
       else mret tt);
  _ ← emit (Aspirate pip asp_vol
              (Some {| pt_well := s; pt_pos := bottom_move 0.7 |}) 0.1);
  _ ← (if negb (bool_decide (mode = "elution")) then
         emit (Aspirate pip extra_vol
                 (Some {| pt_well := s; pt_pos := bottom_move 0.5 |}) 0.05)
       else mret tt);
  _ ← slow_withdraw pip s (-3) 1;
  _ ← emit (Dispense pip disp_vol (Some loc) re_rate None);
  _ ← emit (DelaySeconds 3);
  _ ← (if bool_decide (mode = "elution") then
         _ ← slow_withdraw pip dst (-3) 0;
         emit (TouchTip pip 0.75 (-3) 5)
       else
         _ ← emit (BlowOut pip (Some loc));
         emit (AirGap pip extra_vol));
  if change_tip then tip_disposal pip
  else if bool_decide (Z.of_nat i = Z.of_nat n_dest - 1) then tip_disposal pip
  else mret tt.

(** [remove], lines 785-884. *)
Definition remove (re_vol : Q) (re_s_list : list well) (mode : string)
    (b2slots change_tip : bool) : run script unit :=
  if negb (bool_decide (mode ∈ remove_modes))
  then raise (ValueError "A wrong mode is used")
  else
    let dest_list :=
      if bool_decide (mode = "elution") then final_plate_cols
      else replicate (Z.to_nat (cols pl)) waste_well in
    _ ← for_enumerate 0 (zip re_s_list dest_list)
          (remove_body re_vol mode change_tip (length dest_list));
    if b2slots then
      s0 ← from_option IndexError (re_s_list !! 0%nat);
      _ ← move_labware (w_labware s0) (Some (Slot transition_slot)) true;
      emit (Comment [Str nl])
    else mret tt.

(** What [remove] settles from the volume, for a volume of at most
    200: the pipette, the volume of the main aspirate and the extra
    volume, which is cut down when the tip cannot hold the main volume
    and twice the extra. *)
Definition remove_pip (re_vol : Q) : pipette :=
  if leb 20 re_vol then p1000m else p50m.

Definition remove_asp_vol (re_vol : Q) : Q :=
  if ltb 150 re_vol then (re_vol - 50)%Q else re_vol.

Definition remove_extra_vol (re_vol : Q) : Q :=
  let pip := remove_pip re_vol in
  let asp_vol := remove_asp_vol re_vol in
  let extra_vol := if leb 20 re_vol then 20%Q else 5%Q in
  if gtb (asp_vol + extra_vol * 2) (max_volume pip)
  then ((max_volume pip - asp_vol) / 2)%Q else extra_vol.

(** Where [remove] dispenses. *)
Definition remove_loc (mode : string) (dst : well) : point :=
  if bool_decide (mode = "elution") then {| pt_well := dst; pt_pos := bottom 1.5 |}
  else if bool_decide (mode = "ethanol") then {| pt_well := dst; pt_pos := top (-3) |}
  else if bool_decide (mode = "beads_supernatant")
  then {| pt_well := dst; pt_pos := top (-3) |}
  else {| pt_well := dst; pt_pos := bottom 1.5 |}.

(** The liquid movements [remove] makes for one pair of a source and a
    destination. *)
Definition remove_moves (re_vol : Q) (mode : string) (sd : well * well)
    : list transfer :=
  let '(s, dst) := sd in
  (if ltb 150 re_vol
   then [Drawn 50 (Some {| pt_well := s; pt_pos := bottom_move (0.5 * depth s) |});
         Released 50 (Some (remove_loc mode dst))]
   else [])
  ++ [Drawn (remove_asp_vol re_vol)
        (Some {| pt_well := s; pt_pos := bottom_move 0.7 |})]
  ++ (if bool_decide (mode = "elution") then []
      else [Drawn (remove_extra_vol re_vol)
              (Some {| pt_well := s; pt_pos := bottom_move 0.5 |})])
  ++ [Released (remove_asp_vol re_vol + remove_extra_vol re_vol)
        (Some (remove_loc mode dst))].

(** The destinations of [remove], lines 796-799. *)
Definition remove_dest_list (mode : string) : list well :=
  if bool_decide (mode = "elution") then final_plate_cols
  else replicate (Z.to_nat (cols pl)) waste_well.

(** [wash], lines 887-946. *)
Definition wash (wash_vol : Q) (wash_s_list : list well)
    (addition_change_tip plate_move : bool) : run script unit :=
  let height := depth {| w_labware := sample_plate d; w_name := "A1" |} in
  s1 ← from_option IndexError (wash_s_list !! 0%nat);
  let two := bool_decide (length wash_s_list = 2%nat) in
  let dest_list_1 := if two then slice_to 8 sample_plate_cols else sample_plate_cols in
  s2 ← (if two then
          x ← from_option IndexError (wash_s_list !! 1%nat); mret (Some x)
        else mret None);
  let dest_list_2 := slice_from 8 sample_plate_cols in
  _ ← emit (Comment [Str (nl +:+ "~~~~~~~~~~~~~~~~~~~~~~~~~~~~~~~")]);
  _ ← emit (Comment [Str " Washing Buffer wash starts"]);
  _ ← emit (Comment [Str "~~~~~~~~~~~~~~~~~~~~~~~~~~~~~~~"]);
  _ ← (if negb addition_change_tip then pick_up_200 else mret tt);
  _ ← well_to_list p1000m s1 dest_list_1 wash_vol (ethanol_rate p) (height + 0.5)
        false false 0 0 false addition_change_tip 0;
  _ ← (match s2 with
       | Some s2 =>
           well_to_list p1000m s2 dest_list_2 wash_vol (ethanol_rate p)
             (height + 0.5) false false 0 0 false addition_change_tip 8
       | None => mret tt
       end);
  _ ← (if negb addition_change_tip then tip_disposal p1000m else mret tt);
  let wash_mode := if plate_move then "washing_buffer_2" else "washing_buffer_1" in
  _ ← emit (Comment [Str (nl +:+ "~~~~~~~~~~~~~~~~~~~~~~~~~~~~~~~")]);
  _ ← emit (Comment [Str (" " +:+ wash_mode +:+ " Removal starts")]);
  _ ← emit (Comment [Str "~~~~~~~~~~~~~~~~~~~~~~~~~~~~~~~"]);
  remove wash_vol sample_plate_cols wash_mode plate_move true.

(** [binding_buffer_addition_to_tc], lines 948-984. *)
Definition binding_buffer_addition_to_tc : run script unit :=
  _ ← emit (Comment [Str (nl +:+ "---Binding Buffer Addition---")]);
  _ ← for_enumerate 0 (zip mag_prep_cols_full sample_plate_cols)
        (fun j '(d1, d2) =>
           _ ← pick_up_200;
           _ ← well_to_list p1000m binding_buffer [d1] binding_buffer_vol
                 (buffer_rate p) 2 false false 0 0 false false (Z.of_nat j);
           _ ← well_to_list p1000m d1 [d2] binding_buffer_vol (buffer_rate p) 2
                 true true 6 ((sample_vol + binding_buffer_vol) * 0.8) true false
                 (Z.of_nat j);
           _ ← tip_disposal p1000m;
           emit (Comment [Str nl]));
  _ ← emit (Comment [Str (nl +:+ "---Discard the mag_prep_plate to save space---")]);
  move_labware (mag_prep_plate d) (Some chute) true.

(** [elution], lines 1028-1065. *)
Definition elution (volume_in volume_out : Q) : run script unit :=
  _ ← emit (Comment [Str (nl +:+ "---Elution Starts---")]);
  _ ← well_to_list p50m fragmentation_mm sample_plate_cols volume_in (buffer_rate p)
        0.8 false true 6 (volume_in * 0.8) true true 0;
  _ ← move_labware (sample_plate d) (Some thermocycler) true;
  _ ← tc_steps volume_in 105 94 15 None None None None 4 false;
  _ ← move_labware (final_plate_p1 d) (Some thermocycler) true;
  _ ← remove volume_out sample_plate_cols "elution" false true;
  emit (ModuleCall "thermocycler" "close_lid" []).

(** The steps of the protocol after the first, lines 1075-1197. *)
Definition protocol_steps : run script unit :=
  _ ← remove dT25_beads_vol mag_prep_cols_full "beads_supernatant" true false;
  _ ← emit (Comment [Str (nl +:+ "---1A2.6 to 1A2.8: Binding Buffer Addition(1st round) + Remove supernatant---" +:+ nl)]);
  _ ← well_to_list p1000m binding_buffer mag_prep_cols_full binding_buffer_vol
        (buffer_rate p) 2 false true 6 (binding_buffer_vol * 0.8) true true 0;
  _ ← move_labware (mag_prep_plate d) (Some mag) true;
  _ ← custom_delay "1st Binding Buffer Binding" beads_binding_time;
  _ ← remove binding_buffer_vol mag_prep_cols_full "binding_buffer" true false;
  _ ← emit (Comment [Str (nl +:+ "---1A2.9 to 1A2.14: 50 µL Binding Buffer Addition(2nd) + TC steps+ supernatant removal---" +:+ nl)]);
  _ ← binding_buffer_addition_to_tc;
  _ ← tc_steps (binding_buffer_vol + sample_vol) 90 80 2 (Some 25%Q) (Some 5%Q)
        None None 25 true;
  _ ← remove (binding_buffer_vol + sample_vol) sample_plate_cols "binding_buffer"
        false true;
  _ ← emit (Comment [Str (nl +:+ "---1A2.15 to 1A2.17: 1st 200 µL Wash Buffer---" +:+ nl)]);
  _ ← wash wash_buffer_vol washing_buffer_1 false false;
  _ ← move_labware (sample_plate d) (Some (Slot transition_slot)) true;
  _ ← emit (Comment [Str (nl +:+ "---1A2.18 to 1A2.22: tris and binding MM addition + TC steps+ supernatant removal---" +:+ nl)]);
  _ ← emit (Comment [Str (nl +:+ "---Tris and Binding MM Addition---" +:+ nl)]);
  _ ← well_to_list p1000m tris_and_binding_mm sample_plate_cols
        tris_and_binding_mm_vol (buffer_rate p) 2 false true 6
        (tris_and_binding_mm_vol * 0.8) false true 0;
  _ ← move_labware (sample_plate d) (Some thermocycler) true;
  _ ← tc_steps tris_and_binding_mm_vol 90 80 2 (Some 25%Q) (Some 5%Q) None None 25
        false;
  _ ← emit (ModuleCall "thermocycler" "set_block_temperature" [4%Q]);
  _ ← remove tris_and_binding_mm_vol sample_plate_cols "tris_binding_mm" false true;
  _ ← emit (Comment [Str (nl +:+ "---1A2.23 to 1A2.25: 2nd 200 µL Wash Buffer---" +:+ nl)]);
  _ ← wash wash_buffer_vol washing_buffer_2 false true;
  _ ← emit (Comment [Str (nl +:+ "---1A2.26 to 1A2.30: 6.5 µL fragmentation MM in, 5 µL fragmented RNA out to a new sample_plate---" +:+ nl)]);
  _ ← elution fragmentation_vol_in fragmentation_vol_out;
  _ ← move_labware (sample_plate d) (Some (Slot "D4")) true;
  _ ← pause_attention
        (nl +:+ "---The Part 1 protocol has been completed. Press 'Resume' button to finish the protocol---" +:+ nl
         +:+ "Prepare the reagents for Part 2 immediately after the Part 1 protocol is completed." +:+ nl
         +:+ "TC and temp_mode will stay on 4 degrees") false;
  emit (Comment [Str (nl +:+ "---Protocol ends---" +:+ nl)]).

(** The protocol part of [run], lines 1070-1197. *)
Definition protocol : run script unit :=
  _ ← protocol_start;
  protocol_steps.

End Helpers.

(** A run to evaluate the script on: the default parameters, the plan
    and the plates [setup] computes and loads for them, and a runtime
    whose pipettes report a tip, whose 50 uL racks are never found
    empty, with tips of 200 uL and wells 14.8 mm deep. *)
Definition default_plan : plan := calculation (num_samples default_params).

Definition default_deck : deck :=
  {| reagent_plate := {| lw_id := 8; lw_load_name := "nest_96_wellplate_2ml_deep" |};
     sample_plate :=
       {| lw_id := 9; lw_load_name := "opentrons_96_wellplate_200ul_pcr_full_skirt" |};
     mag_prep_plate :=
       {| lw_id := 10; lw_load_name := "opentrons_96_wellplate_200ul_pcr_full_skirt" |};
     final_plate_p1 :=
       {| lw_id := 11; lw_load_name := "opentrons_96_wellplate_200ul_pcr_full_skirt" |};
     waste_res := {| lw_id := 12; lw_load_name := "nest_1_reservoir_195ml" |} |}.

Definition tip_attached : protocol_context -> pipette -> bool := fun _ _ => true.
Definition racks_stocked : protocol_context -> bool := fun _ => false.
Definition tips_of_200 : pipette -> Q := fun _ => 200%Q.
Definition wells_of_14_8 : well -> Q := fun _ => 14.8%Q.

(** The world after [setup] and after the first step of that run. *)
Definition default_setup : world script := (setup default_params power_on).2.

Definition default_start : world script :=
  (protocol_start default_params default_plan default_deck tip_attached
     racks_stocked tips_of_200 wells_of_14_8 default_setup).2.

End P1.

(** ** UltraExpress/P4_V1.py *)

Module P4.
Import Flex.

Definition p50m : pipette := flex_8channel_50.
Definition p1000m : pipette := flex_8channel_1000.

(** The run-time parameters that the part modelled here reads, lines
    119-129. *)
Record params := {
  num_samples : Z;
  p50m_mount : string;
  p1000m_mount : string;
  flow_rate_aspirate : Q;
  flow_rate_dispense : Q;
}.

(** Volume parameters, lines 131-137. *)
Definition sample_vol : Q := 100.
Definition res_beads_vol : Q := 0.7 * sample_vol.
Definition te_1_vol : Q := 50.
Definition recon_buffer_vol : Q := 0.8 * te_1_vol.
Definition ethanol_vol : Q := 200.
Definition te_2_in_vol : Q := 23.
Definition te_2_out_vol : Q := 20.

(** Error handling, lines 149-162. *)
Definition error_handling (num_samples : Z) : result unit :=
  if (num_samples >? 96) || (num_samples <? 1)
  then Raise (ValueError "The number of samples should be between 1 and 96")
  else if gtb sample_vol 200 || gtb res_beads_vol 200 || gtb te_1_vol 200
          || gtb recon_buffer_vol 200 || gtb ethanol_vol 200
          || gtb te_2_in_vol 200 || gtb te_2_out_vol 200
  then Raise (ValueError "The volume should be equal to or less than 200 µL")
  else Ok tt.

(** What the calculation section, lines 168-263, computes. *)
Record plan := {
  cols : Z;
  cols_m : Z;
  cols_s : option Z;
  required_cols_200 : Z;
  required_slots_num_50 : Z;
  slots_50 : list string;
  slots_50_extra : list location;
  regular_slot_list : list string;
  required_slots_num_200 : Z;
  slots_200 : list string;
  slots_200_extra : list string;
  slots_empty_expansion : list string;
}.

Definition expansion_slots_200 : list string := ["A4"; "B4"; "C4"; "D4"].

(** Lines 168-263. *)
Definition calculation (num_samples : Z) : plan :=
  let cols := ceil_div num_samples 8 in
  let '(cols_m, cols_s) :=
    if num_samples `mod` 8 =? 0 then (cols, None)
    else if cols =? 1 then (0, Some num_samples)
    else (cols - 1, Some (num_samples `mod` 8)) in
  let required_cols_200_1 := cols + cols in
  let required_cols_200_2 := cols + cols + cols in
  let required_cols_200_3 := 1 + cols in
  let required_cols_200_4 := 1 + cols in
  let required_cols_50_1 := cols + cols in
  let required_cols_50 := required_cols_50_1 in
  let required_slots_num_50 := ceil_div required_cols_50 12 in
  let '(required_slots_num_50, slots_50, slots_50_extra, regular_slot_list) :=
    if required_slots_num_50 >=? 2
    then (required_slots_num_50, ["C3"; "D2"],
          replicate (Z.to_nat (required_slots_num_50 - 2)) OFF_DECK,
          ["A2"; "B2"; "B3"; "A3"])
    else (1, ["C3"], [], ["A2"; "B2"; "B3"; "A3"; "D2"]) in
  let required_cols_200 :=
    required_cols_200_1 + required_cols_200_2 + required_cols_200_3
    + required_cols_200_4 in
  let required_slots_num_200 := ceil_div required_cols_200 12 in
  let difference := required_slots_num_200 - Z.of_nat (length regular_slot_list) in
  let '(slots_200, slots_200_extra, slots_empty_expansion) :=
    if difference <=? 0
    then (slice_to required_slots_num_200 regular_slot_list, [], [])
    else (regular_slot_list, slice_to difference expansion_slots_200,
          slice_from difference expansion_slots_200) in
  {| cols := cols; cols_m := cols_m; cols_s := cols_s;
     required_cols_200 := required_cols_200;
     required_slots_num_50 := required_slots_num_50;
     slots_50 := slots_50; slots_50_extra := slots_50_extra;
     regular_slot_list := regular_slot_list;
     required_slots_num_200 := required_slots_num_200;
     slots_200 := slots_200; slots_200_extra := slots_200_extra;
     slots_empty_expansion := slots_empty_expansion |}.

(** The [nonlocal] variables of the tip helpers, lines 504-510 and
    277-292. *)
Record script := {
  pause_time : Z;
  tip_count_200 : nat;
  tiporder_200 : list well;
  tips200 : list labware;
  tips200_extra : list labware;
  tip_count_50 : nat;
  tiporder_50 : list well;
}.

Definition set_pause_time (n : Z) (s : script) : script :=
  {| pause_time := n; tip_count_200 := tip_count_200 s;
     tiporder_200 := tiporder_200 s; tips200 := tips200 s;
     tips200_extra := tips200_extra s;
     tip_count_50 := tip_count_50 s; tiporder_50 := tiporder_50 s |}.

Definition set_tip_count_200 (n : nat) (s : script) : script :=
  {| pause_time := pause_time s; tip_count_200 := n;
     tiporder_200 := tiporder_200 s; tips200 := tips200 s;
     tips200_extra := tips200_extra s;
     tip_count_50 := tip_count_50 s; tiporder_50 := tiporder_50 s |}.

Definition set_tiporder_200 (l : list well) (s : script) : script :=
  {| pause_time := pause_time s; tip_count_200 := tip_count_200 s;
     tiporder_200 := l; tips200 := tips200 s;
     tips200_extra := tips200_extra s;
     tip_count_50 := tip_count_50 s; tiporder_50 := tiporder_50 s |}.

Definition set_tips200 (l : list labware) (s : script) : script :=
  {| pause_time := pause_time s; tip_count_200 := tip_count_200 s;
     tiporder_200 := tiporder_200 s; tips200 := l;
     tips200_extra := tips200_extra s;
     tip_count_50 := tip_count_50 s; tiporder_50 := tiporder_50 s |}.

Definition set_tips200_extra (l : list labware) (s : script) : script :=
  {| pause_time := pause_time s; tip_count_200 := tip_count_200 s;
     tiporder_200 := tiporder_200 s; tips200 := tips200 s;
     tips200_extra := l;
     tip_count_50 := tip_count_50 s; tiporder_50 := tiporder_50 s |}.

Definition unset : script :=
  {| pause_time := 0; tip_count_200 := 0; tiporder_200 := [];
     tips200 := []; tips200_extra := [];
     tip_count_50 := 0; tiporder_50 := [] |}.

Definition power_on : world script :=
  {| ctx := fresh_context; vars := unset |}.

Definition chute : location := WasteChute.

(** [run] up to the helper functions: error handling, calculation, tips,
    pipettes, modules, plates (lines 149-331) and the tip variables
    (lines 504-510).  The [print] calls and the liquid labelling are left
    out. *)
Definition setup (p : params) : run script plan :=
  _ ← from_result (error_handling (num_samples p));
  let pl := calculation (num_samples p) in
  tips50 ← list_comp (slots_50 pl) (fun slot =>
             load_labware "opentrons_flex_96_filtertiprack_50ul" (Slot slot));
  tips50_extra ← list_comp (slots_50_extra pl) (fun slot =>
             load_labware "opentrons_flex_96_filtertiprack_50ul" slot);
  tips200 ← list_comp (slots_200 pl) (fun slot =>
             load_labware "opentrons_flex_96_filtertiprack_200ul" (Slot slot));
  tips200_extra ← list_comp (slots_200_extra pl) (fun slot =>
             load_labware "opentrons_flex_96_filtertiprack_200ul" (Slot slot));
  _ ← emit (LoadInstrument p50m (p50m_mount p));
  _ ← emit (LoadInstrument p1000m (p1000m_mount p));
  _ ← emit (SetFlowRate p1000m rate_aspirate (flow_rate_aspirate p));
  _ ← emit (SetFlowRate p1000m rate_dispense (flow_rate_dispense p));
  _ ← emit (LoadModule "thermocycler module gen2" None);
  _ ← emit (LoadModule "magneticBlockV1" (Some "D1"));
  _ ← emit (LoadModule "temperature module gen2" (Some "C1"));
  _ ← emit (LoadAdapter "temp_mod" "opentrons_96_well_aluminum_block");
  _ ← emit LoadWasteChute;
  _ ← load_labware "nest_96_wellplate_2ml_deep" (Slot "C2");
  _ ← load_labware "opentrons_96_wellplate_200ul_pcr_full_skirt" (OnModule "temp_adapter");
  _ ← load_labware "opentrons_96_wellplate_200ul_pcr_full_skirt" (OnModule "thermocycler");
  _ ← emit (ModuleCall "thermocycler" "close_lid" []);
  _ ← put {| pause_time := 1;
             tip_count_200 := 0;
             tiporder_200 := tips200 ≫= rows_0;
             tips200 := tips200;
             tips200_extra := tips200_extra;
             tip_count_50 := 0;
             tiporder_50 := tips50 ≫= rows_0 |};
  mret pl.

Section Helpers.
Variable pl : plan.

(** [pause_attention], lines 512-529. *)
Definition pause_attention (msg : string) (flash : bool) : run script unit :=
  _ ← (if flash then
         _ ← emit (SetRailLights false);
         _ ← emit (DelaySeconds 0.25);
         _ ← emit (SetRailLights true);
         _ ← emit (DelaySeconds 0.25);
         _ ← emit (SetRailLights false);
         _ ← emit (DelaySeconds 0.25);
         _ ← emit (SetRailLights true);
         _ ← emit (DelaySeconds 0.25);
         _ ← emit (SetRailLights false);
         _ ← emit (DelaySeconds 0.25);
         emit (SetRailLights true)
       else mret tt);
  s ← get;
  _ ← emit (Comment [Str (nl +:+ nl +:+ nl +:+ "PAUSE X"); Int (pause_time s)]);
  _ ← emit (Pause msg);
  s ← get;
  modify (set_pause_time (pause_time s + 1)).

(** One round of the loop of lines 564-578. *)
Definition move_in (b : nat) : run script unit :=
  from ← from_option IndexError (slots_200_extra pl !! b);
  to ← from_option IndexError (slots_200 pl !! b);
  _ ← emit (Comment [Str (nl +:+ "---move in "); Int (Z.of_nat b + 1);
                     Str ": from "; Str from; Str " to "; Str to]);
  s ← get;
  rack ← from_option IndexError (tips200_extra s !! b);
  to ← from_option IndexError (slots_200 pl !! b);
  _ ← move_labware rack (Some (Slot to)) true;
  _ ← (if bool_decide (b + 1 < length (slots_200_extra pl))%nat then
         from ← from_option IndexError (slots_200 pl !! (b + 1)%nat);
         to ← from_option IndexError (slots_200_extra pl !! b);
         _ ← emit (Comment [Str "---move out "; Int (Z.of_nat b + 2);
                            Str ": from "; Str from; Str " to "; Str to]);
         s ← get;
         old ← from_option IndexError (tips200 s !! (b + 1)%nat);
         to ← from_option IndexError (slots_200_extra pl !! b);
         move_labware old (Some (Slot to)) true
       else mret tt);
  s ← get;
  rack ← from_option IndexError (tips200_extra s !! b);
  modify (set_tiporder_200 (tiporder_200 s ++ rows_0 rack)).

(** The refill branch of [pick_up_200], lines 535-580. *)
Definition refill_200 : run script unit :=
  s ← get;
  _ ← (if bool_decide (length (tips200_extra s) = 0%nat) then
         _ ← pause_attention "Replace empty 200ul filter tips" false;
         _ ← modify (set_tiporder_200 []);
         _ ← for_each (slots_200 pl) (fun a => emit (DelDeck a));
         _ ← for_each expansion_slots_200 (fun c => emit (DelDeck c));
         racks ← list_comp (slots_200 pl) (fun slot =>
                   load_labware "opentrons_flex_96_filtertiprack_200ul" (Slot slot));
         _ ← modify (set_tips200 racks);
         _ ← for_each (seq 0 (length racks)) (fun a =>
               s ← get;
               rack ← from_option IndexError (tips200 s !! a);
               modify (set_tiporder_200 (tiporder_200 s ++ rows_0 rack)));
         extra ← list_comp (slots_200_extra pl) (fun slot =>
                   load_labware "opentrons_flex_96_filtertiprack_200ul" (Slot slot));
         modify (set_tips200_extra extra)
       else
         _ ← modify (set_tiporder_200 []);
         s ← get;
         _ ← (if bool_decide (length (tips200_extra s) = 4%nat) then
                from ← from_option IndexError (slots_200 pl !! 0%nat);
                _ ← emit (Comment [Str (nl +:+ "---move out 1: from "); Str from;
                                   Str " to "; Loc chute]);
                rack ← from_option IndexError (tips200 s !! 0%nat);
                move_labware rack (Some chute) true
              else
                from ← from_option IndexError (slots_200 pl !! 0%nat);
                to ← from_option IndexError (slots_empty_expansion pl !! 0%nat);
                _ ← emit (Comment [Str (nl +:+ "---move out 1: from "); Str from;
                                   Str " to "; Str to]);
                rack ← from_option IndexError (tips200 s !! 0%nat);
                to ← from_option IndexError (slots_empty_expansion pl !! 0%nat);
                move_labware rack (Some (Slot to)) true);
         _ ← for_each (seq 0 (length (slots_200_extra pl))) move_in;
         modify (set_tips200_extra []));
  modify (set_tip_count_200 0).

(** [pick_up_200], lines 532-582. *)
Definition pick_up_200 : run script unit :=
  s ← get;
  _ ← (if bool_decide (tip_count_200 s = length (tiporder_200 s))
       then refill_200
       else mret tt);
  s ← get;
  tip ← from_option IndexError (tiporder_200 s !! tip_count_200 s);
  _ ← emit (PickUpTip p1000m (Some tip));
  s ← get;
  modify (set_tip_count_200 (tip_count_200 s + 1)).

Definition set_tip_count_50 (n : nat) (s : script) : script :=
  {| pause_time := pause_time s; tip_count_200 := tip_count_200 s;
     tiporder_200 := tiporder_200 s; tips200 := tips200 s;
     tips200_extra := tips200_extra s;
     tip_count_50 := n; tiporder_50 := tiporder_50 s |}.

(** [pick_up_50], lines 584-591. *)
Definition pick_up_50 : run script unit :=
  s ← get;
  _ ← (if bool_decide (tip_count_50 s = length (tiporder_50 s)) then
         _ ← pause_attention
               (nl +:+ nl +:+ "Replace empty tipracks before resuming.") false;
         _ ← emit (ResetTipracks p50m);
         modify (set_tip_count_50 0)
       else mret tt);
  s ← get;
  tip ← from_option IndexError (tiporder_50 s !! tip_count_50 s);
  _ ← emit (PickUpTip p50m (Some tip));
  s ← get;
  modify (set_tip_count_50 (tip_count_50 s + 1)).

(** What [pick_up_200] relies on in the plan. *)
Definition plan_ok : Prop :=
  slots_200 pl <> [] /\
  (length (slots_200_extra pl) <= length (slots_200 pl))%nat /\
  (length (slots_200_extra pl) <= 4)%nat /\
  (length (slots_200_extra pl) < 4 -> slots_200_extra pl <> [] ->
   slots_empty_expansion pl <> [])%nat.

(** What [pick_up_200] relies on in the tip variables. *)
Definition tips_inv (s : script) : Prop :=
  length (tips200 s) = length (slots_200 pl) /\
  (tips200_extra s = [] \/
   length (tips200_extra s) = length (slots_200_extra pl)) /\
  (tip_count_200 s <= length (tiporder_200 s))%nat.

(** Two states with the same 200 uL tip variables. *)
Definition same_tips (s s' : script) : Prop :=
  tip_count_200 s' = tip_count_200 s /\
  tiporder_200 s' = tiporder_200 s /\
  tips200 s' = tips200 s /\
  tips200_extra s' = tips200_extra s.

End Helpers.

(** The worlds the protocol passes through, as far as the 200 uL tip
    variables go: they are assigned only by [pick_up_200]. *)
Inductive reachable (p : params) : world script -> Prop :=
| reach_setup pl w :
    setup p power_on = (Ok pl, w) -> reachable p w
| reach_pick_up_200 w :
    reachable p w -> reachable p (pick_up_200 (calculation (num_samples p)) w).2
| reach_other w w' :
    reachable p w -> same_tips (vars w) (vars w') -> reachable p w'.


(** The default parameters, lines 24-67, and the world after [setup]
    for them. *)
Definition default_params : params :=
  {| num_samples := 94; p50m_mount := "left"; p1000m_mount := "right";
     flow_rate_aspirate := 700; flow_rate_dispense := 700 |}.

Definition default_setup : world script := (setup default_params power_on).2.

End P4.

(** * Facts about the helpers *)

Module PyFacts.
Import Py.

Lemma ltb_lt x y : ltb x y = true <-> (x < y)%Q.
Proof.
  unfold ltb. rewrite negb_true_iff.
  destruct (Qle_bool y x) eqn:E.
  - apply Qle_bool_iff in E. split; [discriminate | intros H; exfalso; lra].
  - split; [intros _ | reflexivity].
    destruct (Qlt_le_dec x y) as [H | H]; [exact H |].
    apply Qle_bool_iff in H. congruence.
Qed.

Lemma ltb_ge x y : ltb x y = false <-> (y <= x)%Q.
Proof.
  unfold ltb. rewrite negb_false_iff. apply Qle_bool_iff.
Qed.

Lemma gtb_gt x y : gtb x y = true <-> (y < x)%Q.
Proof. apply ltb_lt. Qed.

(** [ceil_div a b] is the least integer whose product with [b] reaches
    [a]. *)
Lemma ceil_div_spec a b :
  0 < b -> b * (ceil_div a b - 1) < a <= b * ceil_div a b.
Proof.
  intros Hb. unfold ceil_div.
  pose proof (Z.div_mod (- a) b ltac:(lia)).
  pose proof (Z.mod_pos_bound (- a) b Hb). nia.
Qed.

Lemma slice_to_length {A} (n : Z) (l : list A) :
  0 <= n -> length (slice_to n l) = Z.to_nat (Z.min n (Z.of_nat (length l))).
Proof.
  intros Hn. unfold slice_to.
  destruct (n <? 0) eqn:E; [lia |].
  rewrite length_take. lia.
Qed.

Lemma slice_from_length {A} (n : Z) (l : list A) :
  0 <= n -> length (slice_from n l) = (length l - Z.to_nat n)%nat.
Proof.
  intros Hn. unfold slice_from.
  destruct (n <? 0) eqn:E; [lia |].
  by rewrite length_drop.
Qed.

(** [if x < 100: x = 100] is the maximum of [x] and 100. *)
Lemma clamp_max (x : Q) : ((if ltb x 100 then 100 else x) == Qmax x 100)%Q.
Proof.
  destruct (ltb x 100) eqn:E.
  - apply ltb_lt in E. symmetry. apply Q.max_r. lra.
  - apply ltb_ge in E. symmetry. by apply Q.max_l.
Qed.

Lemma pop_snoc {A} (l : list A) (x : A) : pop (l ++ [x]) = Some (x, l).
Proof.
  unfold pop. rewrite last_snoc. by rewrite removelast_last.
Qed.


Lemma pop_cons_is_Some {A} (a : A) (l : list A) : is_Some (pop (a :: l)).
Proof.
  destruct (a :: l) as [| x l' _] eqn:E using rev_ind; [discriminate |].
  rewrite pop_snoc. eauto.
Qed.

End PyFacts.

(** * Rules for running a script step by step *)

Module Rules.
Import Flex.

Section Rules.
Context {V : Type}.
Implicit Types w : world V.

Lemma wp_ret {A} (a : A) (Q : result A -> world V -> Prop) w :
  Q (Ok a) w -> wp (mret a) Q w.
Proof. done. Qed.

Lemma wp_raise {A} e (Q : result A -> world V -> Prop) w :
  Q (Raise e) w -> wp (raise e) Q w.
Proof. done. Qed.

Lemma wp_bind {A B} (m : run V A) (f : A -> run V B) Q w :
  wp m (fun r w' => match r with
                    | Ok a => wp (f a) Q w'
                    | Raise e => Q (Raise e) w'
                    end) w ->
  wp (m ≫= f) Q w.
Proof.
  unfold wp, mbind, run_bind. destruct (m w) as [[a | e] w']; done.
Qed.

Lemma wp_mono {A} (m : run V A) (Q Q' : result A -> world V -> Prop) w :
  wp m Q w -> (forall r w', Q r w' -> Q' r w') -> wp m Q' w.
Proof. unfold wp. auto. Qed.

Lemma wp_get (Q : result V -> world V -> Prop) w :
  Q (Ok (vars w)) w -> wp get Q w.
Proof. done. Qed.

Lemma wp_context (Q : result protocol_context -> world V -> Prop) w :
  Q (Ok (ctx w)) w -> wp context Q w.
Proof. done. Qed.

Lemma wp_put s (Q : result unit -> world V -> Prop) w :
  Q (Ok tt) {| ctx := ctx w; vars := s |} -> wp (put s) Q w.
Proof. done. Qed.

Lemma wp_modify f (Q : result unit -> world V -> Prop) w :
  Q (Ok tt) {| ctx := ctx w; vars := f (vars w) |} -> wp (modify f) Q w.
Proof. done. Qed.

Lemma wp_emit c (Q : result unit -> world V -> Prop) w :
  Q (Ok tt) (log [c] w) -> wp (emit c) Q w.
Proof. done. Qed.

Lemma wp_from_option {A} e (o : option A) (Q : result A -> world V -> Prop) w :
  match o with Some a => Q (Ok a) w | None => Q (Raise e) w end ->
  wp (from_option e o) Q w.
Proof. by destruct o. Qed.

Lemma wp_from_result {A} (r : result A) (Q : result A -> world V -> Prop) w :
  Q r w -> wp (from_result r) Q w.
Proof. done. Qed.

Lemma wp_load_labware load_name loc (Q : result labware -> world V -> Prop) w :
  (let lw := {| lw_id := next_labware (ctx w); lw_load_name := load_name |} in
   Q (Ok lw)
     {| ctx := {| next_labware := S (next_labware (ctx w));
                  parent := <[lw_id lw := loc]> (parent (ctx w));
                  commands := commands (ctx w) ++ [LoadLabware lw loc] |};
        vars := vars w |}) ->
  wp (load_labware load_name loc) Q w.
Proof. done. Qed.

Lemma wp_move_labware lw new_location use_gripper
    (Q : result unit -> world V -> Prop) w :
  Q (Ok tt)
    {| ctx := {| next_labware := next_labware (ctx w);
                 parent := match new_location with
                           | Some loc => <[lw_id lw := loc]> (parent (ctx w))
                           | None => parent (ctx w)
                           end;
                 commands := commands (ctx w)
                               ++ [MoveLabware lw new_location use_gripper] |};
       vars := vars w |} ->
  wp (move_labware lw new_location use_gripper) Q w.
Proof. done. Qed.

Lemma wp_parent_of lw (Q : result (option location) -> world V -> Prop) w :
  Q (Ok (parent (ctx w) !! lw_id lw)) w -> wp (parent_of lw) Q w.
Proof. done. Qed.

(** A loop that keeps [I]: [I] holds of what is left to do. *)
Lemma wp_for_each {A} (I : list A -> world V -> Prop) (body : A -> run V unit)
    (Q : result unit -> world V -> Prop) l w :
  I l w ->
  (forall x rest w', I (x :: rest) w' ->
     wp (body x) (fun r w'' => match r with
                               | Ok _ => I rest w''
                               | Raise e => Q (Raise e) w''
                               end) w') ->
  (forall w', I [] w' -> Q (Ok tt) w') ->
  wp (for_each l body) Q w.
Proof.
  intros HI Hbody Hend. revert w HI.
  induction l as [| x l IH]; intros w HI; simpl.
  - apply wp_ret. auto.
  - apply wp_bind. eapply wp_mono; [apply Hbody, HI |].
    intros [[] | e] w'; auto.
Qed.

Lemma wp_for_enumerate {A} (I : nat -> list A -> world V -> Prop)
    (body : nat -> A -> run V unit) (Q : result unit -> world V -> Prop) i l w :
  I i l w ->
  (forall j x rest w', I j (x :: rest) w' ->
     wp (body j x) (fun r w'' => match r with
                                 | Ok _ => I (S j) rest w''
                                 | Raise e => Q (Raise e) w''
                                 end) w') ->
  (forall j w', I j [] w' -> Q (Ok tt) w') ->
  wp (for_enumerate i l body) Q w.
Proof.
  intros HI Hbody Hend. revert i w HI.
  induction l as [| x l IH]; intros i w HI; simpl.
  - apply wp_ret. eauto.
  - apply wp_bind. eapply wp_mono; [apply Hbody, HI |].
    intros [[] | e] w'; auto.
Qed.

Lemma wp_list_comp {A B} (I : list A -> list B -> world V -> Prop)
    (f : A -> run V B) (Q : result (list B) -> world V -> Prop) l w :
  I l [] w ->
  (forall x rest done w', I (x :: rest) done w' ->
     wp (f x) (fun r w'' => match r with
                            | Ok y => I rest (done ++ [y]) w''
                            | Raise e => Q (Raise e) w''
                            end) w') ->
  (forall done w', I [] done w' -> Q (Ok done) w') ->
  wp (list_comp l f) Q w.
Proof.
  intros HI Hbody Hend.
  cut (forall done w, I l done w ->
         wp (list_comp l f)
           (fun r w' => match r with
                        | Ok ys => Q (Ok (done ++ ys)) w'
                        | Raise e => Q (Raise e) w'
                        end) w).
  { intros H. eapply wp_mono; [apply (H [] w HI) |]. by intros [ys | e] w'. }
  clear w HI. induction l as [| x l IH]; intros done w HI; simpl.
  - apply wp_ret. rewrite app_nil_r. auto.
  - apply wp_bind. eapply wp_mono; [apply Hbody, HI |].
    intros [y | e] w' Hy; [| done].
    apply wp_bind. eapply wp_mono; [apply (IH _ _ Hy) |].
    intros [ys | e] w''; [| done].
    intros HQ. apply wp_ret. by rewrite <- app_assoc in HQ.
Qed.

Lemma log_commands L w : commands (ctx (log L w)) = commands (ctx w) ++ L.
Proof. done. Qed.

Lemma wp_returns {A} (m : run V A) (Q : A -> world V -> Prop) w :
  returns m Q w <-> exists a w', m w = (Ok a, w') /\ Q a w'.
Proof.
  unfold returns, wp. destruct (m w) as [[a | e] w']; simpl.
  - split; [eauto | by intros (? & ? & [= <- <-] & ?)].
  - split; [done | by intros (? & ? & ? & ?)].
Qed.

Lemma racks_loaded_app name L1 L2 :
  racks_loaded name (L1 ++ L2) = (racks_loaded name L1 + racks_loaded name L2)%nat.
Proof. unfold racks_loaded. by rewrite omap_app, length_app. Qed.

(** Loading a rack in each of a list of places. *)
Lemma load_racks_spec {A} name (place : A -> location) (slots : list A) w :
  returns (list_comp slots (fun slot => load_labware name (place slot)))
    (fun racks w' =>
       length racks = length slots /\
       vars w' = vars w /\
       exists L,
         commands (ctx w') = commands (ctx w) ++ L /\
         racks_loaded name L = length slots /\
         (forall name', name' <> name -> racks_loaded name' L = 0%nat) /\
         pick_ups L = [] /\ dry L) w.
Proof.
  unfold returns.
  apply wp_list_comp with
    (I := fun rest done w' =>
            (length done + length rest = length slots)%nat /\
            vars w' = vars w /\
            exists L,
              commands (ctx w') = commands (ctx w) ++ L /\
              racks_loaded name L = length done /\
              (forall name', name' <> name -> racks_loaded name' L = 0%nat) /\
              pick_ups L = [] /\ dry L).
  - split; [done |]. split; [done |]. exists []. rewrite app_nil_r.
    repeat split; try done. constructor.
  - intros x rest done w' (Hlen & Hv & L & HL & Hn & Hne & Hp & Hd).
    apply wp_load_labware. cbn zeta. cbn [vars ctx commands].
    rewrite length_app. simpl in *. split; [lia |]. split; [done |].
    exists (L ++ [LoadLabware {| lw_id := next_labware (ctx w');
                                 lw_load_name := name |} (place x)]).
    rewrite HL, <- app_assoc, !racks_loaded_app, Hn. split; [done |].
    split; [| split; [| split]].
    + unfold racks_loaded. simpl. by rewrite bool_decide_eq_true_2.
    + intros name' Hne'. rewrite racks_loaded_app, (Hne _ Hne').
      unfold racks_loaded. simpl. by rewrite bool_decide_eq_false_2.
    + unfold pick_ups in *. by rewrite omap_app, Hp.
    + apply Forall_app. split; [done | by repeat constructor].
  - intros done w' (Hlen & Hv & L & HL & Hn & Hne & Hp & Hd).
    simpl in Hlen. split; [lia |]. split; [done |].
    exists L. split; [done |]. split; [lia |]. done.
Qed.

Lemma dry_DelDeck (l : list string) : dry (DelDeck <$> l).
Proof. apply Forall_fmap, Forall_forall. done. Qed.

Lemma pick_ups_DelDeck (l : list string) : pick_ups (DelDeck <$> l) = [].
Proof. by induction l. Qed.

Lemma transfers_app pip here L1 L2 :
  transfers pip here (L1 ++ L2) =
    transfers pip here L1 ++ transfers pip (position_after pip here L1) L2.
Proof.
  revert here. induction L1 as [| c L1 IH]; intros here; [done |].
  destruct c; simpl; try apply IH.
  - destruct loc as [loc |]; case_bool_decide; simpl; by rewrite IH.
  - destruct loc as [loc |]; case_bool_decide; simpl; by rewrite IH.
  - destruct loc as [loc |]; apply IH.
Qed.

Lemma position_after_app pip here L1 L2 :
  position_after pip here (L1 ++ L2) =
    position_after pip (position_after pip here L1) L2.
Proof.
  revert here. induction L1 as [| c L1 IH]; intros here; [done |].
  destruct c; simpl; try apply IH.
  - destruct loc as [loc |]; apply IH.
  - destruct loc as [loc |]; apply IH.
  - destruct loc as [loc |]; apply IH.
Qed.

Lemma transfers_dry pip here L : dry L -> transfers pip here L = [].
Proof.
  induction 1 as [| c L Hc _ IH]; [done |].
  destruct c; simpl in *; try done. by destruct loc.
Qed.

Lemma position_after_dry pip here L : dry L -> position_after pip here L = here.
Proof.
  induction 1 as [| c L Hc _ IH]; [done |].
  destruct c; simpl in *; try done. by destruct loc.
Qed.

Lemma dry_app L1 L2 : dry L1 -> dry L2 -> dry (L1 ++ L2).
Proof. unfold dry. intros. by apply Forall_app. Qed.

Lemma dry_cons c L : handles_liquid c = false -> dry L -> dry (c :: L).
Proof. by constructor. Qed.

Lemma dry_nil : dry [].
Proof. constructor. Qed.

Lemma pick_ups_app L1 L2 : pick_ups (L1 ++ L2) = pick_ups L1 ++ pick_ups L2.
Proof. unfold pick_ups. apply omap_app. Qed.

Lemma log_log L1 L2 w : log L2 (log L1 w) = log (L1 ++ L2) w.
Proof. unfold log. simpl. by rewrite app_assoc. Qed.

Lemma log_nil w : log [] w = w.
Proof.
  unfold log. rewrite app_nil_r. by destruct w as [[? ? ?] ?].
Qed.

(** A loop that only issues commands. *)
Lemma for_each_emit {A} (f : A -> command) l w :
  for_each l (fun x => emit (f x)) w = (Ok tt, log (f <$> l) w).
Proof.
  revert w. induction l as [| x l IH]; intros w; simpl.
  - by rewrite log_nil.
  - unfold mbind, run_bind. simpl. rewrite IH. by rewrite log_log.
Qed.

Lemma wp_for_each_emit {A} (f : A -> command) l
    (Q : result unit -> world V -> Prop) w :
  Q (Ok tt) (log (f <$> l) w) -> wp (for_each l (fun x => emit (f x))) Q w.
Proof. unfold wp. by rewrite for_each_emit. Qed.

(** A loop whose rounds issue the same two commands. *)
Lemma for_each_emit2 {A} (a b : command) (l : list A) w :
  for_each l (fun _ => _ ← emit a; emit b) w
    = (Ok tt, log (mjoin (replicate (length l) [a; b])) w).
Proof.
  revert w. induction l as [| x l IH]; intros w; simpl.
  - by rewrite log_nil.
  - unfold mbind at 1, run_bind. unfold mbind at 1, run_bind. simpl.
    rewrite IH, log_log. rewrite log_log. done.
Qed.

Lemma transfers_dry_app pip here L1 L2 :
  dry L1 -> transfers pip here (L1 ++ L2) = transfers pip here L2.
Proof.
  intros H. by rewrite transfers_app, transfers_dry, position_after_dry.
Qed.

Lemma moves_refl pip w : moves pip w w [].
Proof. exists []. by rewrite app_nil_r. Qed.

Lemma moves_trans pip w w1 w2 T1 T2 :
  moves pip w w1 T1 -> moves pip w1 w2 T2 -> moves pip w w2 (T1 ++ T2).
Proof.
  intros (L1 & H1 & Ht1) (L2 & H2 & Ht2). exists (L1 ++ L2). split.
  - by rewrite H2, H1, app_assoc.
  - intros here. by rewrite transfers_app, Ht1, Ht2.
Qed.

Lemma moves_dry pip w w' L :
  commands (ctx w') = commands (ctx w) ++ L -> dry L -> moves pip w w' [].
Proof.
  intros H Hd. exists L. split; [done |]. intros here. by apply transfers_dry.
Qed.

Lemma moves_log pip L T w :
  (forall here, transfers pip here L = T) -> moves pip w (log L w) T.
Proof. intros H. by exists L. Qed.

Lemma moves_eq pip w w' T T' : moves pip w w' T -> T = T' -> moves pip w w' T'.
Proof. by intros H <-. Qed.

Lemma moves_since pip here w w' T :
  moves pip w w' T -> transfers pip here (since w w') = T.
Proof.
  intros (L & HL & Ht). unfold since. by rewrite HL, drop_app_length.
Qed.

Lemma net_drawn_app x l1 l2 :
  (net_drawn x (l1 ++ l2) == net_drawn x l1 + net_drawn x l2)%Q.
Proof.
  induction l1 as [| t l1 IH]; simpl; [by rewrite Qplus_0_l |].
  destruct t as [v [pt |] | v [pt |]]; try case_bool_decide; rewrite ?IH; ring.
Qed.

(** Drawing a volume and releasing it in the same well, any number of
    times, takes nothing out of any well. *)
Lemma net_drawn_cycles x v pt pt' n :
  pt_well pt = pt_well pt' ->
  (net_drawn x (mjoin (replicate n [Drawn v (Some pt); Released v (Some pt')]))
   == 0)%Q.
Proof.
  intros Hpt. induction n as [| n IH]; [done |].
  simpl. rewrite <- Hpt. case_bool_decide; rewrite IH; ring.
Qed.

(** The volume drawn by a list of single transfers. *)
Lemma drawn_volume_single_transfers {A} v pt (pt' : A -> option point) l :
  (drawn_volume (l ≫= fun x => [Drawn v pt; Released v (pt' x)])
   == v * inject_Z (Z.of_nat (length l)))%Q.
Proof.
  induction l as [| x l IH]; [simpl; ring |].
  rewrite bind_cons. cbn [app drawn_volume foldr length].
  fold (drawn_volume (l ≫= fun x => [Drawn v pt; Released v (pt' x)])).
  rewrite IH, Nat2Z.inj_succ. unfold Z.succ. rewrite inject_Z_plus. ring.
Qed.

Lemma omap_fmap_None {A B C} (g : B -> option C) (f : A -> B) (l : list A) :
  (forall x, g (f x) = None) -> omap g (f <$> l) = [].
Proof.
  intros H. induction l as [| x l IH]; [done |]. simpl. by rewrite H.
Qed.

Lemma since_log L w : since w (log L w) = L.
Proof. unfold since. simpl. by rewrite drop_app_length. Qed.

Lemma since_refl w : since w w = [].
Proof. unfold since. apply drop_all. Qed.

Lemma since_app w w' L :
  commands (ctx w') = commands (ctx w) ++ L -> since w w' = L.
Proof.
  unfold since. intros ->. by rewrite drop_app_length.
Qed.


















Lemma only_weaken {A} (P P' : command -> bool) (m : run V A) :
  (forall c, P c = true -> P' c = true) -> issues_only P m -> issues_only P' m.
Proof.
  intros HP H w. destruct (H w) as (L & HL & HF). exists L. split; [done |].
  eapply Forall_impl; [done |]. auto.
Qed.

Lemma only_since {A} P (m : run V A) w :
  issues_only P m -> Forall (fun c => P c = true) (since w (m w).2).
Proof.
  intros H. destruct (H w) as (L & HL & HF). by rewrite (since_app _ _ _ HL).
Qed.




End Rules.

(** One step of a script. *)
Ltac wp_step :=
  lazymatch goal with
  | |- wp (mbind _ _) _ _ => apply wp_bind
  | |- wp (mret _) _ _ => apply wp_ret
  | |- wp (raise _) _ _ => apply wp_raise
  | |- wp get _ _ => apply wp_get
  | |- wp context _ _ => apply wp_context
  | |- wp (put _) _ _ => apply wp_put
  | |- wp (modify _) _ _ => apply wp_modify
  | |- wp (emit _) _ _ => apply wp_emit
  | |- wp (from_result _) _ _ => apply wp_from_result
  | |- wp (load_labware _ _) _ _ => apply wp_load_labware
  | |- wp (move_labware _ _ _) _ _ => apply wp_move_labware
  | |- wp (parent_of _) _ _ => apply wp_parent_of
  end.



(** Split off the first step of a sequence, if it is one. *)
Ltac wp_seq :=
  lazymatch goal with
  | |- wp (mbind _ _) _ _ => apply wp_bind
  | |- _ => idtac
  end.

Ltac wp_simpl :=
  cbn beta iota zeta delta [vars log ctx commands next_labware parent fst snd].

Ltac wp_steps := repeat (wp_step; wp_simpl).

(** A dictionary or list lookup. *)
Ltac wp_lookup := apply wp_from_option; wp_simpl.

Ltac wp_option :=
  lazymatch goal with
  | |- wp (from_option _ _) _ _ => apply wp_from_option
  end.

(** Case analysis on what the next step looks at. *)
Ltac wp_case :=
  match goal with
  | |- match ?x with _ => _ end => destruct x eqn:?
  | |- wp (if ?b then _ else _) _ _ => destruct b eqn:?
  | |- wp (match ?x with _ => _ end) _ _ => destruct x eqn:?
  end.

(** An index that is within the list. *)
Ltac wp_index :=
  match goal with
  | |- match ?l !! ?i with _ => _ end =>
      let x := fresh "x" in
      let Hx := fresh "Hx" in
      destruct (lookup_lt_is_Some_2 l i) as [x Hx];
      [ solve [simpl; lia] | rewrite Hx; cbn beta iota ]
  end.

(** Use what is known of the value a [match] looks at. *)
Ltac know :=
  repeat match goal with
         | H : ?x = _ |- context [match ?x with _ => _ end] => rewrite H
         end.

(** Reading a dictionary at the key just written. *)
Ltac read_written :=
  repeat match goal with
         | |- context [ <[?k := ?x]> ?m !! ?k ] => rewrite (lookup_insert_eq m k x)
         end.

End Rules.

(** * BombBio_Trizol_RNA_reuse_noShake_v3.py *)

Module NoShakeV3Facts.
Import Flex Rules PyFacts NoShakeV3.

(** What one call of [removeSup] does: the counter, the pause, and the
    liquid it moves. *)
Lemma removeSup_spec d PLATE COL SUPVOL off w c :
  COUNTERS (vars w) !! "WASTEVOL" = Some c ->
  let v := if ltb SUPVOL 100 then 100%Q else SUPVOL in
  let col := {| w_labware := PLATE; w_name := COL |} in
  returns (removeSup d PLATE COL SUPVOL off)
    (fun _ w' =>
       vars w' = set_counter "WASTEVOL" (c + v * 8)%Q (vars w) /\
       exists L,
         commands (ctx w') = commands (ctx w) ++ L /\
         (forall here,
            transfers p1000 here L =
              [Drawn (v - 100) (Some {| pt_well := col; pt_pos := bottom (off + 2) |});
               Drawn 100 (Some {| pt_well := col; pt_pos := bottom (off + 1) |});
               Released v (Some {| pt_well := {| w_labware := WasteRes d;
                                                 w_name := "A1" |};
                                   pt_pos := top 0 |})]) /\
         (In (Pause "Please empty the waste") L <-> (150000 < c + v * 8)%Q)) w.
Proof.
  intros Hc v col. unfold returns, removeSup, counter.
  fold v. fold col. wp_steps.
  wp_lookup. rewrite Hc. wp_steps.
  wp_lookup. simpl. rewrite lookup_insert_eq. wp_steps.
  wp_lookup. simpl. rewrite lookup_insert_eq.
  apply wp_bind.
  destruct (gtb (c + v * 8) 150000) eqn:E; wp_steps.
  - split; [done |]. rewrite <- !app_assoc. eexists. split; [done |].
    split; [done |]. apply gtb_gt in E. simpl. intuition.
  - split; [done |]. rewrite <- !app_assoc. eexists. split; [done |].
    split; [done |]. apply ltb_ge in E. simpl.
    split; [intuition discriminate | intros H; exfalso; lra].
Qed.

Local Ltac simp_vars :=
  cbn [ACTIVE_TIPRACKS BACKUP_TIPRACKS TIPS_USED COUNTERS
       set_active set_backup set_used set_counter deckslot rack].

Local Ltac go :=
  repeat (first [wp_step | wp_option]; wp_simpl; simp_vars; read_written; know;
          cbn beta iota).




Local Ltac explore := repeat (go; try wp_case).

Local Ltac frame_goal :=
  repeat split; intros; simp_vars; rewrite ?lookup_insert_ne by done; try done.







End NoShakeV3Facts.

(** * BombBio_Trizol_RNA_reuse_shake_v1.py and Yeast_OPP_v1.py *)

Module ShakeV1Facts.
Import Flex Rules PyFacts ShakeV1.

Local Ltac simp_vars :=
  cbn [ACTIVE_TIPRACKS BACKUP_TIPRACKS TIPS_USED COUNTERS
       set_active set_backup set_used set_counter].

Local Ltac go :=
  repeat (first [wp_step | wp_option]; wp_simpl; simp_vars; read_written; know;
          cbn beta iota).

Local Ltac explore := repeat (go; try wp_case).

Local Ltac frame_goal :=
  repeat split; intros; simp_vars; rewrite ?lookup_insert_ne by done; try done.

(** What one call of [removeSup] does: the counter, the pause, and the
    liquid it moves. *)
Lemma shake_removeSup_spec d DRYRUN PLATE COL SUPVOL off w c :
  COUNTERS (vars w) !! "WASTEVOL" = Some c ->
  let v := if ltb SUPVOL 100 then 100%Q else SUPVOL in
  let col := {| w_labware := PLATE; w_name := COL |} in
  returns (removeSup d DRYRUN PLATE COL SUPVOL off)
    (fun _ w' =>
       vars w' = set_counter "WASTEVOL" (c + v * 8)%Q (vars w) /\
       exists L,
         commands (ctx w') = commands (ctx w) ++ L /\
         (forall here,
            transfers p1000 here L =
              [Drawn (v - 100) (Some {| pt_well := col; pt_pos := bottom (off + 2) |});
               Drawn 100 (Some {| pt_well := col; pt_pos := bottom (off + 1) |});
               Released v (Some {| pt_well := {| w_labware := WasteRes d;
                                                 w_name := "A1" |};
                                   pt_pos := top 0 |})]) /\
         (In (Pause "Please empty the waste") L <-> (150000 < c + v * 8)%Q)) w.
Proof.
  intros Hc v col. unfold returns, removeSup, counter.
  fold v. fold col. go.
  destruct (gtb (c + v * 8) 150000) eqn:E; go.
  - split; [done |]. rewrite <- !app_assoc. eexists. split; [done |].
    split; [done |]. apply gtb_gt in E. simpl. intuition.
  - split; [done |]. rewrite <- !app_assoc. eexists. split; [done |].
    split; [done |]. apply ltb_ge in E. simpl.
    split; [intuition discriminate | intros H; exfalso; lra].
Qed.
















End ShakeV1Facts.

Module YeastOPPFacts.
Import Flex Rules PyFacts YeastOPP.



End YeastOPPFacts.

(** * UltraExpress/P1_V1.py *)

Module P1Facts.
Import Flex Rules PyFacts P1.

Local Ltac simp_vars :=
  cbn [pause_time tip_count_200 tiporder_200 tips200 tips200_extra
       set_pause_time set_tip_count_200 set_tiporder_200 set_tips200
       set_tips200_extra].

Local Ltac go :=
  repeat (first [wp_step | wp_option]; wp_simpl; simp_vars; know; cbn beta iota).

(** The column count is the ceiling of [num_samples / 8], and the plan's
    fields as functions of it. *)
Lemma calculation_cols n :
  1 <= n <= 96 ->
  let pl := calculation n in
  8 * (cols pl - 1) < n <= 8 * cols pl /\
  1 <= cols pl <= 12 /\
  required_cols_200 pl = 7 * cols pl + 6 /\
  12 * (required_slots_num_200 pl - 1) < required_cols_200 pl
    <= 12 * required_slots_num_200 pl /\
  regular_slot_list pl =
    (if cols pl * 2 >? 12 then ["B2"; "B3"; "C3"] else ["B2"; "B3"; "C3"; "A3"]).
Proof.
  intros Hn. unfold calculation.
  pose proof (ceil_div_spec n 8 ltac:(lia)) as Hc.
  set (c := ceil_div n 8) in *.
  pose proof (ceil_div_spec (1 + 1 + 1 + (c + 1) + (c + c) + (1 + c) + (c + c) + (1 + c))
                12 ltac:(lia)) as Hr.
  set (r := ceil_div _ 12) in *. clearbody c r.
  repeat match goal with
         | |- context [if ?b then _ else _] => destruct b eqn:?
         end;
    cbn -[Z.mul Z.add Z.gtb]; repeat split; try lia.
  all: cbn -[Z.mul Z.gtb] in *; congruence.
Qed.

(** The slots of the plan, by cases on the column count. *)
Lemma calculation_slots n :
  1 <= n <= 96 ->
  let pl := calculation n in
  plan_ok pl /\
  (2 <= length (slots_200 pl))%nat /\
  Z.of_nat (length (slots_200 pl) + length (slots_200_extra pl)) =
    Z.min (required_slots_num_200 pl) (Z.of_nat (length (regular_slot_list pl)) + 3) /\
  (n <= 72 ->
   Z.of_nat (length (slots_200 pl) + length (slots_200_extra pl)) =
     required_slots_num_200 pl) /\
  (73 <= n ->
   (length (slots_200 pl) + length (slots_200_extra pl) = 6)%nat /\
   7 <= required_slots_num_200 pl <= 8) /\
  (slots_50 pl <> []).
Proof.
  intros Hn. unfold calculation, plan_ok.
  pose proof (ceil_div_spec n 8 ltac:(lia)) as Hc.
  set (c := ceil_div n 8) in *.
  pose proof (ceil_div_spec (1 + 1 + 1 + (c + 1) + (c + c) + (1 + c) + (c + c) + (1 + c))
                12 ltac:(lia)) as Hr.
  set (r := ceil_div _ 12) in *. clearbody c r.
  assert (c = 1 \/ c = 2 \/ c = 3 \/ c = 4 \/ c = 5 \/ c = 6 \/ c = 7 \/ c = 8 \/
          c = 9 \/ c = 10 \/ c = 11 \/ c = 12) as Hcases by lia.
  destruct (n `mod` 8 =? 0); [| destruct (c =? 1)].
  all: destruct Hcases as
         [-> | [-> | [-> | [-> | [-> | [-> | [-> | [-> | [-> | [-> | [-> | ->]]]]]]]]]]].
  all: match goal with
       | H : 12 * (?x - 1) < ?e <= _ |- _ =>
           let v := eval vm_compute in (ceil_div e 12) in
           assert (x = v) as -> by lia
       end.
  all: lazy -[Z.le Z.lt Z.min not]; repeat split; try done; try lia.
Qed.

Lemma error_handling_ok n : 1 <= n <= 96 -> error_handling n = Ok tt.
Proof.
  intros Hn. unfold error_handling.
  replace ((n >? 96) || (n <? 1)) with false by lia. reflexivity.
Qed.

Lemma error_handling_out_of_range n :
  n > 96 \/ n < 1 ->
  error_handling n = Raise (ValueError "The number of samples should be between 1 and 96").
Proof.
  intros Hn. unfold error_handling.
  by replace ((n >? 96) || (n <? 1)) with true by lia.
Qed.

Lemma length_tiporder (racks : list labware) :
  length (racks ≫= rows_0) = (12 * length racks)%nat.
Proof.
  induction racks as [| r racks IH]; [done |].
  cbn [mbind list_bind]. rewrite length_app, IH. unfold rows_0.
  rewrite length_fmap, length_seq. simpl. lia.
Qed.

(** What [setup] leaves behind when the number of samples is in range. *)
Lemma setup_spec p w :
  1 <= num_samples p <= 96 ->
  returns (setup p)
    (fun '(pl, d) w' =>
       pl = calculation (num_samples p) /\
       length (tips200 (vars w')) = length (slots_200 pl) /\
       length (tips200_extra (vars w')) = length (slots_200_extra pl) /\
       tip_count_200 (vars w') = 0%nat /\
       tiporder_200 (vars w') = tips200 (vars w') ≫= rows_0 /\
       exists L,
         commands (ctx w') = commands (ctx w) ++ L /\
         racks_loaded "opentrons_flex_96_filtertiprack_200ul" L =
           (length (slots_200 pl) + length (slots_200_extra pl))%nat /\
         pick_ups L = []) w.
Proof.
  intros Hn. unfold returns, setup. rewrite (error_handling_ok _ Hn). go.
  eapply wp_mono; [apply load_racks_spec |].
  intros [tips50 | ?] w1; [| done]. intros (_ & Hv1 & L1 & HL1 & _ & Hn1 & Hp1 & _).
  apply wp_bind. eapply wp_mono; [apply load_racks_spec |].
  intros [racks | ?] w2; [| done]. intros (Hlen2 & Hv2 & L2 & HL2 & Hn2 & _ & Hp2 & _).
  apply wp_bind. eapply wp_mono; [apply load_racks_spec |].
  intros [extra | ?] w3; [| done]. intros (Hlen3 & Hv3 & L3 & HL3 & Hn3 & _ & Hp3 & _).
  go. repeat split; try done.
  rewrite HL3, HL2, HL1, <- !app_assoc. eexists. split; [done |].
  rewrite !racks_loaded_app, Hn1, Hn2, Hn3 by done.
  unfold pick_ups in *. rewrite !omap_app, Hp1, Hp2, Hp3.
  split; [| done]. vm_compute racks_loaded. lia.
Qed.

Local Ltac run := repeat (go; try wp_index).

Local Ltac quiet :=
  rewrite <- ?app_assoc; eexists; split; [reflexivity |];
  split; [repeat constructor | reflexivity].

Lemma pause_attention_spec msg flash w :
  returns (pause_attention msg flash)
    (fun _ w' =>
       same_tips (vars w) (vars w') /\
       exists L, commands (ctx w') = commands (ctx w) ++ L /\ dry L /\ pick_ups L = []) w.
Proof.
  unfold returns, pause_attention. destruct flash; go.
  all: split; [done | quiet].
Qed.

Section Tips.
Variable pl : plan.
Hypothesis Hpl : plan_ok pl.

(** One round of moving an extra rack in. *)
Lemma move_in_spec b w :
  (b < length (slots_200_extra pl))%nat ->
  length (tips200 (vars w)) = length (slots_200 pl) ->
  length (tips200_extra (vars w)) = length (slots_200_extra pl) ->
  returns (move_in pl b)
    (fun _ w' =>
       tips200 (vars w') = tips200 (vars w) /\
       tips200_extra (vars w') = tips200_extra (vars w) /\
       tip_count_200 (vars w') = tip_count_200 (vars w) /\
       length (tiporder_200 (vars w')) = (length (tiporder_200 (vars w)) + 12)%nat /\
       exists L, commands (ctx w') = commands (ctx w) ++ L /\ dry L /\
                 pick_ups L = []) w.
Proof.
  intros Hb H200 Hextra. destruct Hpl as (Hne & Hle & _ & _).
  unfold returns, move_in. run.
  case_bool_decide as Hb1; run.
  all: rewrite length_app; unfold rows_0; rewrite length_fmap, length_seq.
  all: repeat split; try done; quiet.
Qed.

(** The loop that rebuilds [tiporder_200] from the racks in
    [tips200]. *)
Lemma extend_tiporder_spec w :
  returns (for_each (seq 0 (length (tips200 (vars w)))) (fun a =>
             s ← get;
             rack ← from_option IndexError (tips200 s !! a);
             modify (set_tiporder_200 (tiporder_200 s ++ rows_0 rack))))
    (fun _ w' =>
       ctx w' = ctx w /\
       tips200 (vars w') = tips200 (vars w) /\
       tips200_extra (vars w') = tips200_extra (vars w) /\
       tip_count_200 (vars w') = tip_count_200 (vars w) /\
       length (tiporder_200 (vars w')) =
         (length (tiporder_200 (vars w)) + 12 * length (tips200 (vars w)))%nat) w.
Proof.
  unfold returns.
  apply wp_for_each with
    (I := fun rest w' =>
            Forall (fun a => a < length (tips200 (vars w)))%nat rest /\
            ctx w' = ctx w /\
            tips200 (vars w') = tips200 (vars w) /\
            tips200_extra (vars w') = tips200_extra (vars w) /\
            tip_count_200 (vars w') = tip_count_200 (vars w) /\
            (length (tiporder_200 (vars w')) + 12 * length rest =
             length (tiporder_200 (vars w)) + 12 * length (tips200 (vars w)))%nat).
  - split; [| by rewrite length_seq].
    apply Forall_forall. intros a Ha%elem_of_seq. lia.
  - intros a rest w' (Hall & Hc & H2 & He & Ht & Hlen).
    apply Forall_cons in Hall as [Ha Hall]. go.
    rewrite H2. wp_index. go. rewrite length_app. unfold rows_0.
    rewrite length_fmap, length_seq. simpl in Hlen.
    repeat split; try done. lia.
  - intros w' (_ & Hc & H2 & He & Ht & Hlen). simpl in Hlen.
    repeat split; try done. lia.
Qed.

(** Moving all the extra racks in. *)
Lemma move_in_loop_spec w :
  length (tips200 (vars w)) = length (slots_200 pl) ->
  length (tips200_extra (vars w)) = length (slots_200_extra pl) ->
  tiporder_200 (vars w) = [] ->
  returns (for_each (seq 0 (length (slots_200_extra pl))) (move_in pl))
    (fun _ w' =>
       tips200 (vars w') = tips200 (vars w) /\
       length (tiporder_200 (vars w')) = (12 * length (slots_200_extra pl))%nat /\
       exists L, commands (ctx w') = commands (ctx w) ++ L /\ dry L /\
                 pick_ups L = []) w.
Proof.
  intros H200 Hextra Hnil. unfold returns.
  apply wp_for_each with
    (I := fun rest w' =>
            Forall (fun b => b < length (slots_200_extra pl))%nat rest /\
            tips200 (vars w') = tips200 (vars w) /\
            tips200_extra (vars w') = tips200_extra (vars w) /\
            (length (tiporder_200 (vars w')) + 12 * length rest =
             12 * length (slots_200_extra pl))%nat /\
            exists L, commands (ctx w') = commands (ctx w) ++ L /\ dry L /\
                      pick_ups L = []).
  - split; [apply Forall_forall; intros b Hb%elem_of_seq; lia |].
    rewrite Hnil, length_seq. repeat split; try done.
    exists []. rewrite app_nil_r. repeat split. constructor.
  - intros b rest w' (Hall & H2 & He' & Hlen & L & HL & Hd & Hp).
    apply Forall_cons in Hall as [Hb Hall].
    eapply wp_mono; [apply (move_in_spec b w' Hb) |].
    + by rewrite H2.
    + by rewrite He'.
    + intros [[] | ?] w''; [| done].
      intros (H2' & He'' & _ & Hlen' & L' & HL' & Hd' & Hp').
      simpl in Hlen. repeat split; try congruence; try lia.
      exists (L ++ L'). rewrite HL', HL, <- app_assoc.
      repeat split; [by apply dry_app | by rewrite pick_ups_app, Hp, Hp'].
  - intros w' (_ & H2 & _ & Hlen & HL). simpl in Hlen.
    repeat split; try done. lia.
Qed.

(** The refill branch leaves a tip order that is not empty, and the
    counter at 0. *)
Lemma refill_200_spec w :
  tips_inv pl (vars w) ->
  returns (refill_200 pl)
    (fun _ w' =>
       tips_inv pl (vars w') /\
       tip_count_200 (vars w') = 0%nat /\
       tiporder_200 (vars w') <> [] /\
       exists L, commands (ctx w') = commands (ctx w) ++ L /\ dry L /\
                 pick_ups L = []) w.
Proof.
  intros (H200 & Hextra & Hcount). destruct Hpl as (Hne & Hle & Hle3 & Hfree).
  assert (0 < length (slots_200 pl))%nat as Hpos
    by (destruct (slots_200 pl); [done | simpl; lia]).
  unfold returns, refill_200. go.
  case_bool_decide as He.
  - apply wp_bind. eapply wp_mono; [apply pause_attention_spec |].
    intros [[] | ?] w1; [| done].
    intros ((Hc1 & Ho1 & Ht1 & He1) & L1 & HL1 & Hd1 & Hp1).
    go. apply wp_for_each_emit. apply wp_bind. apply wp_for_each_emit.
    apply wp_bind. eapply wp_mono; [apply load_racks_spec |].
    intros [racks | ?] w2; [| done].
    intros (Hlen2 & Hv2 & L2 & HL2 & _ & _ & Hp2 & Hd2). go.
    set (w3 := {| ctx := ctx w2; vars := set_tips200 racks (vars w2) |}).
    eapply wp_mono; [apply (extend_tiporder_spec w3) |].
    intros [[] | ?] w4; [| done].
    intros (Hc4 & H24 & He4 & Ht4 & Hlen4). apply wp_bind.
    eapply wp_mono; [apply load_racks_spec |].
    intros [extra | ?] w5; [| done].
    intros (Hlen5 & Hv5 & L5 & HL5 & _ & _ & Hp5 & Hd5). go.
    unfold tips_inv. simp_vars. rewrite Hv5, H24.
    subst w3. cbn [vars ctx] in *. simp_vars. rewrite Hv2 in Hlen4.
    cbn [vars log] in Hlen4. simpl in Hlen4.
    split; [| split; [| split]].
    + split; [done |]. split; [by right | lia].
    + done.
    + intros Hnil. rewrite Hnil in Hlen4. simpl in Hlen4. lia.
    + rewrite HL5, Hc4. cbn [commands]. rewrite HL2. cbn [commands ctx log].
      rewrite HL1, <- !app_assoc. eexists. split; [done |].
      split.
      * repeat apply dry_app; auto using dry_DelDeck.
      * by rewrite !pick_ups_app, Hp1, Hp2, Hp5, !pick_ups_DelDeck.
  - destruct Hextra as [Hnil | Hextra]; [by rewrite Hnil in He |].
    assert (0 < length (slots_200_extra pl))%nat as Hk by lia.
    go.
    assert (length (tips200_extra (vars w)) <> 3%nat ->
            0 < length (slots_empty_expansion pl))%nat as Hfree'.
    { intros H3. destruct (slots_empty_expansion pl) eqn:E; [| simpl; lia].
      exfalso. apply Hfree; [lia | | done]. by destruct (slots_200_extra pl). }
    case_bool_decide as H3; [| specialize (Hfree' H3)]; run.
    all: eapply wp_mono; [apply move_in_loop_spec; simp_vars; done |].
    all: intros [[] | ?] w1; [| done].
    all: intros (H21 & Hlen1 & L1 & HL1 & Hd1 & Hp1); go.
    all: unfold tips_inv; simp_vars; rewrite H21.
    all: split; [split; [done | split; [by left | lia]] |].
    all: split; [done |].
    all: split; [intros Hnil; rewrite Hnil in Hlen1; simpl in Hlen1; lia |].
    all: rewrite HL1; cbn [commands ctx log]; rewrite <- !app_assoc.
    all: eexists; split; [done |].
    all: split; [repeat (apply dry_cons; [done |]); done | by rewrite !pick_ups_app, Hp1].
Qed.

(** [pick_up_200] never indexes outside [tiporder_200]: it picks the
    tip at an index [i] below the length of the list, the counter is
    [i + 1] afterwards, and [i] is the old counter unless the racks were
    refilled, in which case it is 0. *)
Lemma pick_up_200_spec w :
  tips_inv pl (vars w) ->
  returns (pick_up_200 pl)
    (fun _ w' =>
       tips_inv pl (vars w') /\
       exists tip i,
         (i < length (tiporder_200 (vars w')))%nat /\
         tiporder_200 (vars w') !! i = Some tip /\
         tip_count_200 (vars w') = S i /\
         (tip_count_200 (vars w) <> length (tiporder_200 (vars w)) ->
          i = tip_count_200 (vars w) /\
          tiporder_200 (vars w') = tiporder_200 (vars w)) /\
         (tip_count_200 (vars w) = length (tiporder_200 (vars w)) -> i = 0%nat) /\
         exists L, commands (ctx w') = commands (ctx w) ++ L /\ dry L /\
                   pick_ups L = [(p1000m, Some tip)]) w.
Proof.
  intros Hinv. unfold returns, pick_up_200. go.
  case_bool_decide as Hfull.
  - eapply wp_mono; [apply (refill_200_spec w Hinv) |].
    intros [[] | ?] w1; [| done].
    intros (Hinv1 & Hc1 & Hne1 & L1 & HL1 & Hd1 & Hp1). go.
    rewrite Hc1.
    destruct (tiporder_200 (vars w1)) as [| tip order] eqn:Ho; [done |].
    change ((tip :: order) !! 0%nat) with (Some tip). cbn beta iota. go. split.
    + destruct Hinv1 as (H1 & H2 & H3). unfold tips_inv. simp_vars.
      rewrite Ho, Hc1. simpl. repeat split; try done. lia.
    + exists tip, 0%nat. rewrite Ho, Hc1. simpl.
      repeat split; try done; try lia.
      rewrite HL1, <- app_assoc. eexists. split; [done |].
      split; [apply dry_app; [done | by repeat constructor] |].
      by rewrite pick_ups_app, Hp1.
  - destruct Hinv as (H1 & H2 & H3). go. wp_index. go. split.
    + unfold tips_inv. simp_vars. repeat split; try done. lia.
    + exists x, (tip_count_200 (vars w)). simp_vars.
      repeat split; try done; try lia.
      eexists. split; [done |]. split; [by repeat constructor | done].
Qed.

End Tips.

Section Liquid.
Variable p : params.
Variable pl : plan.
Variable has_tip : protocol_context -> pipette -> bool.
Variable out_of_tips : protocol_context -> bool.
Variable max_volume : pipette -> Q.
Variable depth : well -> Q.
Hypothesis Hpl : plan_ok pl.

Lemma tip_disposal_spec pip w :
  returns (tip_disposal p has_tip pip)
    (fun _ w' =>
       vars w' = vars w /\
       exists L, commands (ctx w') = commands (ctx w) ++ L /\ dry L) w.
Proof.
  unfold returns, tip_disposal. destruct (DRY_WATER_RUN p); go.
  - split; [done |]. eexists. split; [done |]. by repeat constructor.
  - destruct (has_tip (ctx w) pip); go.
    + split; [done |]. eexists. split; [done |]. by repeat constructor.
    + split; [done |]. exists []. rewrite app_nil_r. split; [done | constructor].
Qed.

Lemma pick_up_50_spec w :
  reset_refills out_of_tips ->
  returns (pick_up_50 out_of_tips)
    (fun _ w' =>
       same_tips (vars w) (vars w') /\
       exists L, commands (ctx w') = commands (ctx w) ++ L /\ dry L) w.
Proof.
  intros Hreset. unfold returns, pick_up_50. go. destruct (out_of_tips (ctx w)).
  - apply wp_bind. eapply wp_mono; [apply pause_attention_spec |].
    intros [[] | ?] w1; [| done]. intros (Hs & L1 & HL1 & Hd1 & _). go.
    rewrite Hreset by (simpl; apply last_snoc). go.
    split; [done |]. rewrite HL1, <- !app_assoc. eexists. split; [done |].
    apply dry_app; [done | by repeat constructor].
  - go. split; [done |]. eexists. split; [done |]. by repeat constructor.
Qed.

Lemma slow_withdraw_spec pip x z delay_seconds w :
  returns (slow_withdraw pip x z delay_seconds)
    (fun _ w' =>
       vars w' = vars w /\
       exists L, commands (ctx w') = commands (ctx w) ++ L /\
                 forall pip' here, transfers pip' here L = []) w.
Proof.
  unfold returns, slow_withdraw. go. destruct (gtb delay_seconds 0); go.
  all: split; [done |]; rewrite <- !app_assoc; eexists; split; [done |]; done.
Qed.

Lemma custom_delay_spec name time w :
  returns (custom_delay p name time)
    (fun _ w' =>
       vars w' = vars w /\
       exists L, commands (ctx w') = commands (ctx w) ++ L /\ dry L) w.
Proof.
  unfold returns, custom_delay.
  destruct (DRY_WATER_RUN p); apply wp_for_each_emit.
  all: split; [done |]; eexists; split; [done |].
  all: apply Forall_fmap, Forall_forall; done.
Qed.

Lemma transfers_mix_cycles pip vol asp disp rate n here :
  transfers pip here
    (mjoin (replicate n [Aspirate pip vol (Some asp) rate;
                         Dispense pip vol (Some disp) 1 (Some 0%Q)]))
  = mjoin (replicate n [Drawn vol (Some asp); Released vol (Some disp)]).
Proof.
  revert here. induction n as [| n IH]; intros here; [done |].
  simpl. rewrite !bool_decide_eq_true_2 by done. by rewrite IH.
Qed.

Lemma custom_mix_spec pip mvol mix_loc mix_rep blowout low high w :
  returns (custom_mix p max_volume pip mvol mix_loc mix_rep blowout low high)
    (fun _ w' =>
       vars w' = vars w /\
       moves pip w w' (mix_cycles max_volume pip mvol mix_loc mix_rep low high)) w.
Proof.
  unfold returns, custom_mix, mix_cycles, moves. cbn zeta. apply wp_bind.
  unfold wp at 1. rewrite for_each_emit2, length_seq. cbn [fst snd].
  destruct blowout.
  - go. eapply wp_mono; [apply slow_withdraw_spec |].
    intros [[] | ?] w1; [| done]. intros (Hv & L1 & HL1 & Ht1). go.
    split; [done |]. rewrite HL1. cbn [commands ctx log].
    rewrite <- !app_assoc. eexists. split; [done |]. intros here.
    rewrite transfers_app, transfers_mix_cycles. simpl.
    rewrite transfers_app, Ht1. simpl. by rewrite app_nil_r.
  - go. split; [done |]. eexists. split; [done |]. intros here.
    apply transfers_mix_cycles.
Qed.

Lemma same_tips_inv s s' : same_tips s s' -> tips_inv pl s -> tips_inv pl s'.
Proof.
  intros (Hc & Ho & Ht & He). unfold tips_inv. by rewrite Hc, Ho, Ht, He.
Qed.

(** The steps of the body of [well_to_list], one by one. *)
Lemma emit_moves pip c T (w : world script) :
  (forall here, transfers pip here [c] = T) ->
  returns (emit c) (fun _ w' => vars w' = vars w /\ moves pip w w' T) w.
Proof.
  intros H. unfold returns. apply wp_emit. split; [done |]. by apply moves_log.
Qed.

Lemma when_emit_moves pip (b : bool) c (w : world script) :
  (forall here, transfers pip here [c] = []) ->
  returns (if b then emit c else mret tt)
    (fun _ w' => vars w' = vars w /\ moves pip w w' []) w.
Proof.
  intros H. destruct b; [by apply emit_moves |].
  unfold returns. apply wp_ret. split; [done | apply moves_refl].
Qed.

Lemma pick_up_moves pip (change_tip : bool) w :
  (change_tip = true -> pip <> p1000m -> reset_refills out_of_tips) ->
  tips_inv pl (vars w) ->
  returns (if change_tip then
             if bool_decide (pip = p1000m) then pick_up_200 pl
             else pick_up_50 out_of_tips
           else mret tt)
    (fun _ w' =>
       tips_inv pl (vars w') /\ (change_tip = false -> vars w' = vars w) /\
       moves pip w w' []) w.
Proof.
  intros Hreset Hinv. unfold returns. destruct change_tip; [case_bool_decide |].
  - eapply wp_mono; [by apply pick_up_200_spec |].
    intros [[] | ?] w'; [| done].
    intros (Hi & tip & i & _ & _ & _ & _ & _ & L & HL & Hd & _).
    split; [done |]. split; [done |]. by eapply moves_dry.
  - eapply wp_mono; [by apply pick_up_50_spec, Hreset |].
    intros [[] | ?] w'; [| done]. intros (Hs & L & HL & Hd).
    split; [by eapply same_tips_inv |]. split; [done |]. by eapply moves_dry.
  - apply wp_ret. split; [done |]. split; [done |]. apply moves_refl.
Qed.

Lemma pre_mix_moves pip (pre_mix : bool) transfer_vol src w :
  returns (if pre_mix
           then custom_mix p max_volume pip transfer_vol src 6 false None None
           else mret tt)
    (fun _ w' =>
       vars w' = vars w /\
       moves pip w w' (if pre_mix
                       then mix_cycles max_volume pip transfer_vol src 6 None None
                       else [])) w.
Proof.
  destruct pre_mix; [apply custom_mix_spec |].
  unfold returns. apply wp_ret. split; [done | apply moves_refl].
Qed.

Lemma post_mix_moves pip (post_mix : bool) transfer_vol post_mix_rep post_mix_vol
    dst w :
  returns (if post_mix then
             let post_mix_vol :=
               if low_volume pip transfer_vol
               then (if gtb post_mix_vol 25 then 25%Q else post_mix_vol)
               else post_mix_vol in
             _ ← (if leb post_mix_vol 10
                  then custom_mix p max_volume pip post_mix_vol dst post_mix_rep
                         false (Some 1%Q) (Some 1%Q)
                  else custom_mix p max_volume pip post_mix_vol dst post_mix_rep
                         false None None);
             mret post_mix_vol
           else mret post_mix_vol)
    (fun v w' =>
       v = (if post_mix then post_mix_vol_used pip transfer_vol post_mix_vol
            else post_mix_vol) /\
       vars w' = vars w /\
       moves pip w w'
         (if post_mix then
            let v := post_mix_vol_used pip transfer_vol post_mix_vol in
            if leb v 10
            then mix_cycles max_volume pip v dst post_mix_rep (Some 1%Q) (Some 1%Q)
            else mix_cycles max_volume pip v dst post_mix_rep None None
          else [])) w.
Proof.
  unfold returns. destruct post_mix.
  - cbn zeta. fold (post_mix_vol_used pip transfer_vol post_mix_vol).
    apply wp_bind.
    destruct (leb (post_mix_vol_used pip transfer_vol post_mix_vol) 10).
    all: eapply wp_mono; [apply custom_mix_spec |].
    all: intros [[] | ?] w'; [| done]; intros (Hv & Hm).
    all: by apply wp_ret.
  - apply wp_ret. split; [done |]. split; [done | apply moves_refl].
Qed.

Lemma withdraw_moves pip (tip_withdrawal : bool) dst w :
  returns (if tip_withdrawal then slow_withdraw pip dst (-3) 0 else mret tt)
    (fun _ w' => vars w' = vars w /\ moves pip w w' []) w.
Proof.
  destruct tip_withdrawal.
  - eapply wp_mono; [apply slow_withdraw_spec |].
    intros [[] | ?] w'; [| done]. intros (Hv & L & HL & Ht).
    split; [done |]. exists L. split; [done |]. intros here. apply Ht.
  - unfold returns. apply wp_ret. split; [done | apply moves_refl].
Qed.

Lemma disposal_moves pip (change_tip : bool) w :
  returns (if change_tip then tip_disposal p has_tip pip else mret tt)
    (fun _ w' => vars w' = vars w /\ moves pip w w' []) w.
Proof.
  destruct change_tip.
  - eapply wp_mono; [apply tip_disposal_spec |].
    intros [[] | ?] w'; [| done]. intros (Hv & L & HL & Hd).
    split; [done |]. by eapply moves_dry.
  - unfold returns. apply wp_ret. split; [done | apply moves_refl].
Qed.

(** One step of a script whose effect on the liquid is known. *)
Local Ltac piece lem :=
  wp_seq; eapply wp_mono;
  [ apply lem | intros [? | ?] ?; [| done] ].

Local Ltac chain :=
  repeat (eapply moves_trans; [eassumption |]); apply moves_refl.

Local Ltac back_to_start :=
  repeat match goal with
         | H : vars ?a = vars _ |- context [vars ?a] => rewrite H
         end.

Lemma well_to_list_body_spec pip src transfer_vol liquid_rate z_height
    pre_mix post_mix post_mix_rep tip_withdrawal change_tip index i dst
    post_mix_vol w :
  (change_tip = true -> pip <> p1000m -> reset_refills out_of_tips) ->
  tips_inv pl (vars w) ->
  returns (well_to_list_body p pl has_tip out_of_tips max_volume depth pip src
             transfer_vol liquid_rate z_height pre_mix post_mix post_mix_rep
             tip_withdrawal change_tip index i dst post_mix_vol)
    (fun v w' =>
       v = (if post_mix then post_mix_vol_used pip transfer_vol post_mix_vol
            else post_mix_vol) /\
       tips_inv pl (vars w') /\
       (change_tip = false -> vars w' = vars w) /\
       moves pip w w' (moves_for max_volume pip src transfer_vol z_height
                         pre_mix post_mix post_mix_rep post_mix_vol dst)) w.
Proof.
  intros Hreset Hinv. unfold returns, well_to_list_body.
  piece (emit_moves pip). { intros here. simpl. reflexivity. } intros (Hv0 & Hm0).
  piece (pick_up_moves pip). { done. } { by rewrite Hv0. } intros (Hinv1 & Hv1 & Hm1).
  piece (pre_mix_moves pip). intros (Hv2 & Hm2).
  piece (when_emit_moves pip). { done. } intros (Hv3 & Hm3).
  piece (emit_moves pip).
  { intros here. simpl. by rewrite bool_decide_eq_true_2. }
  intros (Hv4 & Hm4).
  piece (emit_moves pip).
  { intros here. simpl. by rewrite bool_decide_eq_true_2. }
  intros (Hv5 & Hm5).
  piece (post_mix_moves pip). intros (-> & Hv6 & Hm6).
  piece (withdraw_moves pip). intros (Hv7 & Hm7).
  piece (when_emit_moves pip). { done. } intros (Hv8 & Hm8).
  piece (when_emit_moves pip). { done. } intros (Hv9 & Hm9).
  piece (disposal_moves pip). intros (Hv10 & Hm10).
  apply wp_ret. split; [done |]. split; [by back_to_start |].
  split.
  - intros ->. back_to_start. rewrite Hv1 by done. by back_to_start.
  - eapply moves_eq; [chain |]. unfold moves_for.
    by rewrite !app_nil_r, ?app_nil_l.
Qed.

Lemma post_mix_vol_used_twice pip transfer_vol v :
  post_mix_vol_used pip transfer_vol (post_mix_vol_used pip transfer_vol v)
  = post_mix_vol_used pip transfer_vol v.
Proof.
  unfold post_mix_vol_used. destruct (low_volume pip transfer_vol); [| done].
  destruct (gtb v 25) eqn:H; [done | by rewrite H].
Qed.

Lemma moves_for_used pip src transfer_vol z_height pre_mix (post_mix : bool)
    post_mix_rep post_mix_vol dst :
  moves_for max_volume pip src transfer_vol z_height pre_mix post_mix post_mix_rep
    (if post_mix then post_mix_vol_used pip transfer_vol post_mix_vol
     else post_mix_vol) dst
  = moves_for max_volume pip src transfer_vol z_height pre_mix post_mix
      post_mix_rep post_mix_vol dst.
Proof.
  unfold moves_for. destruct post_mix; [| done]. cbn zeta.
  by rewrite post_mix_vol_used_twice.
Qed.

Lemma well_to_list_loop_spec pip src transfer_vol liquid_rate z_height
    pre_mix post_mix post_mix_rep tip_withdrawal change_tip index dest_list :
  (change_tip = true -> pip <> p1000m -> reset_refills out_of_tips) ->
  forall i post_mix_vol w,
    tips_inv pl (vars w) ->
    returns (well_to_list_loop p pl has_tip out_of_tips max_volume depth pip src
               transfer_vol liquid_rate z_height pre_mix post_mix post_mix_rep
               tip_withdrawal change_tip index i dest_list post_mix_vol)
      (fun _ w' =>
         tips_inv pl (vars w') /\
         (change_tip = false -> vars w' = vars w) /\
         moves pip w w'
           (dest_list ≫= moves_for max_volume pip src transfer_vol z_height
                           pre_mix post_mix post_mix_rep post_mix_vol)) w.
Proof.
  intros Hreset.
  induction dest_list as [| dst rest IH]; intros i post_mix_vol w Hinv.
  - unfold returns. simpl. apply wp_ret.
    split; [done |]. split; [done | apply moves_refl].
  - unfold returns. cbn [well_to_list_loop]. apply wp_bind.
    eapply wp_mono; [by apply well_to_list_body_spec |].
    intros [v | ?] w1; [| done]. intros (-> & Hinv1 & Hv1 & Hm1).
    eapply wp_mono; [by apply IH |].
    intros [[] | ?] w2; [| done]. intros (Hinv2 & Hv2 & Hm2).
    split; [done |]. split.
    + intros Hc. by rewrite Hv2, Hv1.
    + rewrite bind_cons. eapply moves_eq; [by eapply moves_trans |].
      f_equal. clear. induction rest as [| x rest IH]; [done |].
      by rewrite !bind_cons, IH, moves_for_used.
Qed.

Lemma well_to_list_spec pip src dest_list transfer_vol liquid_rate z_height
    pre_mix post_mix post_mix_rep post_mix_vol tip_withdrawal change_tip index w :
  (change_tip = true -> pip <> p1000m -> reset_refills out_of_tips) ->
  tips_inv pl (vars w) ->
  returns (well_to_list p pl has_tip out_of_tips max_volume depth pip src dest_list
             transfer_vol liquid_rate z_height pre_mix post_mix post_mix_rep
             post_mix_vol tip_withdrawal change_tip index)
    (fun _ w' =>
       tips_inv pl (vars w') /\
       (change_tip = false -> vars w' = vars w) /\
       moves pip w w'
         (dest_list ≫= moves_for max_volume pip src transfer_vol z_height
                         pre_mix post_mix post_mix_rep post_mix_vol)) w.
Proof. intros Hreset. by apply well_to_list_loop_spec. Qed.

Variable d : deck.

(** One well of the partial column: the tip variables are not
    assigned, and the tip looked up is there. *)
Lemma partial_column_body_spec change_partial_tip available n_partial i sd w :
  (i < length available)%nat ->
  returns (partial_column_body p pl has_tip max_volume change_partial_tip
             available n_partial i sd)
    (fun _ w' => vars w' = vars w) w.
Proof.
  intros Hi. destruct sd as [s dst]. unfold returns, partial_column_body. go.
  wp_seq.
  eapply (wp_mono _ (fun r w' => r = Ok tt /\ vars w' = vars w)).
  { destruct (has_tip _ p1000m); simpl negb; cbn iota; go; [done |].
    destruct (lookup_lt_is_Some_2 available i Hi) as [t Ht]. rewrite Ht. by go. }
  intros ? w1 [-> Hv1].
  piece (custom_mix_spec p1000m). intros (Hv2 & _). go.
  piece slow_withdraw_spec. intros (Hv3 & _). go.
  assert (forall wa, vars wa = vars w ->
            returns (if negb (DRY_WATER_RUN p) then tip_disposal p has_tip p1000m
                     else emit (DropTipChute p1000m))
              (fun _ wb => vars wb = vars w) wa) as Hdrop.
  { intros wa Hwa. destruct (DRY_WATER_RUN p); simpl negb; cbn iota.
    - unfold returns. by go.
    - eapply wp_mono; [apply tip_disposal_spec |].
      intros [[] | ?] wb; [| done]. intros (Hv & _). by rewrite Hv. }
  destruct change_partial_tip; [| case_bool_decide].
  - apply Hdrop. simpl in *. congruence.
  - apply Hdrop. simpl in *. congruence.
  - go. simpl in *. congruence.
Qed.

Lemma length_column lw j : length (column lw j) = 8%nat.
Proof. done. Qed.

(** [dt25_beads_prep] at the start of a run: it returns, it uses the
    first tip and counts the column used for the partial column. *)
Lemma dt25_beads_prep_spec change_partial_tip w :
  tips_inv pl (vars w) ->
  tip_count_200 (vars w) = 0%nat ->
  (2 <= length (tiporder_200 (vars w)))%nat ->
  returns (dt25_beads_prep p pl d has_tip out_of_tips max_volume depth
             change_partial_tip)
    (fun _ w' =>
       tips_inv pl (vars w') /\
       tiporder_200 (vars w') = tiporder_200 (vars w) /\
       tip_count_200 (vars w') =
         (if truthy_int (cols_s pl) then 2 else 1)%nat) w.
Proof.
  intros Hinv Hc Hlen. unfold returns, dt25_beads_prep. go.
  piece (pick_up_200_spec pl Hpl). { done. }
  intros (Hinv1 & tip & i & _ & _ & Hc1 & Hsame & _).
  destruct Hsame as [-> Ho1]; [simpl; lia |]. simpl in Hc1, Ho1. rewrite Hc in Hc1.
  piece well_to_list_spec. { done. } { done. } intros (_ & Hv2 & _).
  specialize (Hv2 eq_refl).
  piece tip_disposal_spec. intros (Hv3 & _).
  wp_seq.
  eapply (wp_mono _ (fun r w' =>
            r = Ok tt /\ tips_inv pl (vars w') /\
            tiporder_200 (vars w') = tiporder_200 (vars w) /\
            tip_count_200 (vars w') =
              (if truthy_int (cols_s pl) then 2 else 1)%nat)).
  { rewrite <- Hv2 in Hinv1, Hc1, Ho1. rewrite <- Hv3 in Hinv1, Hc1, Ho1.
    destruct (truthy_int (cols_s pl)) eqn:Htr; [| by go].
    go. destruct Hinv1 as (Ht & He & Hle).
    destruct (tips200 (vars w'1)) as [| rack racks] eqn:Hracks.
    { destruct Hpl as (Hne & _). by destruct (slots_200 pl). }
    change ((rack :: racks) !! 0%nat) with (Some rack). cbn beta iota. go.
    unfold mag_prep_cols_s. rewrite Htr.
    destruct (cols_s pl) as [n |] eqn:Hs; [| done]. go.
    set (w4 := log _ w'1).
    apply (wp_for_enumerate
             (fun j (rest : list (well * well)) w5 =>
                vars w5 = vars w4 /\ (j + length rest <= 8)%nat)).
    - split; [done |]. unfold dt25_beads_list.
      rewrite Nat.add_0_l, length_zip_with, length_column. lia.
    - intros j x rest w5 [Hv5 Hj].
      eapply wp_mono; [apply partial_column_body_spec |].
      + rewrite length_rev, length_column. simpl in Hj. lia.
      + intros [[] | ?] w6; [| done]. intros Hv6. split; [congruence |].
        simpl in Hj. lia.
    - intros j w5 [Hv5 _]. go. rewrite Hv5. subst w4. simpl. simp_vars.
      split; [done |]. unfold tips_inv. simp_vars. rewrite Hracks, Hc1.
      repeat split; try done.
      rewrite Ho1. simpl in *. lia. }
  intros ? w4 (-> & Hinv4 & Ho4 & Hc4). go.
  eapply wp_mono; [apply custom_delay_spec |].
  intros [[] | ?] w5; [| done]. intros (Hv5 & _). by rewrite Hv5.
Qed.

(** [tc_steps] returns and keeps what [pick_up_200] relies on: it
    assigns the tip counter only to set it to 0. *)
Lemma tc_steps_spec tc_vol lid_temp t1 time1 t2 time2 t3 time3 h_temp
    custom_message w :
  tips_inv pl (vars w) ->
  returns (tc_steps p pl d tc_vol lid_temp t1 time1 t2 time2 t3 time3 h_temp
             custom_message)
    (fun _ w' => tips_inv pl (vars w')) w.
Proof.
  intros Hinv. unfold returns, tc_steps. go.
  wp_seq.
  eapply (wp_mono _ (fun r w' => r = Ok tt /\ vars w' = vars w)).
  { destruct (DRY_WATER_RUN p); simpl negb; cbn iota; by go. }
  intros ? w1 [-> Hv1]. go. wp_seq.
  eapply (wp_mono _ (fun r w' => r = Ok tt /\ tips_inv pl (vars w'))).
  { destruct (DRY_WATER_RUN p); simpl negb; cbn iota.
    - eapply wp_mono; [apply custom_delay_spec |].
      intros [[] | ?] w2; [| done]. intros (Hv2 & _). simpl in Hv2.
      by rewrite Hv2, Hv1.
    - go. wp_seq.
      eapply (wp_mono _ (fun r w' => r = Ok tt /\ vars w' = vars w)).
      { destruct t2, time2; try (by go).
        destruct (truthy_num _ && truthy_num _); by go. }
      intros ? w2 [-> Hv2]. wp_seq.
      eapply (wp_mono _ (fun r w' => r = Ok tt /\ vars w' = vars w)).
      { destruct t3, time3; try (by go).
        destruct (truthy_num _ && truthy_num _); by go. }
      intros ? w3 [-> Hv3]. go.
      destruct (custom_message && _).
      + piece pause_attention_spec. intros (Hs & _). go. split; [done |].
        simpl in Hs. rewrite Hv3 in Hs. apply (same_tips_inv _ _ Hs) in Hinv.
        destruct Hinv as (H1 & H2 & H3). unfold tips_inv. simp_vars.
        repeat split; try done. lia.
      + go. split; [done |]. simpl. by rewrite Hv3. }
  intros ? w2 [-> Hinv2]. go.
  eapply wp_mono; [apply custom_delay_spec |].
  intros [[] | ?] w3; [| done]. intros (Hv3 & _). by rewrite Hv3.
Qed.

Lemma protocol_start_spec w :
  tips_inv pl (vars w) ->
  tip_count_200 (vars w) = 0%nat ->
  (2 <= length (tiporder_200 (vars w)))%nat ->
  returns (protocol_start p pl d has_tip out_of_tips max_volume depth)
    (fun _ w' => tips_inv pl (vars w')) w.
Proof.
  intros Hinv Hc Hlen. unfold returns, protocol_start. go.
  eapply wp_mono; [by apply dt25_beads_prep_spec |].
  intros [[] | ?] w1; [| done]. by intros (Hinv1 & _).
Qed.

(** ** The later steps *)

Lemma leb_not_ltb x y : leb x y = negb (ltb y x).
Proof. unfold leb, ltb. by rewrite negb_involutive. Qed.

Lemma leb_le x y : leb x y = true <-> (x <= y)%Q.
Proof. apply Qle_bool_iff. Qed.

(** Picking a tip up when the pipette has none. *)
Lemma pick_up_if_none_moves pip w :
  (pip <> p1000m -> reset_refills out_of_tips) ->
  tips_inv pl (vars w) ->
  returns (c ← context;
           if negb (has_tip c pip) then
             if bool_decide (pip = p1000m) then pick_up_200 pl
             else pick_up_50 out_of_tips
           else mret tt)
    (fun _ w' => tips_inv pl (vars w') /\ moves pip w w' []) w.
Proof.
  intros Hreset Hinv. unfold returns. go.
  eapply wp_mono; [apply (pick_up_moves pip (negb (has_tip (ctx w) pip)));
                   [by intros _ | done] |].
  intros [[] | ?] w'; [| done]. by intros (Hi & _ & Hm).
Qed.

End Liquid.

(** The tip variables after [setup]. *)
Lemma setup_tips p w :
  1 <= num_samples p <= 96 ->
  returns (setup p)
    (fun '(pl, d) w' =>
       pl = calculation (num_samples p) /\
       plan_ok pl /\
       tips_inv pl (vars w') /\
       tip_count_200 (vars w') = 0%nat /\
       (2 <= length (tiporder_200 (vars w')))%nat) w.
Proof.
  intros Hn. eapply wp_mono; [by apply setup_spec |].
  intros [[pl d] | ?] w'; [| done]. intros (-> & Ht & He & Hc & Ho & _).
  destruct (calculation_slots _ Hn) as (Hok & Hlen & _).
  split; [done |]. split; [done |]. split; [| split; [done |]].
  - unfold tips_inv. rewrite Hc. repeat split; [done | by right | lia].
  - rewrite Ho, length_tiporder, Ht. lia.
Qed.

(** The protocol gets through its first step, for every number of
    samples in range and whatever the runtime answers. *)
Lemma protocol_start_returns p has_tip out_of_tips max_volume depth :
  1 <= num_samples p <= 96 ->
  exists pl d w0 w,
    setup p power_on = (Ok (pl, d), w0) /\
    protocol_start p pl d has_tip out_of_tips max_volume depth w0 = (Ok tt, w).
Proof.
  intros Hn. pose proof (setup_tips p power_on Hn) as H. unfold returns, wp in H.
  destruct (setup p power_on) as [[[pl d] | ?] w0] eqn:Hs; [| done].
  simpl in H. destruct H as (-> & Hok & Hinv & Hc & Hlen).
  pose proof (protocol_start_spec p _ has_tip out_of_tips max_volume depth Hok d
                w0 Hinv Hc Hlen) as H.
  unfold returns, wp in H.
  destruct (protocol_start _ _ _ _ _ _ _ w0) as [[[] | ?] w] eqn:Hp; [| done].
  by exists (calculation (num_samples p)), d, w0, w.
Qed.

(** Every world the protocol passes through has the tip variables as
    [pick_up_200] needs them. *)
Lemma reachable_tips_inv p pl d has_tip out_of_tips max_volume depth w :
  reachable p pl d has_tip out_of_tips max_volume depth w ->
  plan_ok pl /\ tips_inv pl (vars w).
Proof.
  induction 1 as [w0 w Hs Hp | w _ [Hok IH] | ? ? ? ? ? ? ? ? ? ? w _ [Hok IH]
                 | w w' _ [Hok IH] Hsame].
  - assert (1 <= num_samples p <= 96) as Hn.
    { destruct (decide (1 <= num_samples p <= 96)) as [| Hout]; [done |].
      unfold setup in Hs. rewrite error_handling_out_of_range in Hs by lia.
      discriminate Hs. }
    pose proof (setup_tips p power_on Hn) as H. unfold returns, wp in H.
    rewrite Hs in H. simpl in H. destruct H as (-> & Hok & Hinv & Hc & Hlen).
    split; [done |].
    pose proof (protocol_start_spec p _ has_tip out_of_tips max_volume depth Hok d
                  w0 Hinv Hc Hlen) as H.
    unfold returns, wp in H. by rewrite Hp in H.
  - split; [done |].
    pose proof (pick_up_200_spec pl Hok w IH) as H. unfold returns, wp in H.
    destruct (pick_up_200 pl w) as [[[] | ?] w']; [| done]. by destruct H.
  - split; [done |].
    pose proof (tc_steps_spec p pl d tc_vol lid_temp t1 time1 t2 time2 t3 time3
                  h_temp custom_message w IH) as H.
    unfold returns, wp in H.
    by destruct (tc_steps _ _ _ _ _ _ _ _ _ _ _ _ _ _) as [[[] | ?] w'].
  - split; [done |]. by eapply same_tips_inv.
Qed.

(** Mixing takes nothing out of a well, and the liquid movements for
    one destination take the transfer volume out of the source well. *)
Lemma net_drawn_mix_cycles max_volume x pip v loc n low high :
  (net_drawn x (mix_cycles max_volume pip v loc n low high) == 0)%Q.
Proof. unfold mix_cycles. by apply net_drawn_cycles. Qed.

Lemma net_drawn_moves_for max_volume pip src transfer_vol z_height pre_mix post_mix
    post_mix_rep post_mix_vol dst :
  dst <> src ->
  (net_drawn src (moves_for max_volume pip src transfer_vol z_height pre_mix
                    post_mix post_mix_rep post_mix_vol dst) == transfer_vol)%Q.
Proof.
  intros Hne. unfold moves_for. rewrite !net_drawn_app.
  assert (net_drawn src (if pre_mix
                         then mix_cycles max_volume pip transfer_vol src 6 None None
                         else []) == 0)%Q as ->.
  { destruct pre_mix; [apply net_drawn_mix_cycles | done]. }
  match goal with
  | |- (_ + (_ + net_drawn src ?B) == _)%Q =>
      assert (net_drawn src B == 0)%Q as ->
  end.
  { destruct post_mix; [| done]. cbn zeta.
    destruct (leb _ 10); apply net_drawn_mix_cycles. }
  simpl. rewrite bool_decide_eq_true_2 by done.
  rewrite bool_decide_eq_false_2 by done. ring.
Qed.

Lemma net_drawn_well_to_list max_volume pip src transfer_vol z_height pre_mix
    post_mix post_mix_rep post_mix_vol (dest_list : list well) :
  src ∉ dest_list ->
  (net_drawn src (dest_list ≫= moves_for max_volume pip src transfer_vol z_height
                                 pre_mix post_mix post_mix_rep post_mix_vol)
   == transfer_vol * inject_Z (Z.of_nat (length dest_list)))%Q.
Proof.
  induction dest_list as [| dst rest IH]; intros Hnot; [simpl; ring |].
  apply not_elem_of_cons in Hnot as [Hne Hnot].
  rewrite bind_cons, net_drawn_app, IH by done.
  rewrite net_drawn_moves_for by done.
  cbn [length]. rewrite Nat2Z.inj_succ. unfold Z.succ. rewrite inject_Z_plus. ring.
Qed.

End P1Facts.
(** * UltraExpress/P4_V1.py *)

Module P4Facts.
Import Flex Rules PyFacts P4.

Local Ltac simp_vars :=
  cbn [pause_time tip_count_200 tiporder_200 tips200 tips200_extra
       tip_count_50 tiporder_50
       set_pause_time set_tip_count_200 set_tiporder_200 set_tips200
       set_tips200_extra].

Local Ltac go :=
  repeat (first [wp_step | wp_option]; wp_simpl; simp_vars; know; cbn beta iota).

(** The plan computed for a number of samples in range is one
    [pick_up_200] can work with. *)
Lemma calculation_plan_ok n :
  1 <= n <= 96 ->
  let pl := calculation n in
  plan_ok pl /\ (1 <= length (slots_200 pl))%nat.
Proof.
  intros Hn. unfold calculation, plan_ok.
  pose proof (ceil_div_spec n 8 ltac:(lia)) as Hc.
  set (c := ceil_div n 8) in *. clearbody c.
  assert (c = 1 \/ c = 2 \/ c = 3 \/ c = 4 \/ c = 5 \/ c = 6 \/ c = 7 \/ c = 8 \/
          c = 9 \/ c = 10 \/ c = 11 \/ c = 12) as Hcases by lia.
  destruct (n `mod` 8 =? 0); [| destruct (c =? 1)].
  all: destruct Hcases as
         [-> | [-> | [-> | [-> | [-> | [-> | [-> | [-> | [-> | [-> | [-> | ->]]]]]]]]]]].
  all: vm_compute; repeat split; try done; try lia.
Qed.

Lemma error_handling_in_range n : 1 <= n <= 96 -> error_handling n = Ok tt.
Proof.
  intros Hn. unfold error_handling.
  replace ((n >? 96) || (n <? 1)) with false by lia. reflexivity.
Qed.

Lemma error_handling_raises n :
  n > 96 \/ n < 1 ->
  error_handling n = Raise (ValueError "The number of samples should be between 1 and 96").
Proof.
  intros Hn. unfold error_handling.
  by replace ((n >? 96) || (n <? 1)) with true by lia.
Qed.

Lemma length_rows_0 (racks : list labware) :
  length (racks ≫= rows_0) = (12 * length racks)%nat.
Proof.
  induction racks as [| r racks IH]; [done |].
  cbn [mbind list_bind]. rewrite length_app, IH. unfold rows_0.
  rewrite length_fmap, length_seq. simpl. lia.
Qed.

(** The tip variables after [setup]. *)
Lemma p4_setup_tips p w :
  1 <= num_samples p <= 96 ->
  returns (setup p)
    (fun pl w' =>
       pl = calculation (num_samples p) /\
       plan_ok pl /\
       tips_inv pl (vars w') /\
       tip_count_200 (vars w') = 0%nat) w.
Proof.
  intros Hn. unfold returns, setup. rewrite (error_handling_in_range _ Hn). go.
  eapply wp_mono; [apply load_racks_spec |].
  intros [tips50 | ?] w1; [| done]. intros _.
  apply wp_bind. eapply wp_mono; [apply (load_racks_spec _ (fun x => x)) |].
  intros [tips50_extra | ?] w1'; [| done]. intros _.
  apply wp_bind. eapply wp_mono; [apply load_racks_spec |].
  intros [racks | ?] w2; [| done]. intros (Hlen2 & _).
  apply wp_bind. eapply wp_mono; [apply load_racks_spec |].
  intros [extra | ?] w3; [| done]. intros (Hlen3 & _).
  go. destruct (calculation_plan_ok _ Hn) as (Hok & Hlen).
  split; [done |]. split; [done |]. split; [| done].
  unfold tips_inv. simp_vars. split; [done |]. split; [by right | lia].
Qed.

Local Ltac run := repeat (go; try wp_index).

Local Ltac quiet :=
  rewrite <- ?app_assoc; eexists; split; [reflexivity |];
  split; [repeat constructor | reflexivity].

Lemma p4_pause_attention_spec msg flash w :
  returns (pause_attention msg flash)
    (fun _ w' =>
       same_tips (vars w) (vars w') /\
       exists L, commands (ctx w') = commands (ctx w) ++ L /\ dry L /\ pick_ups L = []) w.
Proof.
  unfold returns, pause_attention. destruct flash; go.
  all: split; [done | quiet].
Qed.

Section Tips.
Variable pl : plan.
Hypothesis Hpl : plan_ok pl.

(** One round of moving an extra rack in. *)
Lemma p4_move_in_spec b w :
  (b < length (slots_200_extra pl))%nat ->
  length (tips200 (vars w)) = length (slots_200 pl) ->
  length (tips200_extra (vars w)) = length (slots_200_extra pl) ->
  returns (move_in pl b)
    (fun _ w' =>
       tips200 (vars w') = tips200 (vars w) /\
       tips200_extra (vars w') = tips200_extra (vars w) /\
       tip_count_200 (vars w') = tip_count_200 (vars w) /\
       length (tiporder_200 (vars w')) = (length (tiporder_200 (vars w)) + 12)%nat /\
       exists L, commands (ctx w') = commands (ctx w) ++ L /\ dry L /\
                 pick_ups L = []) w.
Proof.
  intros Hb H200 Hextra. destruct Hpl as (Hne & Hle & _ & _).
  unfold returns, move_in. run.
  case_bool_decide as Hb1; run.
  all: rewrite length_app; unfold rows_0; rewrite length_fmap, length_seq.
  all: repeat split; try done; quiet.
Qed.

(** The loop that rebuilds [tiporder_200] from the racks in
    [tips200]. *)
Lemma p4_extend_tiporder_spec w :
  returns (for_each (seq 0 (length (tips200 (vars w)))) (fun a =>
             s ← get;
             rack ← from_option IndexError (tips200 s !! a);
             modify (set_tiporder_200 (tiporder_200 s ++ rows_0 rack))))
    (fun _ w' =>
       ctx w' = ctx w /\
       tips200 (vars w') = tips200 (vars w) /\
       tips200_extra (vars w') = tips200_extra (vars w) /\
       tip_count_200 (vars w') = tip_count_200 (vars w) /\
       length (tiporder_200 (vars w')) =
         (length (tiporder_200 (vars w)) + 12 * length (tips200 (vars w)))%nat) w.
Proof.
  unfold returns.
  apply wp_for_each with
    (I := fun rest w' =>
            Forall (fun a => a < length (tips200 (vars w)))%nat rest /\
            ctx w' = ctx w /\
            tips200 (vars w') = tips200 (vars w) /\
            tips200_extra (vars w') = tips200_extra (vars w) /\
            tip_count_200 (vars w') = tip_count_200 (vars w) /\
            (length (tiporder_200 (vars w')) + 12 * length rest =
             length (tiporder_200 (vars w)) + 12 * length (tips200 (vars w)))%nat).
  - split; [| by rewrite length_seq].
    apply Forall_forall. intros a Ha%elem_of_seq. lia.
  - intros a rest w' (Hall & Hc & H2 & He & Ht & Hlen).
    apply Forall_cons in Hall as [Ha Hall]. go.
    rewrite H2. wp_index. go. rewrite length_app. unfold rows_0.
    rewrite length_fmap, length_seq. simpl in Hlen.
    repeat split; try done. lia.
  - intros w' (_ & Hc & H2 & He & Ht & Hlen). simpl in Hlen.
    repeat split; try done. lia.
Qed.

(** Moving all the extra racks in. *)
Lemma p4_move_in_loop_spec w :
  length (tips200 (vars w)) = length (slots_200 pl) ->
  length (tips200_extra (vars w)) = length (slots_200_extra pl) ->
  tiporder_200 (vars w) = [] ->
  returns (for_each (seq 0 (length (slots_200_extra pl))) (move_in pl))
    (fun _ w' =>
       tips200 (vars w') = tips200 (vars w) /\
       length (tiporder_200 (vars w')) = (12 * length (slots_200_extra pl))%nat /\
       exists L, commands (ctx w') = commands (ctx w) ++ L /\ dry L /\
                 pick_ups L = []) w.
Proof.
  intros H200 Hextra Hnil. unfold returns.
  apply wp_for_each with
    (I := fun rest w' =>
            Forall (fun b => b < length (slots_200_extra pl))%nat rest /\
            tips200 (vars w') = tips200 (vars w) /\
            tips200_extra (vars w') = tips200_extra (vars w) /\
            (length (tiporder_200 (vars w')) + 12 * length rest =
             12 * length (slots_200_extra pl))%nat /\
            exists L, commands (ctx w') = commands (ctx w) ++ L /\ dry L /\
                      pick_ups L = []).
  - split; [apply Forall_forall; intros b Hb%elem_of_seq; lia |].
    rewrite Hnil, length_seq. repeat split; try done.
    exists []. rewrite app_nil_r. repeat split. constructor.
  - intros b rest w' (Hall & H2 & He' & Hlen & L & HL & Hd & Hp).
    apply Forall_cons in Hall as [Hb Hall].
    eapply wp_mono; [apply (p4_move_in_spec b w' Hb) |].
    + by rewrite H2.
    + by rewrite He'.
    + intros [[] | ?] w''; [| done].
      intros (H2' & He'' & _ & Hlen' & L' & HL' & Hd' & Hp').
      simpl in Hlen. repeat split; try congruence; try lia.
      exists (L ++ L'). rewrite HL', HL, <- app_assoc.
      repeat split; [by apply dry_app | by rewrite pick_ups_app, Hp, Hp'].
  - intros w' (_ & H2 & _ & Hlen & HL). simpl in Hlen.
    repeat split; try done. lia.
Qed.

(** The refill branch leaves a tip order that is not empty, and the
    counter at 0. *)
Lemma p4_refill_200_spec w :
  tips_inv pl (vars w) ->
  returns (refill_200 pl)
    (fun _ w' =>
       tips_inv pl (vars w') /\
       tip_count_200 (vars w') = 0%nat /\
       tiporder_200 (vars w') <> [] /\
       exists L, commands (ctx w') = commands (ctx w) ++ L /\ dry L /\
                 pick_ups L = []) w.
Proof.
  intros (H200 & Hextra & Hcount). destruct Hpl as (Hne & Hle & Hle4 & Hfree).
  assert (0 < length (slots_200 pl))%nat as Hpos
    by (destruct (slots_200 pl); [done | simpl; lia]).
  unfold returns, refill_200. go.
  case_bool_decide as He.
  - apply wp_bind. eapply wp_mono; [apply p4_pause_attention_spec |].
    intros [[] | ?] w1; [| done].
    intros ((Hc1 & Ho1 & Ht1 & He1) & L1 & HL1 & Hd1 & Hp1).
    go. apply wp_for_each_emit. apply wp_bind. apply wp_for_each_emit.
    apply wp_bind. eapply wp_mono; [apply load_racks_spec |].
    intros [racks | ?] w2; [| done].
    intros (Hlen2 & Hv2 & L2 & HL2 & _ & _ & Hp2 & Hd2). go.
    set (w3 := {| ctx := ctx w2; vars := set_tips200 racks (vars w2) |}).
    eapply wp_mono; [apply (p4_extend_tiporder_spec w3) |].
    intros [[] | ?] w4; [| done].
    intros (Hc4 & H24 & He4 & Ht4 & Hlen4). apply wp_bind.
    eapply wp_mono; [apply load_racks_spec |].
    intros [extra | ?] w5; [| done].
    intros (Hlen5 & Hv5 & L5 & HL5 & _ & _ & Hp5 & Hd5). go.
    unfold tips_inv. simp_vars. rewrite Hv5, H24.
    subst w3. cbn [vars ctx] in *. simp_vars. rewrite Hv2 in Hlen4.
    cbn [vars log] in Hlen4. simpl in Hlen4.
    split; [| split; [| split]].
    + split; [done |]. split; [by right | lia].
    + done.
    + intros Hnil. rewrite Hnil in Hlen4. simpl in Hlen4. lia.
    + rewrite HL5, Hc4. cbn [commands]. rewrite HL2. cbn [commands ctx log].
      rewrite HL1, <- !app_assoc. eexists. split; [done |].
      split.
      * repeat apply dry_app; auto using dry_DelDeck.
      * by rewrite !pick_ups_app, Hp1, Hp2, Hp5, !pick_ups_DelDeck.
  - destruct Hextra as [Hnil | Hextra]; [by rewrite Hnil in He |].
    assert (0 < length (slots_200_extra pl))%nat as Hk by lia.
    go.
    assert (length (tips200_extra (vars w)) <> 4%nat ->
            0 < length (slots_empty_expansion pl))%nat as Hfree'.
    { intros H4. destruct (slots_empty_expansion pl) eqn:E; [| simpl; lia].
      exfalso. apply Hfree; [lia | | done]. by destruct (slots_200_extra pl). }
    case_bool_decide as H4; [| specialize (Hfree' H4)]; run.
    all: eapply wp_mono; [apply p4_move_in_loop_spec; simp_vars; done |].
    all: intros [[] | ?] w1; [| done].
    all: intros (H21 & Hlen1 & L1 & HL1 & Hd1 & Hp1); go.
    all: unfold tips_inv; simp_vars; rewrite H21.
    all: split; [split; [done | split; [by left | lia]] |].
    all: split; [done |].
    all: split; [intros Hnil; rewrite Hnil in Hlen1; simpl in Hlen1; lia |].
    all: rewrite HL1; cbn [commands ctx log]; rewrite <- !app_assoc.
    all: eexists; split; [done |].
    all: split; [repeat (apply dry_cons; [done |]); done | by rewrite !pick_ups_app, Hp1].
Qed.

(** [pick_up_200] never indexes outside [tiporder_200]: it picks the
    tip at an index [i] below the length of the list, the counter is
    [i + 1] afterwards, and [i] is the old counter unless the racks were
    refilled, in which case it is 0. *)
Lemma p4_pick_up_200_spec w :
  tips_inv pl (vars w) ->
  returns (pick_up_200 pl)
    (fun _ w' =>
       tips_inv pl (vars w') /\
       exists tip i,
         (i < length (tiporder_200 (vars w')))%nat /\
         tiporder_200 (vars w') !! i = Some tip /\
         tip_count_200 (vars w') = S i /\
         (tip_count_200 (vars w) <> length (tiporder_200 (vars w)) ->
          i = tip_count_200 (vars w) /\
          tiporder_200 (vars w') = tiporder_200 (vars w)) /\
         (tip_count_200 (vars w) = length (tiporder_200 (vars w)) -> i = 0%nat) /\
         exists L, commands (ctx w') = commands (ctx w) ++ L /\ dry L /\
                   pick_ups L = [(p1000m, Some tip)]) w.
Proof.
  intros Hinv. unfold returns, pick_up_200. go.
  case_bool_decide as Hfull.
  - eapply wp_mono; [apply (p4_refill_200_spec w Hinv) |].
    intros [[] | ?] w1; [| done].
    intros (Hinv1 & Hc1 & Hne1 & L1 & HL1 & Hd1 & Hp1). go.
    rewrite Hc1.
    destruct (tiporder_200 (vars w1)) as [| tip order] eqn:Ho; [done |].
    change ((tip :: order) !! 0%nat) with (Some tip). cbn beta iota. go. split.
    + destruct Hinv1 as (H1 & H2 & H3). unfold tips_inv. simp_vars.
      rewrite Ho, Hc1. simpl. repeat split; try done. lia.
    + exists tip, 0%nat. rewrite Ho, Hc1. simpl.
      repeat split; try done; try lia.
      rewrite HL1, <- app_assoc. eexists. split; [done |].
      split; [apply dry_app; [done | by repeat constructor] |].
      by rewrite pick_ups_app, Hp1.
  - destruct Hinv as (H1 & H2 & H3). go. wp_index. go. split.
    + unfold tips_inv. simp_vars. repeat split; try done. lia.
    + exists x, (tip_count_200 (vars w)). simp_vars.
      repeat split; try done; try lia.
      eexists. split; [done |]. split; [by repeat constructor | done].
Qed.

End Tips.

(** Every world the protocol passes through has the tip variables as
    [pick_up_200] needs them. *)
Lemma p4_reachable_tips_inv p w :
  reachable p w ->
  let pl := calculation (num_samples p) in
  plan_ok pl /\ tips_inv pl (vars w).
Proof.
  induction 1 as [pl w Hs | w _ [Hok IH] | w w' _ [Hok IH] Hsame]; cbn zeta.
  - assert (1 <= num_samples p <= 96) as Hn.
    { destruct (decide (1 <= num_samples p <= 96)) as [| Hout]; [done |].
      unfold setup in Hs. rewrite error_handling_raises in Hs by lia.
      discriminate Hs. }
    pose proof (p4_setup_tips p power_on Hn) as H. unfold returns, wp in H.
    rewrite Hs in H. simpl in H. by destruct H as (-> & Hok & Hinv & _).
  - split; [done |].
    pose proof (p4_pick_up_200_spec _ Hok w IH) as H. unfold returns, wp in H.
    destruct (pick_up_200 _ w) as [[[] | ?] w']; [| done]. by destruct H.
  - split; [done |]. destruct Hsame as (Hc & Ho & Ht & He).
    unfold tips_inv. by rewrite Hc, Ho, Ht, He.
Qed.

End P4Facts.

(** * The claims about the BombBio and Yeast_OPP protocols *)

Module BombBioClaims.
Import Flex Rules PyFacts.



(** C4. [removeSup] raises its volume to at least 100, draws the volume
    less 100 at 2 mm (plus the Z offset) above the bottom of the well and
    then 100 at 1 mm (plus the Z offset), and releases the whole volume at
    the top of well A1 of the waste reservoir: drawn and released volumes
    both equal [max(SUPVOL, 100)] (both BombBio protocols). *)
Theorem removeSup_two_stage_transfer :
  (forall d PLATE COL SUPVOL off w c here,
     NoShakeV3.COUNTERS (vars w) !! "WASTEVOL" = Some c ->
     returns (NoShakeV3.removeSup d PLATE COL SUPVOL off)
       (fun _ w' =>
          let v := if ltb SUPVOL 100 then 100%Q else SUPVOL in
          let col := {| w_labware := PLATE; w_name := COL |} in
          let moves := transfers NoShakeV3.p1000 here (since w w') in
          moves =
            [Drawn (v - 100) (Some {| pt_well := col; pt_pos := bottom (off + 2) |});
             Drawn 100 (Some {| pt_well := col; pt_pos := bottom (off + 1) |});
             Released v
               (Some {| pt_well := {| w_labware := NoShakeV3.WasteRes d;
                                      w_name := "A1" |};
                        pt_pos := top 0 |})] /\
          (v == Qmax SUPVOL 100)%Q /\
          (drawn_volume moves == Qmax SUPVOL 100)%Q /\
          (released_volume moves == Qmax SUPVOL 100)%Q) w) /\
  (forall d DRYRUN PLATE COL SUPVOL off w c here,
     ShakeV1.COUNTERS (vars w) !! "WASTEVOL" = Some c ->
     returns (ShakeV1.removeSup d DRYRUN PLATE COL SUPVOL off)
       (fun _ w' =>
          let v := if ltb SUPVOL 100 then 100%Q else SUPVOL in
          let col := {| w_labware := PLATE; w_name := COL |} in
          let moves := transfers ShakeV1.p1000 here (since w w') in
          moves =
            [Drawn (v - 100) (Some {| pt_well := col; pt_pos := bottom (off + 2) |});
             Drawn 100 (Some {| pt_well := col; pt_pos := bottom (off + 1) |});
             Released v
               (Some {| pt_well := {| w_labware := ShakeV1.WasteRes d;
                                      w_name := "A1" |};
                        pt_pos := top 0 |})] /\
          (v == Qmax SUPVOL 100)%Q /\
          (drawn_volume moves == Qmax SUPVOL 100)%Q /\
          (released_volume moves == Qmax SUPVOL 100)%Q) w).
Proof.
  split.
  - intros d PLATE COL SUPVOL off w c here Hc.
    eapply wp_mono; [apply (NoShakeV3Facts.removeSup_spec d PLATE COL SUPVOL off _ _ Hc) |].
    intros [[] | ?] w'; [| done]. intros (_ & L & HL & Ht & _).
    cbn zeta. rewrite (since_app _ _ _ HL), Ht.
    pose proof (clamp_max SUPVOL) as Hm.
    split; [done |]. split; [done |]. simpl. split; rewrite <- Hm; ring.
  - intros d DRYRUN PLATE COL SUPVOL off w c here Hc.
    eapply wp_mono;
      [apply (ShakeV1Facts.shake_removeSup_spec d DRYRUN PLATE COL SUPVOL off _ _ Hc) |].
    intros [[] | ?] w'; [| done]. intros (_ & L & HL & Ht & _).
    cbn zeta. rewrite (since_app _ _ _ HL), Ht.
    pose proof (clamp_max SUPVOL) as Hm.
    split; [done |]. split; [done |]. simpl. split; rewrite <- Hm; ring.
Qed.



(** C4 at the first supernatant removal of a noShake v3 run with the
    default input volume. *)
Lemma removeSup_two_stage_transfer_witness :
  returns (NoShakeV3.removeSup NoShakeV3.the_deck
             (NoShakeV3.SamplePlate NoShakeV3.the_deck) "A1" 420 0)
    (fun _ w' =>
       let v := if ltb 420 100 then 100%Q else 420%Q in
       let col := {| w_labware := NoShakeV3.SamplePlate NoShakeV3.the_deck;
                     w_name := "A1" |} in
       let moves := transfers NoShakeV3.p1000 None (since NoShakeV3.after_setup w') in
       moves =
         [Drawn (v - 100) (Some {| pt_well := col; pt_pos := bottom (0 + 2) |});
          Drawn 100 (Some {| pt_well := col; pt_pos := bottom (0 + 1) |});
          Released v
            (Some {| pt_well := {| w_labware :=
                                     NoShakeV3.WasteRes NoShakeV3.the_deck;
                                   w_name := "A1" |};
                     pt_pos := top 0 |})] /\
       (v == Qmax 420 100)%Q /\
       (drawn_volume moves == Qmax 420 100)%Q /\
       (released_volume moves == Qmax 420 100)%Q) NoShakeV3.after_setup.
Proof.
  apply (proj1 removeSup_two_stage_transfer) with (c := 0%Q).
  vm_compute. reflexivity.
Defined.

(** C3 (the code departs from it).  In the Rebind step of noShake v3 with
    four sample columns, the binding buffer goes to A1, A2 and A3 only:
    the slice [SAMPLECOLS[i*4:i*4+3]] takes three columns of each group
    of four, so column A4 gets none; with twelve sample columns A4, A8
    and A12 get none. *)
Theorem rebind_leaves_out_every_fourth_column :
  NoShakeV3.deck_setup NoShakeV3.power_on
    = (Ok NoShakeV3.the_deck, NoShakeV3.after_setup) /\
  NoShakeV3.SAMPLECOLS 4 = Ok ["A1"; "A2"; "A3"; "A4"] /\
  released_into
    (transfers NoShakeV3.p1000 None
       (issued (NoShakeV3.rebind NoShakeV3.the_deck 500 4) NoShakeV3.after_setup))
    = (fun Y => {| w_labware := NoShakeV3.SamplePlate NoShakeV3.the_deck; w_name := Y |})
        <$> ["A1"; "A2"; "A3"] /\
  released_into
    (transfers NoShakeV3.p1000 None
       (issued (NoShakeV3.rebind NoShakeV3.the_deck 500 12) NoShakeV3.after_setup))
    = (fun Y => {| w_labware := NoShakeV3.SamplePlate NoShakeV3.the_deck; w_name := Y |})
        <$> ["A1"; "A2"; "A3"; "A5"; "A6"; "A7"; "A9"; "A10"; "A11"].
Proof. split; [| split; [| split]]; vm_compute; reflexivity. Qed.




End BombBioClaims.
(** * The claims about the UltraExpress protocols *)

Module UltraExpressClaims.
Import Flex Rules PyFacts.

(** C5. In P1_V1, for every number of samples [n] from 1 to 96 the column
    count [cols] is the ceiling of [n / 8].  When [n] is a multiple of 8,
    [cols_m] is [cols] and [cols_s] is [None]; otherwise [cols_s] is a
    number from 1 to 7 and [8 * cols_m + cols_s = n]: the full columns
    and the partial column cover the samples exactly. *)
Theorem column_split_covers_samples (n : Z) :
  1 <= n <= 96 ->
  let pl := P1.calculation n in
  P1.cols pl = ceil_div n 8 /\
  8 * (P1.cols pl - 1) < n <= 8 * P1.cols pl /\
  (n `mod` 8 = 0 -> P1.cols_m pl = P1.cols pl /\ P1.cols_s pl = None) /\
  (n `mod` 8 <> 0 ->
   exists s, P1.cols_s pl = Some s /\ 8 * P1.cols_m pl + s = n /\ 1 <= s <= 7).
Proof.
  intros Hn. unfold P1.calculation.
  pose proof (ceil_div_spec n 8 ltac:(lia)) as Hc.
  set (c := ceil_div n 8) in *. clearbody c.
  pose proof (Z.div_mod n 8 ltac:(lia)) as Hdiv.
  pose proof (Z.mod_pos_bound n 8 ltac:(lia)) as Hmod.
  destruct (n `mod` 8 =? 0) eqn:E8; [| destruct (c =? 1) eqn:E1].
  all: repeat match goal with
              | |- context [if ?b then _ else _] => destruct b eqn:?
              end.
  all: cbn [P1.cols P1.cols_m P1.cols_s].
  all: split; [done |]; split; [lia |]; split; [intros H0 | intros H0].
  all: try (exfalso; lia); try (split; [lia | done]).
  all: eexists; split; [reflexivity | lia].
Qed.

(** C5 at the default number of samples, 94: 12 columns, of which 11
    are full, and a partial column of 6. *)
Lemma column_split_covers_samples_witness :
  1 <= 94 <= 96 /\
  let pl := P1.calculation 94 in
  P1.cols pl = ceil_div 94 8 /\
  8 * (P1.cols pl - 1) < 94 <= 8 * P1.cols pl /\
  (94 `mod` 8 = 0 -> P1.cols_m pl = P1.cols pl /\ P1.cols_s pl = None) /\
  (94 `mod` 8 <> 0 ->
   exists s, P1.cols_s pl = Some s /\ 8 * P1.cols_m pl + s = 94 /\ 1 <= s <= 7).
Proof. split; [lia |]. apply (column_split_covers_samples 94). lia. Defined.

(** C6 as first stated fails: with the default 94 samples, [setup] loads
    six racks of 200 uL tips, while [required_slots_num_200] is 8, the
    ceiling of 90 / 12. *)
Lemma default_run_loads_six_racks :
  (P1.setup P1.default_params P1.power_on).1
    = Ok (P1.default_plan, P1.default_deck) /\
  racks_loaded "opentrons_flex_96_filtertiprack_200ul"
    (issued (P1.setup P1.default_params) P1.power_on) = 6%nat /\
  P1.required_cols_200 P1.default_plan = 90 /\
  P1.required_slots_num_200 P1.default_plan = 8.
Proof. split; [| split; [| split]]; vm_compute; reflexivity. Qed.

(** C6, amended.  For every number of samples from 1 to 96, [setup]
    returns, and the number of 200 uL racks it loads (those in
    [slots_200] and those in [slots_200_extra]) is the smaller of
    [required_slots_num_200] and the number of regular slots plus the
    three expansion slots.  Here [required_cols_200] is [7 * cols + 6]
    and [required_slots_num_200] is the ceiling of a twelfth of it.  The
    number loaded is [required_slots_num_200] up to 72 samples; from 73
    samples on it is 6, and 7 or 8 racks are required. *)
Theorem racks_loaded_at_start (p : P1.params) (w : world P1.script) :
  1 <= P1.num_samples p <= 96 ->
  returns (P1.setup p)
    (fun '(pl, _) w' =>
       let loaded :=
         racks_loaded "opentrons_flex_96_filtertiprack_200ul" (since w w') in
       pl = P1.calculation (P1.num_samples p) /\
       loaded = (length (P1.slots_200 pl) + length (P1.slots_200_extra pl))%nat /\
       P1.required_cols_200 pl = 7 * P1.cols pl + 6 /\
       12 * (P1.required_slots_num_200 pl - 1) < P1.required_cols_200 pl
         <= 12 * P1.required_slots_num_200 pl /\
       Z.of_nat loaded =
         Z.min (P1.required_slots_num_200 pl)
               (Z.of_nat (length (P1.regular_slot_list pl)) + 3) /\
       (P1.num_samples p <= 72 -> Z.of_nat loaded = P1.required_slots_num_200 pl) /\
       (73 <= P1.num_samples p ->
        loaded = 6%nat /\ 7 <= P1.required_slots_num_200 pl <= 8)) w.
Proof.
  intros Hn. eapply wp_mono; [by apply P1Facts.setup_spec |].
  intros [[pl d] | ?] w'; [| done].
  intros (-> & _ & _ & _ & _ & L & HL & Hracks & _). cbn zeta.
  rewrite (since_app _ _ _ HL), Hracks.
  destruct (P1Facts.calculation_cols _ Hn) as (_ & _ & Hcols & Hceil & _).
  destruct (P1Facts.calculation_slots _ Hn) as (_ & _ & Hmin & Hle & Hgt & _).
  cbn zeta in *. repeat split; try done; try lia.
  all: intros; specialize (Hgt ltac:(lia)); lia.
Qed.

(** C6, amended, at the default 94 samples. *)
Lemma racks_loaded_at_start_witness :
  1 <= P1.num_samples P1.default_params <= 96 /\
  returns (P1.setup P1.default_params)
    (fun '(pl, _) w' =>
       let loaded :=
         racks_loaded "opentrons_flex_96_filtertiprack_200ul"
           (since P1.power_on w') in
       pl = P1.calculation (P1.num_samples P1.default_params) /\
       loaded = (length (P1.slots_200 pl) + length (P1.slots_200_extra pl))%nat /\
       P1.required_cols_200 pl = 7 * P1.cols pl + 6 /\
       12 * (P1.required_slots_num_200 pl - 1) < P1.required_cols_200 pl
         <= 12 * P1.required_slots_num_200 pl /\
       Z.of_nat loaded =
         Z.min (P1.required_slots_num_200 pl)
               (Z.of_nat (length (P1.regular_slot_list pl)) + 3) /\
       (P1.num_samples P1.default_params <= 72 ->
        Z.of_nat loaded = P1.required_slots_num_200 pl) /\
       (73 <= P1.num_samples P1.default_params ->
        loaded = 6%nat /\ 7 <= P1.required_slots_num_200 pl <= 8)) P1.power_on.
Proof.
  assert (1 <= P1.num_samples P1.default_params <= 96) as Hn by (simpl; lia).
  split; [exact Hn |].
  exact (racks_loaded_at_start P1.default_params P1.power_on Hn).
Defined.

(** C9. The part of [run] of P1_V1 up to the deck setup raises
    [ValueError("The number of samples should be between 1 and 96")]
    exactly when [num_samples] is above 96 or below 1.  It raises before
    any call to the runtime: the world is as it was.  For a value the
    parameter declared in [add_parameters] admits (1 to 96) it does not
    raise: it returns the plan and the deck. *)
Theorem num_samples_range_check (p : P1.params) (w : world P1.script) :
  ((P1.setup p w).1
     = Raise (ValueError "The number of samples should be between 1 and 96")
   <-> P1.num_samples p > 96 \/ P1.num_samples p < 1) /\
  (P1.num_samples p > 96 \/ P1.num_samples p < 1 ->
   (P1.setup p w).2 = w /\ issued (P1.setup p) w = []) /\
  (P1.admits P1.num_samples_parameter (P1.num_samples p) ->
   exists pl d w', P1.setup p w = (Ok (pl, d), w')).
Proof.
  assert (P1.num_samples p > 96 \/ P1.num_samples p < 1 ->
          P1.setup p w
            = (Raise (ValueError "The number of samples should be between 1 and 96"),
               w)) as Hout.
  { intros Hn. unfold P1.setup.
    by rewrite (P1Facts.error_handling_out_of_range _ Hn). }
  assert (1 <= P1.num_samples p <= 96 ->
          exists pl d w', P1.setup p w = (Ok (pl, d), w')) as Hin.
  { intros Hn. pose proof (P1Facts.setup_spec p w Hn) as H.
    unfold returns, wp in H.
    destruct (P1.setup p w) as [[[pl d] | ?] w'] eqn:Hs; [| done].
    by exists pl, d, w'. }
  split; [split |]; [| | split].
  - intros Hr. destruct (decide (1 <= P1.num_samples p <= 96)) as [Hn | Hn]; [| lia].
    destruct (Hin Hn) as (pl & d & w' & Hs). rewrite Hs in Hr. discriminate Hr.
  - intros Hn. by rewrite (Hout Hn).
  - intros Hn. rewrite (Hout Hn). split; [done |].
    unfold issued. rewrite (Hout Hn). unfold since. simpl. apply drop_all.
  - intros Hn. apply Hin. exact Hn.
Qed.

(** C9 with no samples: the error is raised and nothing is issued. *)
Lemma num_samples_range_check_witness :
  let p := {| P1.DRY_WATER_RUN := true; P1.num_samples := 0;
              P1.p50m_mount := "left"; P1.p1000m_mount := "right";
              P1.flow_rate_aspirate := 700; P1.flow_rate_dispense := 700;
              P1.sample_rate := 0.6; P1.beads_rate := 0.2; P1.buffer_rate := 0.8;
              P1.ethanol_rate := 0.8; P1.elution_rate := 0.4 |} in
  (P1.num_samples p > 96 \/ P1.num_samples p < 1) /\
  (P1.setup p P1.power_on).1
    = Raise (ValueError "The number of samples should be between 1 and 96") /\
  (P1.setup p P1.power_on).2 = P1.power_on /\
  issued (P1.setup p) P1.power_on = [].
Proof.
  intros p.
  assert (P1.num_samples p > 96 \/ P1.num_samples p < 1) as Hn by (right; simpl; lia).
  split; [exact Hn |]. split.
  - exact (proj2 (proj1 (num_samples_range_check p P1.power_on)) Hn).
  - exact (proj1 (proj2 (num_samples_range_check p P1.power_on)) Hn).
Defined.

(** C7 as first stated fails: [dt25_beads_prep] calls [well_to_list]
    with [pre_mix=True] for the eleven full columns of a default run, and
    the pipette then draws 20 uL from the source well seven times for
    each destination, 1540 uL in all and not 11 times 20 uL. *)
Lemma pre_mix_draws_from_source_again :
  let src := P1.dt25_beads P1.default_deck in
  let dest_list := P1.mag_prep_cols_m P1.default_plan P1.default_deck in
  let T := transfers P1.p1000m None
             (issued (P1.well_to_list P1.default_params P1.default_plan
                        P1.tip_attached P1.racks_stocked P1.tips_of_200
                        P1.wells_of_14_8 P1.p1000m src dest_list
                        P1.dT25_beads_vol (P1.beads_rate P1.default_params) 1.5
                        true false 0 0 true false 0) P1.default_setup) in
  length dest_list = 11%nat /\
  draws_from src T = replicate 77 P1.dT25_beads_vol /\
  (drawn_volume T == 1540)%Q /\
  ~ (drawn_volume T == P1.dT25_beads_vol * inject_Z (Z.of_nat (length dest_list)))%Q.
Proof.
  split; [| split; [| split]]; [vm_compute; reflexivity .. |].
  vm_compute. discriminate.
Qed.

(** C7, amended.  [well_to_list] returns, and for each destination in
    list order the pipette makes the liquid movements [moves_for]: six
    mixing cycles in the source well when [pre_mix] is set, then one
    aspirate of [transfer_vol] from the source well and one dispense of
    [transfer_vol] into the destination at [z_height], then
    [post_mix_rep] mixing cycles in the destination when [post_mix] is
    set.  Without [pre_mix] and [post_mix] these are exactly one aspirate
    and one dispense for each destination, and the volume drawn is
    [transfer_vol] times the length of the list.  In every case the
    volume taken out of a source well that is not a destination, net of
    what mixing puts back, is [transfer_vol] times the length of the
    list. *)
Theorem well_to_list_moves (p : P1.params) (pl : P1.plan)
    (has_tip : protocol_context -> pipette -> bool)
    (out_of_tips : protocol_context -> bool)
    (max_volume : pipette -> Q) (depth : well -> Q)
    (pip : pipette) (src : well) (dest_list : list well)
    (transfer_vol liquid_rate z_height : Q) (pre_mix post_mix : bool)
    (post_mix_rep : nat) (post_mix_vol : Q) (tip_withdrawal change_tip : bool)
    (index : Z) (here : option point) (w : world P1.script) :
  P1.plan_ok pl ->
  (change_tip = true -> pip <> P1.p1000m -> P1.reset_refills out_of_tips) ->
  P1.tips_inv pl (vars w) ->
  returns (P1.well_to_list p pl has_tip out_of_tips max_volume depth pip src
             dest_list transfer_vol liquid_rate z_height pre_mix post_mix
             post_mix_rep post_mix_vol tip_withdrawal change_tip index)
    (fun _ w' =>
       let T := transfers pip here (since w w') in
       let n := inject_Z (Z.of_nat (length dest_list)) in
       T = dest_list ≫= P1.moves_for max_volume pip src transfer_vol z_height
                           pre_mix post_mix post_mix_rep post_mix_vol /\
       (pre_mix = false -> post_mix = false ->
        T = dest_list ≫= (fun dst =>
              [Drawn transfer_vol (Some {| pt_well := src; pt_pos := in_well |});
               Released transfer_vol
                 (Some {| pt_well := dst; pt_pos := bottom z_height |})]) /\
        (drawn_volume T == transfer_vol * n)%Q) /\
       (src ∉ dest_list -> (net_drawn src T == transfer_vol * n)%Q)) w.
Proof.
  intros Hpl Hreset Hinv.
  eapply wp_mono; [by apply P1Facts.well_to_list_spec |].
  intros [[] | ?] w'; [| done]. intros (_ & _ & Hm). cbn zeta.
  rewrite (moves_since _ here _ _ _ Hm). split; [done |]. split.
  - intros -> ->.
    assert (P1.moves_for max_volume pip src transfer_vol z_height false false
              post_mix_rep post_mix_vol
            = fun dst =>
                [Drawn transfer_vol (Some {| pt_well := src; pt_pos := in_well |});
                 Released transfer_vol
                   (Some {| pt_well := dst; pt_pos := bottom z_height |})]) as ->
      by done.
    split; [done |].
    apply (drawn_volume_single_transfers transfer_vol
             (Some {| pt_well := src; pt_pos := in_well |})
             (fun dst => Some {| pt_well := dst; pt_pos := bottom z_height |})).
  - intros Hnot. by apply P1Facts.net_drawn_well_to_list.
Qed.

(** C7, amended, at the call [dt25_beads_prep] makes in a default run,
    with [pre_mix] set. *)
Lemma well_to_list_moves_witness :
  let src := P1.dt25_beads P1.default_deck in
  let dest_list := P1.mag_prep_cols_m P1.default_plan P1.default_deck in
  P1.plan_ok P1.default_plan /\
  P1.tips_inv P1.default_plan (vars P1.default_setup) /\
  returns (P1.well_to_list P1.default_params P1.default_plan
             P1.tip_attached P1.racks_stocked P1.tips_of_200 P1.wells_of_14_8
             P1.p1000m src dest_list P1.dT25_beads_vol
             (P1.beads_rate P1.default_params) 1.5 true false 0 0 true false 0)
    (fun _ w' =>
       let T := transfers P1.p1000m None (since P1.default_setup w') in
       let n := inject_Z (Z.of_nat (length dest_list)) in
       T = dest_list ≫= P1.moves_for P1.tips_of_200 P1.p1000m src P1.dT25_beads_vol
                           1.5 true false 0 0 /\
       (true = false -> false = false ->
        T = dest_list ≫= (fun dst =>
              [Drawn P1.dT25_beads_vol
                 (Some {| pt_well := src; pt_pos := in_well |});
               Released P1.dT25_beads_vol
                 (Some {| pt_well := dst; pt_pos := bottom 1.5 |})]) /\
        (drawn_volume T == P1.dT25_beads_vol * n)%Q) /\
       (src ∉ dest_list -> (net_drawn src T == P1.dT25_beads_vol * n)%Q))
    P1.default_setup.
Proof.
  intros src dest_list.
  assert (P1.plan_ok P1.default_plan) as Hpl.
  { vm_compute. repeat split; try discriminate; try lia. }
  assert (P1.tips_inv P1.default_plan (vars P1.default_setup)) as Hinv.
  { vm_compute. repeat split; [by right | lia]. }
  split; [exact Hpl |]. split; [exact Hinv |].
  apply (well_to_list_moves P1.default_params P1.default_plan P1.tip_attached
           P1.racks_stocked P1.tips_of_200 P1.wells_of_14_8 P1.p1000m src dest_list
           P1.dT25_beads_vol (P1.beads_rate P1.default_params) 1.5 true false 0 0
           true false 0 None P1.default_setup Hpl).
  - discriminate.
  - exact Hinv.
Defined.

(** C10. In P1_V1 and in P4_V1, in every world a run passes through,
    [pick_up_200] returns: it picks up [tiporder_200[i]] for an index
    [i] below the length of [tiporder_200], and leaves the counter at
    [i + 1].  The index is the counter the call found, unless the counter
    was the length of the list: then the refill branch ran, and the index
    is 0.  The refill branch leaves the counter at 0 and [tiporder_200]
    not empty.  A run with a number of samples from 1 to 96 does pass
    through such worlds. *)
Theorem pick_up_200_indexes_in_bounds :
  (forall p pl d has_tip out_of_tips max_volume depth w,
     P1.reachable p pl d has_tip out_of_tips max_volume depth w ->
     returns (P1.pick_up_200 pl)
       (fun _ w' =>
          exists tip i,
            (i < length (P1.tiporder_200 (vars w')))%nat /\
            P1.tiporder_200 (vars w') !! i = Some tip /\
            pick_ups (since w w') = [(P1.p1000m, Some tip)] /\
            P1.tip_count_200 (vars w') = S i /\
            (if bool_decide (P1.tip_count_200 (vars w)
                             = length (P1.tiporder_200 (vars w)))
             then i = 0%nat
             else i = P1.tip_count_200 (vars w) /\
                  P1.tiporder_200 (vars w') = P1.tiporder_200 (vars w))) w) /\
  (forall p w,
     P4.reachable p w ->
     returns (P4.pick_up_200 (P4.calculation (P4.num_samples p)))
       (fun _ w' =>
          exists tip i,
            (i < length (P4.tiporder_200 (vars w')))%nat /\
            P4.tiporder_200 (vars w') !! i = Some tip /\
            pick_ups (since w w') = [(P4.p1000m, Some tip)] /\
            P4.tip_count_200 (vars w') = S i /\
            (if bool_decide (P4.tip_count_200 (vars w)
                             = length (P4.tiporder_200 (vars w)))
             then i = 0%nat
             else i = P4.tip_count_200 (vars w) /\
                  P4.tiporder_200 (vars w') = P4.tiporder_200 (vars w))) w) /\
  (forall pl w,
     P1.plan_ok pl -> P1.tips_inv pl (vars w) ->
     returns (P1.refill_200 pl)
       (fun _ w' => P1.tip_count_200 (vars w') = 0%nat /\
                    P1.tiporder_200 (vars w') <> []) w) /\
  (forall pl w,
     P4.plan_ok pl -> P4.tips_inv pl (vars w) ->
     returns (P4.refill_200 pl)
       (fun _ w' => P4.tip_count_200 (vars w') = 0%nat /\
                    P4.tiporder_200 (vars w') <> []) w) /\
  (forall p has_tip out_of_tips max_volume depth,
     1 <= P1.num_samples p <= 96 ->
     exists pl d w, P1.reachable p pl d has_tip out_of_tips max_volume depth w) /\
  (forall p, 1 <= P4.num_samples p <= 96 -> exists w, P4.reachable p w).
Proof.
  split; [| split; [| split; [| split; [| split]]]].
  - intros p pl d has_tip out_of_tips max_volume depth w Hr.
    destruct (P1Facts.reachable_tips_inv _ _ _ _ _ _ _ _ Hr) as [Hpl Hinv].
    eapply wp_mono; [apply (P1Facts.pick_up_200_spec pl Hpl w Hinv) |].
    intros [[] | ?] w'; [| done].
    intros (_ & tip & i & Hi & Htip & Hc & Hsame & Hfull & L & HL & _ & Hp).
    exists tip, i. rewrite (since_app _ _ _ HL).
    repeat split; try done. case_bool_decide; auto.
  - intros p w Hr.
    destruct (P4Facts.p4_reachable_tips_inv _ _ Hr) as [Hpl Hinv].
    eapply wp_mono; [apply (P4Facts.p4_pick_up_200_spec _ Hpl w Hinv) |].
    intros [[] | ?] w'; [| done].
    intros (_ & tip & i & Hi & Htip & Hc & Hsame & Hfull & L & HL & _ & Hp).
    exists tip, i. rewrite (since_app _ _ _ HL).
    repeat split; try done. case_bool_decide; auto.
  - intros pl w Hpl Hinv.
    eapply wp_mono; [apply (P1Facts.refill_200_spec pl Hpl w Hinv) |].
    intros [[] | ?] w'; [| done]. by intros (_ & Hc & Hne & _).
  - intros pl w Hpl Hinv.
    eapply wp_mono; [apply (P4Facts.p4_refill_200_spec pl Hpl w Hinv) |].
    intros [[] | ?] w'; [| done]. by intros (_ & Hc & Hne & _).
  - intros p has_tip out_of_tips max_volume depth Hn.
    destruct (P1Facts.protocol_start_returns p has_tip out_of_tips max_volume depth Hn)
      as (pl & d & w0 & w & Hs & Hp).
    exists pl, d, w. by eapply P1.reach_prep.
  - intros p Hn. pose proof (P4Facts.p4_setup_tips p P4.power_on Hn) as H.
    unfold returns, wp in H.
    destruct (P4.setup p P4.power_on) as [[pl | ?] w] eqn:Hs; [| done].
    exists w. by eapply P4.reach_setup.
Qed.

(** C10 after the first step of a default run of P1_V1, where the
    counter is 2, and after the setup of a default run of P4_V1, where
    it is 0. *)
Lemma pick_up_200_indexes_in_bounds_witness :
  P1.reachable P1.default_params P1.default_plan P1.default_deck P1.tip_attached
    P1.racks_stocked P1.tips_of_200 P1.wells_of_14_8 P1.default_start /\
  P4.reachable P4.default_params P4.default_setup /\
  returns (P1.pick_up_200 P1.default_plan)
    (fun _ w' =>
       exists tip i,
         (i < length (P1.tiporder_200 (vars w')))%nat /\
         P1.tiporder_200 (vars w') !! i = Some tip /\
         pick_ups (since P1.default_start w') = [(P1.p1000m, Some tip)] /\
         P1.tip_count_200 (vars w') = S i /\
         (if bool_decide (P1.tip_count_200 (vars P1.default_start)
                          = length (P1.tiporder_200 (vars P1.default_start)))
          then i = 0%nat
          else i = P1.tip_count_200 (vars P1.default_start) /\
               P1.tiporder_200 (vars w')
                 = P1.tiporder_200 (vars P1.default_start))) P1.default_start /\
  returns (P4.pick_up_200 (P4.calculation (P4.num_samples P4.default_params)))
    (fun _ w' =>
       exists tip i,
         (i < length (P4.tiporder_200 (vars w')))%nat /\
         P4.tiporder_200 (vars w') !! i = Some tip /\
         pick_ups (since P4.default_setup w') = [(P4.p1000m, Some tip)] /\
         P4.tip_count_200 (vars w') = S i /\
         (if bool_decide (P4.tip_count_200 (vars P4.default_setup)
                          = length (P4.tiporder_200 (vars P4.default_setup)))
          then i = 0%nat
          else i = P4.tip_count_200 (vars P4.default_setup) /\
               P4.tiporder_200 (vars w')
                 = P4.tiporder_200 (vars P4.default_setup))) P4.default_setup.
Proof.
  assert (P1.reachable P1.default_params P1.default_plan P1.default_deck
            P1.tip_attached P1.racks_stocked P1.tips_of_200 P1.wells_of_14_8
            P1.default_start) as H1.
  { apply (P1.reach_prep _ _ _ _ _ _ _ P1.default_setup); vm_compute; reflexivity. }
  assert (P4.reachable P4.default_params P4.default_setup) as H4.
  { apply (P4.reach_setup _ (P4.calculation (P4.num_samples P4.default_params)));
      vm_compute; reflexivity. }
  split; [exact H1 |]. split; [exact H4 |]. split.
  - exact (proj1 pick_up_200_indexes_in_bounds _ _ _ _ _ _ _ _ H1).
  - exact (proj1 (proj2 pick_up_200_indexes_in_bounds) _ _ H4).
Defined.

End UltraExpressClaims.
(** * More properties of the UltraExpress protocols *)

Module UltraExpressProperties.
Import Flex Rules PyFacts.

(** The commands issued since a world, when the later world is given
    by the commands logged on top of it. *)
Local Ltac since_log :=
  unfold since; wp_simpl; rewrite <- ?app_assoc, drop_app_length;
  cbn [app].

Local Ltac go1 :=
  repeat (first [wp_step | wp_option]; wp_simpl;
          cbn [P1.pause_time P1.tip_count_200 P1.tiporder_200 P1.tips200
               P1.tips200_extra P1.set_pause_time P1.set_tip_count_200
               P1.set_tiporder_200 P1.set_tips200 P1.set_tips200_extra];
          know; cbn beta iota).

(** X1. [custom_mix] of P1_V1 returns for every input and leaves the
    script's variables alone.  It makes [mix_rep] cycles of one aspirate
    and one dispense of the same volume in the mixing well, so it
    releases what it draws and takes nothing out of any well; with
    [mix_rep = 0] it moves no liquid.  The volume is the middle one of
    [a] (2 for the 50 uL pipette, 5 otherwise), 80% of the tip capacity
    and [mvol]: when [a] is at most 80% of the capacity, it is [mvol]
    kept between the two. *)
Theorem custom_mix_returns_liquid (p : P1.params) (max_volume : pipette -> Q)
    (pip : pipette) (mvol : Q) (mix_loc : well) (mix_rep : nat) (blowout : bool)
    (low high : option Q) (here : option point) (w : world P1.script) :
  returns (P1.custom_mix p max_volume pip mvol mix_loc mix_rep blowout low high)
    (fun _ w' =>
       let T := transfers pip here (since w w') in
       let a := if bool_decide (pip = P1.p50m) then 2%Q else 5%Q in
       let b := (0.8 * max_volume pip)%Q in
       let vol := sorted3_1 a b mvol in
       vars w' = vars w /\
       length T = (2 * mix_rep)%nat /\
       (drawn_volume T == vol * inject_Z (Z.of_nat mix_rep))%Q /\
       (released_volume T == drawn_volume T)%Q /\
       (forall x, net_drawn x T == 0)%Q /\
       released_into T = replicate mix_rep mix_loc /\
       ((a <= b)%Q -> (vol == Qmax a (Qmin mvol b))%Q)) w.
Proof.
  eapply wp_mono; [apply P1Facts.custom_mix_spec |].
  intros [[] | ?] w'; [| done]. intros (Hv & Hm). cbn zeta.
  rewrite (moves_since _ here _ _ _ Hm).
  unfold P1.mix_cycles. cbn zeta.
  set (vol := sorted3_1 _ _ mvol).
  set (asp := Some {| pt_well := mix_loc; pt_pos := bottom (height_or low 1.5) |}).
  set (disp := Some {| pt_well := mix_loc; pt_pos := bottom (height_or high 2.5) |}).
  split; [done |]. split; [| split; [| split; [| split; [| split]]]].
  - clear. induction mix_rep as [| n IH]; [done |]. simpl in *. lia.
  - clear. induction mix_rep as [| n IH]; [simpl; ring |].
    rewrite Nat2Z.inj_succ. unfold Z.succ. rewrite inject_Z_plus.
    cbn [replicate mjoin list_join app drawn_volume foldr].
    fold (drawn_volume (mjoin (replicate n [Drawn vol asp; Released vol disp]))).
    rewrite IH. ring.
  - clear. induction mix_rep as [| n IH]; [done |].
    cbn [replicate mjoin list_join app drawn_volume released_volume foldr].
    fold (drawn_volume (mjoin (replicate n [Drawn vol asp; Released vol disp]))).
    fold (released_volume (mjoin (replicate n [Drawn vol asp; Released vol disp]))).
    by rewrite IH.
  - intros x. by apply net_drawn_cycles.
  - clear. induction mix_rep as [| n IH]; [done |]. simpl. by rewrite IH.
  - intros Hab. subst vol. unfold sorted3_1, leb.
    generalize (if bool_decide (pip = P1.p50m) then 2%Q else 5%Q) Hab.
    intros a Ha. set (b := (0.8 * max_volume pip)%Q) in *. clearbody b.
    rewrite (proj2 (Qle_bool_iff a b) Ha).
    assert (forall x y, Qle_bool x y = false -> (y < x)%Q) as Hlt.
    { intros x y E. apply Qnot_le_lt. rewrite <- Qle_bool_iff. congruence. }
    unfold Qmax, Qmin, GenericMinMax.gmax, GenericMinMax.gmin.
    destruct (Qle_bool b mvol) eqn:E1; [| destruct (Qle_bool a mvol) eqn:E2].
    all: try apply Qle_bool_iff in E1; try apply Qle_bool_iff in E2.
    all: try apply Hlt in E1; try apply Hlt in E2.
    all: destruct (mvol ?= b)%Q eqn:C1.
    all: match goal with |- (_ == match ?c with _ => _ end)%Q => destruct c eqn:C2 end.
    all: repeat match goal with
                | H : (_ ?= _)%Q = Eq |- _ => rewrite <- Qeq_alt in H
                | H : (_ ?= _)%Q = Lt |- _ => rewrite <- Qlt_alt in H
                | H : (_ ?= _)%Q = Gt |- _ => rewrite <- Qgt_alt in H
                end.
    all: lra.
Qed.

(** X2. [custom_delay] of P1_V1 with a positive time only waits: it
    issues nothing but delays and assigns no variable.  In a dry run it
    waits once, for [time] seconds.  In a sample run it waits
    [ceil(time / 0.5)] times for half a minute, so for at least [time]
    minutes and for less than half a minute more. *)
Theorem custom_delay_waits (p : P1.params) (name : string) (time : Q)
    (w : world P1.script) :
  (0 < time)%Q ->
  returns (P1.custom_delay p name time)
    (fun _ w' =>
       let n := Z.to_nat (Qceiling (time / 0.5)) in
       vars w' = vars w /\
       length (delays (since w w')) = length (since w w') /\
       (P1.DRY_WATER_RUN p = true -> delays (since w w') = [(0%Q, time)]) /\
       (P1.DRY_WATER_RUN p = false ->
        delays (since w w') = replicate n (0.5%Q, 0%Q) /\
        (time <= 0.5 * inject_Z (Z.of_nat n) < time + 0.5)%Q)) w.
Proof.
  intros Ht. unfold returns, P1.custom_delay.
  assert (forall (g : Q -> command) m s (l : list Q),
            (forall j, delays [g j] = [(m, s)]) ->
            delays (g <$> l) = replicate (length l) (m, s)) as Hd.
  { intros g m s l Hg. induction l as [| j l IH]; [done |].
    rewrite fmap_cons. change (g j :: (g <$> l)) with ([g j] ++ (g <$> l)).
    unfold delays in *. by rewrite omap_app, Hg, IH. }
  assert (forall start step,
            length (arange_down start step)
            = Z.to_nat (Qceiling (start / step))) as Hlen.
  { intros. unfold arange_down. by rewrite length_fmap, length_seq. }
  destruct (P1.DRY_WATER_RUN p); apply wp_for_each_emit; cbn zeta.
  all: rewrite since_log; erewrite Hd by (intros; reflexivity).
  all: rewrite length_replicate, length_fmap, Hlen.
  all: split; [done |]; split; [done |]; split; intros Hdry; try discriminate Hdry.
  - rewrite (Qceiling_comp (time / time) 1) by (field; lra). done.
  - split; [done |].
    pose proof (Qle_ceiling (time / 0.5)) as H1.
    pose proof (Qceiling_lt (time / 0.5)) as H2.
    assert (0 <= Qceiling (time / 0.5)) as H0.
    { assert (0 <= time / 0.5)%Q as H by (apply Qle_shift_div_l; lra).
      apply Qceiling_resp_le in H. exact H. }
    rewrite Z2Nat.id by done.
    set (c := Qceiling (time / 0.5)) in *.
    replace (c - 1) with (c + -1) in H2 by lia. rewrite inject_Z_plus in H2.
    assert (time / 0.5 == time * 2)%Q as E by (field; lra).
    rewrite E in H1, H2. change (inject_Z (-1)) with (-1)%Q in H2. lra.
Qed.

(** X2 for the two minutes of beads binding in a dry run. *)
Lemma custom_delay_waits_witness :
  (0 < P1.beads_binding_time)%Q /\
  returns (P1.custom_delay P1.default_params "dT25 Beads incubation"
             P1.beads_binding_time)
    (fun _ w' =>
       let n := Z.to_nat (Qceiling (P1.beads_binding_time / 0.5)) in
       vars w' = vars P1.default_setup /\
       length (delays (since P1.default_setup w'))
         = length (since P1.default_setup w') /\
       (P1.DRY_WATER_RUN P1.default_params = true ->
        delays (since P1.default_setup w') = [(0%Q, P1.beads_binding_time)]) /\
       (P1.DRY_WATER_RUN P1.default_params = false ->
        delays (since P1.default_setup w') = replicate n (0.5%Q, 0%Q) /\
        (P1.beads_binding_time <= 0.5 * inject_Z (Z.of_nat n)
         < P1.beads_binding_time + 0.5)%Q)) P1.default_setup.
Proof.
  assert (0 < P1.beads_binding_time)%Q as Ht by (vm_compute; reflexivity).
  split; [exact Ht |].
  exact (custom_delay_waits P1.default_params "dT25 Beads incubation"
           P1.beads_binding_time P1.default_setup Ht).
Defined.

(** X3. [pick_up_50] of P1_V1 assigns no tip variable.  When the
    runtime finds a tip, it issues the pick-up and nothing else.  When
    the runtime raises [OutOfTipsError], it pauses once, resets the tip
    racks and tries again: it then either picks up one tip or, if the
    racks are still found empty, lets the second [OutOfTipsError]
    through with no tip picked up. *)
Theorem pick_up_50_retries_once (out_of_tips : protocol_context -> bool)
    (w : world P1.script) :
  wp (P1.pick_up_50 out_of_tips)
    (fun r w' =>
       let L := since w w' in
       P1.same_tips (vars w) (vars w') /\
       (out_of_tips (ctx w) = false ->
        r = Ok tt /\ L = [PickUpTip P1.p50m None]) /\
       (out_of_tips (ctx w) = true ->
        pauses L = [nl +:+ nl +:+ "Replace empty tipracks before resuming."] /\
        ResetTipracks P1.p50m ∈ L /\
        (r = Ok tt /\ pick_ups L = [(P1.p50m, None)] \/
         r = Raise OutOfTipsError /\ pick_ups L = [])) /\
       (P1.reset_refills out_of_tips ->
        r = Ok tt /\ pick_ups L = [(P1.p50m, None)])) w.
Proof.
  unfold P1.pick_up_50, P1.pause_attention. go1.
  destruct (out_of_tips (ctx w)) eqn:Hout; go1.
  - match goal with
    | |- context [out_of_tips ?c] => destruct (out_of_tips c) eqn:Hagain
    end; go1.
    all: since_log.
    all: split; [done |]; split; [done |]; split.
    all: try (intros _; split; [done |]; split; [set_solver |]; auto).
    + intros Hreset. rewrite Hreset in Hagain; [done |]. simpl. apply last_snoc.
    + done.
  - since_log. split; [done |]. split; [done |]. split; [done |]. done.
Qed.

(** X4. [tc_steps] of P1_V1 returns for every input.  It sets the tip
    counter to 0 exactly when the run is a sample run, [custom_message]
    is set and at least seven racks of 200 uL tips are required; it then
    pauses once, for the operator to replace the tips.  Otherwise it
    leaves the counter alone and does not pause.  It assigns no other
    tip variable.  In a dry run the thermocycler only closes and opens
    its lid: no temperature is set. *)
Theorem tc_steps_resets_counter (p : P1.params) (pl : P1.plan) (d : P1.deck)
    (tc_vol lid_temp t1 time1 : Q) (t2 time2 t3 time3 : option Q) (h_temp : Q)
    (custom_message : bool) (w : world P1.script) :
  returns (P1.tc_steps p pl d tc_vol lid_temp t1 time1 t2 time2 t3 time3 h_temp
             custom_message)
    (fun _ w' =>
       let reset := negb (P1.DRY_WATER_RUN p) && custom_message
                    && (P1.required_slots_num_200 pl >=? 7) in
       P1.tip_count_200 (vars w')
         = (if reset then 0%nat else P1.tip_count_200 (vars w)) /\
       P1.tiporder_200 (vars w') = P1.tiporder_200 (vars w) /\
       P1.tips200 (vars w') = P1.tips200 (vars w) /\
       P1.tips200_extra (vars w') = P1.tips200_extra (vars w) /\
       pauses (since w w')
         = (if reset
            then ["Please replace the empty and partial 200ul filter tips before resuming."]
            else []) /\
       (P1.DRY_WATER_RUN p = true ->
        module_calls "thermocycler" (since w w')
          = ["close_lid"; "open_lid"; "deactivate_lid"])) w.
Proof.
  unfold returns, P1.tc_steps, P1.custom_delay, P1.pause_attention.
  destruct (P1.DRY_WATER_RUN p); simpl negb; cbn iota; go1.
  - apply wp_for_each_emit. go1. apply wp_for_each_emit. since_log.
    unfold pauses, module_calls.
    repeat (simpl; rewrite ?omap_app, ?omap_fmap_None by done).
    done.
  - destruct t2, time2, t3, time3; go1.
    all: repeat match goal with
                | |- wp (if ?b then _ else _) _ _ => destruct b eqn:?; go1
                end.
    all: apply wp_for_each_emit; since_log.
    all: unfold pauses, module_calls.
    all: repeat (simpl; rewrite ?omap_app, ?omap_fmap_None by done).
    all: try rewrite andb_true_r.
    all: repeat match goal with
                | H : _ && _ = _ |- _ => rewrite H
                end.
    all: done.
Qed.





(** X6. For every number of samples from 1 to 96, the calculation of
    P1_V1 and that of P4_V1 give every tip rack a deck slot of its own:
    the slots of the 50 uL racks, of the 200 uL racks, of the extra
    200 uL racks and the expansion slots left empty are pairwise
    different, and none of them is a slot where a module or a plate is
    loaded (C1, D1, C2, and in P1_V1 also D2 and D4). *)
Theorem tip_rack_slots_distinct (n : Z) :
  1 <= n <= 96 ->
  (let pl := P1.calculation n in
   let slots := P1.slots_50 pl ++ P1.slots_200 pl ++ P1.slots_200_extra pl
                ++ P1.slots_empty_expansion pl in
   NoDup slots /\
   Forall (fun s => s ∉ ["C1"; "D1"; "C2"; "D2"; "D4"]) slots) /\
  (let pl := P4.calculation n in
   let slots := P4.slots_50 pl ++ P4.slots_200 pl ++ P4.slots_200_extra pl
                ++ P4.slots_empty_expansion pl in
   NoDup slots /\
   Forall (fun s => s ∉ ["C1"; "D1"; "C2"]) slots).
Proof.
  intros Hn. unfold P1.calculation, P4.calculation.
  pose proof (ceil_div_spec n 8 ltac:(lia)) as Hc.
  set (c := ceil_div n 8) in *. clearbody c.
  assert (exists k, (k < 12)%nat /\ c = Z.of_nat (S k)) as (k & Hk & ->).
  { exists (Z.to_nat (c - 1)). lia. }
  clear Hc. destruct (n `mod` 8 =? 0).
  all: do 12 (destruct k as [| k];
              [ try match goal with
                    | |- context [Z.of_nat ?m =? 1] => destruct (Z.of_nat m =? 1)
                    end;
                cbn zeta; apply (bool_decide_unpack _); vm_compute; reflexivity |]).
  all: lia.
Qed.

(** X6 for the default 94 samples. *)
Lemma tip_rack_slots_distinct_witness :
  1 <= 94 <= 96 /\
  (let pl := P1.calculation 94 in
   let slots := P1.slots_50 pl ++ P1.slots_200 pl ++ P1.slots_200_extra pl
                ++ P1.slots_empty_expansion pl in
   NoDup slots /\
   Forall (fun s => s ∉ ["C1"; "D1"; "C2"; "D2"; "D4"]) slots) /\
  (let pl := P4.calculation 94 in
   let slots := P4.slots_50 pl ++ P4.slots_200 pl ++ P4.slots_200_extra pl
                ++ P4.slots_empty_expansion pl in
   NoDup slots /\
   Forall (fun s => s ∉ ["C1"; "D1"; "C2"]) slots).
Proof. split; [lia |]. apply (tip_rack_slots_distinct 94). lia. Defined.

Local Ltac go4 :=
  repeat (first [wp_step | wp_option]; wp_simpl;
          cbn [P4.pause_time P4.tip_count_200 P4.tiporder_200 P4.tips200
               P4.tips200_extra P4.tip_count_50 P4.tiporder_50
               P4.set_pause_time P4.set_tip_count_200 P4.set_tiporder_200
               P4.set_tips200 P4.set_tips200_extra P4.set_tip_count_50];
          know; cbn beta iota).





(** X8. The first step of P1_V1, [dt25_beads_prep], run on the world
    [setup] leaves for any number of samples from 1 to 96: it returns,
    whatever the runtime answers about attached tips, rack resets, tip
    capacities and well depths.  It takes one column of 200 uL tips when
    the number of samples is a multiple of 8 and two when there is a
    partial column, and it does not touch the tip order: no refill
    happens in this step. *)
Theorem dt25_beads_prep_uses_one_or_two_columns (p : P1.params)
    (has_tip : protocol_context -> pipette -> bool)
    (out_of_tips : protocol_context -> bool) (max_volume : pipette -> Q)
    (depth : well -> Q) (change_partial_tip : bool) :
  1 <= P1.num_samples p <= 96 ->
  exists pl d w0,
    P1.setup p P1.power_on = (Ok (pl, d), w0) /\
    returns (P1.dt25_beads_prep p pl d has_tip out_of_tips max_volume depth
               change_partial_tip)
      (fun _ w' =>
         P1.tiporder_200 (vars w') = P1.tiporder_200 (vars w0) /\
         P1.tip_count_200 (vars w')
           = (if P1.num_samples p mod 8 =? 0 then 1%nat else 2%nat)) w0.
Proof.
  intros Hn.
  pose proof (P1Facts.setup_tips p P1.power_on Hn) as H. unfold returns, wp in H.
  destruct (P1.setup p P1.power_on) as [[[pl d] | ?] w0] eqn:Hs; [| done].
  simpl in H. destruct H as (-> & Hok & Hinv & Hc & Hlen).
  eexists _, d, w0. split; [reflexivity |].
  pose proof (P1Facts.dt25_beads_prep_spec p _ has_tip out_of_tips max_volume depth
                Hok d change_partial_tip w0 Hinv Hc Hlen) as H.
  unfold returns in H |- *. eapply wp_mono; [exact H |].
  intros [[] | ?] w1; [| done]. intros (_ & Ho & Hcount).
  split; [done |]. rewrite Hcount.
  assert (truthy_int (P1.cols_s (P1.calculation (P1.num_samples p)))
          = negb (P1.num_samples p mod 8 =? 0)) as ->.
  { unfold P1.calculation.
    pose proof (Z.mod_pos_bound (P1.num_samples p) 8 ltac:(lia)) as Hmod.
    destruct (P1.num_samples p mod 8 =? 0) eqn:E8.
    - repeat match goal with
             | |- context [if ?b then _ else _] => destruct b
             end; reflexivity.
    - repeat match goal with
             | |- context [if ?b then _ else _] => destruct b
             end; cbn [P1.cols_s truthy_int]; lia. }
  by destruct (P1.num_samples p mod 8 =? 0).
Qed.

(** X8 for the default run of 94 samples: two columns of tips. *)
Lemma dt25_beads_prep_uses_one_or_two_columns_witness :
  1 <= P1.num_samples P1.default_params <= 96 /\
  exists pl d w0,
    P1.setup P1.default_params P1.power_on = (Ok (pl, d), w0) /\
    returns (P1.dt25_beads_prep P1.default_params pl d P1.tip_attached
               P1.racks_stocked P1.tips_of_200 P1.wells_of_14_8 true)
      (fun _ w' =>
         P1.tiporder_200 (vars w') = P1.tiporder_200 (vars w0) /\
         P1.tip_count_200 (vars w')
           = (if P1.num_samples P1.default_params mod 8 =? 0
              then 1%nat else 2%nat)) w0.
Proof.
  assert (1 <= P1.num_samples P1.default_params <= 96) as Hn
    by (vm_compute; split; discriminate).
  split; [exact Hn |].
  exact (dt25_beads_prep_uses_one_or_two_columns P1.default_params P1.tip_attached
           P1.racks_stocked P1.tips_of_200 P1.wells_of_14_8 true Hn).
Defined.

(** X15. The part of [run] of P4_V1 from its first line through the deck
    setup raises exactly when the number of samples is outside 1..96, and
    then it is the [ValueError] of the range check, raised before any
    command is issued.  The check of the volumes against 200 uL never
    fires: the volumes are constants of the script, all at most 200.  In
    range, [setup] returns the plan [calculation] gives, with both tip
    counters at 0 and twelve tip columns in the order of use per rack of
    200 uL tips loaded on a deck slot. *)
Theorem p4_setup_raises_only_out_of_range (p : P4.params) (w : world P4.script) :
  (if bool_decide (1 <= P4.num_samples p <= 96)
   then returns (P4.setup p)
          (fun pl w' =>
             pl = P4.calculation (P4.num_samples p) /\
             P4.tip_count_200 (vars w') = 0%nat /\
             P4.tip_count_50 (vars w') = 0%nat /\
             length (P4.tiporder_200 (vars w'))
               = (12 * length (P4.slots_200 pl))%nat) w
   else P4.setup p w
          = (Raise (ValueError "The number of samples should be between 1 and 96"),
             w)).
Proof.
  destruct (bool_decide (1 <= P4.num_samples p <= 96)) eqn:E.
  - apply bool_decide_eq_true in E. unfold returns, P4.setup.
    rewrite (P4Facts.error_handling_in_range _ E). go4.
    eapply wp_mono; [apply load_racks_spec |].
    intros [tips50 | ?] w1; [| done]. intros _.
    apply wp_bind. eapply wp_mono; [apply (load_racks_spec _ (fun x => x)) |].
    intros [tips50_extra | ?] w1'; [| done]. intros _.
    apply wp_bind. eapply wp_mono; [apply load_racks_spec |].
    intros [racks | ?] w2; [| done]. intros (Hlen2 & _).
    apply wp_bind. eapply wp_mono; [apply load_racks_spec |].
    intros [extra | ?] w3; [| done]. intros _.
    go4. split; [done |]. split; [done |]. split; [done |].
    by rewrite P4Facts.length_rows_0, Hlen2.
  - apply bool_decide_eq_false in E.
    unfold P4.setup. rewrite P4Facts.error_handling_raises by lia. reflexivity.
Qed.

End UltraExpressProperties.
(** * More properties of the BombBio protocols *)

Module BombBioProperties.
Import Flex Rules PyFacts.

Local Ltac since_log :=
  unfold since; wp_simpl; rewrite <- ?app_assoc, drop_app_length;
  cbn [app].

Local Ltac go_shake :=
  repeat (first [wp_step | wp_option]; wp_simpl;
          cbn [ShakeV1.ACTIVE_TIPRACKS ShakeV1.BACKUP_TIPRACKS ShakeV1.TIPS_USED
               ShakeV1.COUNTERS ShakeV1.set_active ShakeV1.set_backup
               ShakeV1.set_used ShakeV1.set_counter];
          read_written; know; cbn beta iota).

Local Ltac go_noshake :=
  repeat (first [wp_step | wp_option]; wp_simpl;
          cbn [NoShakeV3.ACTIVE_TIPRACKS NoShakeV3.BACKUP_TIPRACKS
               NoShakeV3.TIPS_USED NoShakeV3.COUNTERS NoShakeV3.set_active
               NoShakeV3.set_backup NoShakeV3.set_used NoShakeV3.set_counter
               NoShakeV3.deckslot NoShakeV3.rack];
          read_written; know; cbn beta iota).

(** X9. [swap_labware] of shake v1 exchanges the places of two different
    labware that are on the deck or off it: afterwards each is where the
    other was, every other labware is where it was, and the script's
    dictionaries are untouched.  It takes three moves; the first parks
    [labware1] in [EMPTYSLOT], or off the deck when no slot is given. *)
Theorem swap_labware_exchanges (labware1 labware2 : labware) (EMPTYSLOT : string)
    (gripper : bool) (a b : location) (w : world ShakeV1.script) :
  parent (ctx w) !! lw_id labware1 = Some a ->
  parent (ctx w) !! lw_id labware2 = Some b ->
  lw_id labware1 <> lw_id labware2 ->
  returns (ShakeV1.swap_labware labware1 labware2 EMPTYSLOT gripper)
    (fun _ w' =>
       parent (ctx w') !! lw_id labware1 = Some b /\
       parent (ctx w') !! lw_id labware2 = Some a /\
       (forall k, k <> lw_id labware1 -> k <> lw_id labware2 ->
                  parent (ctx w') !! k = parent (ctx w) !! k) /\
       vars w' = vars w /\
       exists g park,
         park = (if truthy EMPTYSLOT then Slot EMPTYSLOT else OFF_DECK) /\
         since w w' = [MoveLabware labware1 (Some park) g;
                       MoveLabware labware2 (Some a) g;
                       MoveLabware labware1 (Some b) g]) w.
Proof.
  intros H1 H2 Hne. unfold returns, ShakeV1.swap_labware. go_shake.
  rewrite H1, H2. destruct (truthy EMPTYSLOT); go_shake.
  all: split; [done |].
  all: split; [by rewrite lookup_insert_ne, lookup_insert_eq |].
  all: split; [intros k Hk1 Hk2; by rewrite !lookup_insert_ne |].
  all: split; [done |]; eexists _, _; split; [reflexivity |]; by since_log.
Qed.

(** X9 for the swap of the rack of reused tips with the active 50 uL rack
    that shake v1 makes before eluting. *)
Lemma swap_labware_exchanges_witness :
  let reuse := {| lw_id := 0; lw_load_name := ShakeV1.TIP1000_APINAME |} in
  let tip50 := {| lw_id := 2; lw_load_name := ShakeV1.TIP50_APINAME |} in
  let w := ShakeV1.after_setup in
  parent (ctx w) !! lw_id reuse = Some (Slot "A3") /\
  parent (ctx w) !! lw_id tip50 = Some (Slot ShakeV1.TIP50_OFFDECKSLOT) /\
  lw_id reuse <> lw_id tip50 /\
  returns (ShakeV1.swap_labware reuse tip50 ShakeV1.EMPTYOFFDECKSLOT true)
    (fun _ w' =>
       parent (ctx w') !! lw_id reuse = Some (Slot ShakeV1.TIP50_OFFDECKSLOT) /\
       parent (ctx w') !! lw_id tip50 = Some (Slot "A3") /\
       (forall k, k <> lw_id reuse -> k <> lw_id tip50 ->
                  parent (ctx w') !! k = parent (ctx w) !! k) /\
       vars w' = vars w /\
       exists g park,
         park = (if truthy ShakeV1.EMPTYOFFDECKSLOT
                 then Slot ShakeV1.EMPTYOFFDECKSLOT else OFF_DECK) /\
         since w w' = [MoveLabware reuse (Some park) g;
                       MoveLabware tip50 (Some (Slot "A3")) g;
                       MoveLabware reuse (Some (Slot ShakeV1.TIP50_OFFDECKSLOT)) g]) w.
Proof.
  intros reuse tip50 w.
  assert (parent (ctx w) !! lw_id reuse = Some (Slot "A3")) as H1
    by (vm_compute; reflexivity).
  assert (parent (ctx w) !! lw_id tip50 = Some (Slot ShakeV1.TIP50_OFFDECKSLOT)) as H2
    by (vm_compute; reflexivity).
  assert (lw_id reuse <> lw_id tip50) as Hne by (simpl; lia).
  split; [exact H1 |]. split; [exact H2 |]. split; [exact Hne |].
  exact (swap_labware_exchanges reuse tip50 ShakeV1.EMPTYOFFDECKSLOT true _ _ w
           H1 H2 Hne).
Defined.

(** X10. [swap_tips] of noShake v3, for a tip type that has an entry in
    both dictionaries and a deck slot (the one recorded, or [new_slot]
    when one is given): it returns, and afterwards the active rack of the
    tip type is the backup added last, or a rack loaded for the occasion
    when there was no rack or no backup; that rack sits in the deck slot,
    and the entry records the slot.  The old rack, if there was one, has
    gone to slot A4 when a backup came in and off the deck otherwise.  No
    tip counter changes. *)
Theorem swap_tips_places_rack (tip_type tip_apiname : string)
    (new_slot : option string) (e : NoShakeV3.rack_entry) (bl : list labware)
    (s : string) (w : world NoShakeV3.script) :
  NoShakeV3.ACTIVE_TIPRACKS (vars w) !! tip_type = Some e ->
  NoShakeV3.BACKUP_TIPRACKS (vars w) !! tip_type = Some bl ->
  (if truthy_opt new_slot then new_slot else NoShakeV3.deckslot e) = Some s ->
  returns (NoShakeV3.swap_tips tip_type tip_apiname new_slot)
    (fun _ w' =>
       let fresh := {| lw_id := next_labware (ctx w); lw_load_name := tip_apiname |} in
       let new_box := match NoShakeV3.rack e, pop bl with
                      | Some _, Some (b, _) => b
                      | _, _ => fresh
                      end in
       NoShakeV3.ACTIVE_TIPRACKS (vars w') !! tip_type
         = Some {| NoShakeV3.deckslot := Some s; NoShakeV3.rack := Some new_box |} /\
       parent (ctx w') !! lw_id new_box = Some (Slot s) /\
       (forall old, NoShakeV3.rack e = Some old -> lw_id old <> lw_id new_box ->
          parent (ctx w') !! lw_id old
            = Some (match bl with [] => OFF_DECK | _ :: _ => Slot "A4" end)) /\
       NoShakeV3.TIPS_USED (vars w') = NoShakeV3.TIPS_USED (vars w)) w.
Proof.
  intros He Hbl Hs.
  unfold returns, NoShakeV3.swap_tips, NoShakeV3.active, NoShakeV3.backup.
  go_noshake.
  destruct (truthy_opt new_slot) eqn:Hslot; go_noshake.
  all: destruct (NoShakeV3.rack e) as [old |] eqn:Hrack; go_noshake.
  all: try (destruct bl as [| b0 bl0]; go_noshake).
  all: try (destruct (pop_cons_is_Some b0 bl0) as [[b bl'] Hpop];
            rewrite Hpop; go_noshake).
  all: rewrite ?Hrack, ?Hs; cbn [fmap option_fmap option_map]; go_noshake.
  all: split; [by rewrite ?Hs |].
  all: split; [by rewrite lookup_insert_eq |].
  all: split; [| done].
  all: intros old' Hold Hne; try discriminate Hold.
  all: injection Hold as <-.
  all: by rewrite lookup_insert_ne, lookup_insert_eq by done.
Qed.

(** X10 for the call that loads the 50 uL tips before the elution:
    [swap_tips('tip50', ..., new_slot='A3')], where no rack was active. *)
Lemma swap_tips_places_rack_witness :
  let w := NoShakeV3.after_setup in
  let e := {| NoShakeV3.deckslot := None; NoShakeV3.rack := None |} in
  NoShakeV3.ACTIVE_TIPRACKS (vars w) !! "tip50" = Some e /\
  NoShakeV3.BACKUP_TIPRACKS (vars w) !! "tip50" = Some [] /\
  (if truthy_opt (Some "A3") then Some "A3" else NoShakeV3.deckslot e) = Some "A3" /\
  returns (NoShakeV3.swap_tips "tip50" NoShakeV3.TIP50_apiname (Some "A3"))
    (fun _ w' =>
       let fresh := {| lw_id := next_labware (ctx w);
                       lw_load_name := NoShakeV3.TIP50_apiname |} in
       let new_box := match NoShakeV3.rack e, pop [] with
                      | Some _, Some (b, _) => b
                      | _, _ => fresh
                      end in
       NoShakeV3.ACTIVE_TIPRACKS (vars w') !! "tip50"
         = Some {| NoShakeV3.deckslot := Some "A3";
                   NoShakeV3.rack := Some new_box |} /\
       parent (ctx w') !! lw_id new_box = Some (Slot "A3") /\
       (forall old, NoShakeV3.rack e = Some old -> lw_id old <> lw_id new_box ->
          parent (ctx w') !! lw_id old
            = Some (match @nil labware with [] => OFF_DECK | _ :: _ => Slot "A4" end)) /\
       NoShakeV3.TIPS_USED (vars w') = NoShakeV3.TIPS_USED (vars w)) w.
Proof.
  intros w e.
  assert (NoShakeV3.ACTIVE_TIPRACKS (vars w) !! "tip50" = Some e) as He
    by (vm_compute; reflexivity).
  assert (NoShakeV3.BACKUP_TIPRACKS (vars w) !! "tip50" = Some []) as Hbl
    by (vm_compute; reflexivity).
  split; [exact He |]. split; [exact Hbl |]. split; [reflexivity |].
  exact (swap_tips_places_rack "tip50" NoShakeV3.TIP50_apiname (Some "A3") e []
           "A3" w He Hbl eq_refl).
Defined.

(** X11. In noShake v3, for a tip type whose entry has no rack yet (as
    'tip50' has after the deck setup) and whose counter is not 12:
    [get_next_tip] raises [TypeError] and changes nothing, no command is
    issued and no counter moves.  After [swap_tips] for that tip type,
    [get_next_tip] returns: it picks up the tip in column [A(n+1)] of the
    rack [swap_tips] loaded, and the counter goes from [n] to [n + 1]. *)
Theorem get_next_tip_needs_a_rack (pip : pipette) (tip_type tip_apiname : string)
    (new_slot : option string) (e : NoShakeV3.rack_entry) (n : Z)
    (w : world NoShakeV3.script) :
  NoShakeV3.ACTIVE_TIPRACKS (vars w) !! tip_type = Some e ->
  NoShakeV3.rack e = None ->
  NoShakeV3.TIPS_USED (vars w) !! tip_type = Some n ->
  n <> 12 ->
  NoShakeV3.get_next_tip pip tip_type tip_apiname w
    = (Raise (TypeError "'NoneType' object is not subscriptable"), w) /\
  returns (NoShakeV3.swap_tips tip_type tip_apiname new_slot
           ≫= (fun _ => NoShakeV3.get_next_tip pip tip_type tip_apiname))
    (fun _ w' =>
       let fresh := {| lw_id := next_labware (ctx w); lw_load_name := tip_apiname |} in
       pick_ups (since w w')
         = [(pip, Some {| w_labware := fresh; w_name := "A" +:+ pretty (n + 1) |})] /\
       NoShakeV3.rack <$> NoShakeV3.ACTIVE_TIPRACKS (vars w') !! tip_type
         = Some (Some fresh) /\
       NoShakeV3.TIPS_USED (vars w') !! tip_type = Some (n + 1)) w.
Proof.
  intros He Hrack Hn Hne.
  assert ((n =? 12) = false) as E by lia.
  split.
  - assert (wp (NoShakeV3.get_next_tip pip tip_type tip_apiname)
              (fun r w' =>
                 (r, w') = (Raise (TypeError "'NoneType' object is not subscriptable"),
                            w)) w) as H.
    { unfold NoShakeV3.get_next_tip, NoShakeV3.used, NoShakeV3.active.
      go_noshake. rewrite ?E. go_noshake. rewrite ?Hrack. by go_noshake. }
    unfold wp in H. by destruct (NoShakeV3.get_next_tip _ _ _ w).
  - unfold returns, NoShakeV3.swap_tips, NoShakeV3.get_next_tip, NoShakeV3.active,
      NoShakeV3.used.
    go_noshake.
    destruct (truthy_opt new_slot) eqn:Hslot; go_noshake.
    all: rewrite ?Hrack; go_noshake.
    all: rewrite ?E; go_noshake.
    all: since_log.
    all: by rewrite ?lookup_insert_eq.
Qed.

(** X11 for 'tip50' after the deck setup, loaded into slot A3 as the
    script does before the elution. *)
Lemma get_next_tip_needs_a_rack_witness :
  let w := NoShakeV3.after_setup in
  let e := {| NoShakeV3.deckslot := None; NoShakeV3.rack := None |} in
  NoShakeV3.ACTIVE_TIPRACKS (vars w) !! "tip50" = Some e /\
  NoShakeV3.TIPS_USED (vars w) !! "tip50" = Some 0 /\
  NoShakeV3.get_next_tip NoShakeV3.p50 "tip50" NoShakeV3.TIP50_apiname w
    = (Raise (TypeError "'NoneType' object is not subscriptable"), w) /\
  returns (NoShakeV3.swap_tips "tip50" NoShakeV3.TIP50_apiname (Some "A3")
           ≫= (fun _ => NoShakeV3.get_next_tip NoShakeV3.p50 "tip50"
                          NoShakeV3.TIP50_apiname))
    (fun _ w' =>
       let fresh := {| lw_id := next_labware (ctx w);
                       lw_load_name := NoShakeV3.TIP50_apiname |} in
       pick_ups (since w w')
         = [(NoShakeV3.p50,
             Some {| w_labware := fresh; w_name := "A" +:+ pretty (0 + 1) |})] /\
       NoShakeV3.rack <$> NoShakeV3.ACTIVE_TIPRACKS (vars w') !! "tip50"
         = Some (Some fresh) /\
       NoShakeV3.TIPS_USED (vars w') !! "tip50" = Some (0 + 1)) w.
Proof.
  intros w e.
  assert (NoShakeV3.ACTIVE_TIPRACKS (vars w) !! "tip50" = Some e) as He
    by (vm_compute; reflexivity).
  assert (NoShakeV3.TIPS_USED (vars w) !! "tip50" = Some 0) as Hn
    by (vm_compute; reflexivity).
  split; [exact He |]. split; [exact Hn |].
  exact (get_next_tip_needs_a_rack NoShakeV3.p50 "tip50" NoShakeV3.TIP50_apiname
           (Some "A3") e 0 w He eq_refl Hn ltac:(lia)).
Defined.

(** X12. The Rebind step of noShake v3, run after the deck setup with
    any volume and any number [N] of sample columns from 1 to 12: it
    returns and uses one tip for the whole step.  Counting the sample
    columns from 0, binding buffer is released into column [j] exactly
    when [j mod 4] is not 3, once each and in order: the slice
    [SAMPLECOLS[i*4:i*4+3]] leaves out the last column of every group of
    four.  The binding buffer comes from [ceil(N / 4)] source columns of
    the reagent plate, starting at column 3. *)
Theorem rebind_skips_fourth_columns (REBINDVOL : Q) (N : Z) :
  1 <= N <= 12 ->
  let r := NoShakeV3.rebind NoShakeV3.the_deck REBINDVOL N NoShakeV3.after_setup in
  let L := since NoShakeV3.after_setup r.2 in
  let T := transfers NoShakeV3.p1000 None L in
  let served := List.filter (fun j => negb (j mod 4 =? 3)%nat) (seq 0 (Z.to_nat N)) in
  r.1 = Ok tt /\
  released_into T
    = (fun j => {| w_labware := NoShakeV3.SamplePlate NoShakeV3.the_deck;
                   w_name := "A" +:+ pretty (S j) |}) <$> served /\
  length T = (2 * length served)%nat /\
  length (pick_ups L) = 1%nat /\
  NoShakeV3.BindingBuffer_cols_keys N
    = Ok ((fun i => pretty (3 + Z.of_nat i)) <$> seq 0 (Z.to_nat (ceil_div N 4))).
Proof.
  intros HN.
  assert (exists k, (k < 12)%nat /\ N = Z.of_nat (S k)) as (k & Hk & ->).
  { exists (Z.to_nat (N - 1)). lia. }
  do 12 (destruct k as [| k];
         [cbn zeta; split; [| split; [| split; [| split]]]; vm_compute; reflexivity |]).
  lia.
Qed.

(** X12 for the eight sample columns of a full run of two groups. *)
Lemma rebind_skips_fourth_columns_witness :
  1 <= 8 <= 12 /\
  let r := NoShakeV3.rebind NoShakeV3.the_deck 500 8 NoShakeV3.after_setup in
  let L := since NoShakeV3.after_setup r.2 in
  let T := transfers NoShakeV3.p1000 None L in
  let served := List.filter (fun j => negb (j mod 4 =? 3)%nat) (seq 0 (Z.to_nat 8)) in
  r.1 = Ok tt /\
  released_into T
    = (fun j => {| w_labware := NoShakeV3.SamplePlate NoShakeV3.the_deck;
                   w_name := "A" +:+ pretty (S j) |}) <$> served /\
  length T = (2 * length served)%nat /\
  length (pick_ups L) = 1%nat /\
  NoShakeV3.BindingBuffer_cols_keys 8
    = Ok ((fun i => pretty (3 + Z.of_nat i)) <$> seq 0 (Z.to_nat (ceil_div 8 4))).
Proof. split; [lia |]. apply (rebind_skips_fourth_columns 500 8). lia. Defined.

(** X13. [load_new_tips] of shake v1, for a tip type whose active rack
    stands somewhere and whose newest backup, if there is one, is another
    labware that stands somewhere: it returns, the rack that comes in
    (the backup added last, or a rack loaded off the deck when there is
    no backup) ends up where the old rack stood and becomes the active
    rack with its counter at 0, and the backup list loses its last
    entry.  The old rack goes where the backup stood, or off the deck
    when there was no backup. *)
Theorem load_new_tips_takes_old_place (tip_type tip_apiname slot : string)
    (old : labware) (bl : list labware) (a : location) (w : world ShakeV1.script) :
  ShakeV1.ACTIVE_TIPRACKS (vars w) !! tip_type = Some (Some old) ->
  ShakeV1.BACKUP_TIPRACKS (vars w) !! tip_type = Some bl ->
  parent (ctx w) !! lw_id old = Some a ->
  (lw_id old < next_labware (ctx w))%nat ->
  (forall b, last bl = Some b ->
     lw_id b <> lw_id old /\ is_Some (parent (ctx w) !! lw_id b)) ->
  returns (ShakeV1.load_new_tips tip_type tip_apiname slot)
    (fun _ w' =>
       let new_box := swapped_in tip_apiname bl (ctx w) in
       ShakeV1.ACTIVE_TIPRACKS (vars w') !! tip_type = Some (Some new_box) /\
       ShakeV1.BACKUP_TIPRACKS (vars w') !! tip_type = Some (removelast bl) /\
       ShakeV1.TIPS_USED (vars w') !! tip_type = Some 0 /\
       parent (ctx w') !! lw_id new_box = Some a /\
       parent (ctx w') !! lw_id old
         = match last bl with
           | Some b => parent (ctx w) !! lw_id b
           | None => Some OFF_DECK
           end) w.
Proof.
  intros He Hbl Ha Hold Hb.
  unfold returns, ShakeV1.load_new_tips, ShakeV1.load_active_tips,
    ShakeV1.swap_labware, ShakeV1.active, ShakeV1.backup, swapped_in.
  go_shake. rewrite ?He. go_shake. rewrite ?Ha.
  destruct bl as [| x bl' _] using rev_ind.
  - go_shake. rewrite !lookup_insert_eq.
    split; [done |]. split; [done |]. split; [done |]. split; [done |].
    rewrite lookup_insert_ne by (simpl; lia). by rewrite lookup_insert_eq.
  - destruct (Hb x (last_snoc _ _)) as [Hne [c Hc]].
    rewrite last_snoc, removelast_last, pop_snoc.
    destruct bl' as [| y bl'']; cbn [app].
    all: go_shake; rewrite ?Ha, ?Hc; destruct (truthy slot); go_shake.
    all: try change (truthy "") with false; cbn iota; go_shake.
    all: rewrite ?Ha, ?Hc; go_shake.
    all: rewrite ?lookup_insert_eq.
    all: split; [done |]; split; [done |]; split; [done |].
    all: split; [by rewrite lookup_insert_ne, lookup_insert_eq by done |].
    all: by rewrite ?lookup_insert_eq.
Qed.

(** X13 for the first swap of 1000 uL racks in a run of shake v1: the
    active rack in B3 and the backup in B4 change places. *)
Lemma load_new_tips_takes_old_place_witness :
  let w := ShakeV1.after_setup in
  let old := {| lw_id := 1; lw_load_name := ShakeV1.TIP1000_APINAME |} in
  let b := {| lw_id := 3; lw_load_name := ShakeV1.TIP1000_APINAME |} in
  returns (ShakeV1.load_new_tips "tip1000" ShakeV1.TIP1000_APINAME
             ShakeV1.EMPTYOFFDECKSLOT)
    (fun _ w' =>
       let new_box := swapped_in ShakeV1.TIP1000_APINAME [b] (ctx w) in
       ShakeV1.ACTIVE_TIPRACKS (vars w') !! "tip1000" = Some (Some new_box) /\
       ShakeV1.BACKUP_TIPRACKS (vars w') !! "tip1000" = Some (removelast [b]) /\
       ShakeV1.TIPS_USED (vars w') !! "tip1000" = Some 0 /\
       parent (ctx w') !! lw_id new_box = Some (Slot ShakeV1.TIP1000_DECKSLOT) /\
       parent (ctx w') !! lw_id old
         = match last [b] with
           | Some b => parent (ctx w) !! lw_id b
           | None => Some OFF_DECK
           end) w.
Proof.
  intros w old b.
  apply (load_new_tips_takes_old_place "tip1000" ShakeV1.TIP1000_APINAME
           ShakeV1.EMPTYOFFDECKSLOT old [b] (Slot ShakeV1.TIP1000_DECKSLOT) w).
  - vm_compute; reflexivity.
  - vm_compute; reflexivity.
  - vm_compute; reflexivity.
  - vm_compute; lia.
  - intros b' [= <-]. split; [simpl; lia | eexists; vm_compute; reflexivity].
Defined.



End BombBioProperties.
